(** * 4more-inventory: the product scraper of [app.py]

  A shallow embedding of [ProductScraper] (app.py, lines 1095-1973) and of
  the routes that read Airtable or call the scraper (lines 1977-2243 and
  2316-2331), and the properties of their results.

  Conventions.
  - A Python [str] is a Rocq [string] whose characters are read as the code
    points 0..255 (Latin-1); the character predicates below are Python's on
    that range. Texts with other characters are outside the model; so is a
    [print] that cannot encode its text.
  - A Python [dict] is an association list in insertion order.
  - A [float] is carried by its [repr]; its value, which equality needs, is
    given by the library.
  - The libraries the scraper calls ([requests], [bs4], [json], [urllib])
    are not part of the repository: the fetched response and the parsed
    document, with the JSON it embeds already decoded, are data; [urljoin],
    which may raise, and the HTML parser are parameters. [re] is modelled by
    a backtracking matcher over a small pattern syntax. *)

From Stdlib Require Import String Ascii List Bool Arith NArith ZArith Lia.
From Stdlib Require Import DecimalString.
Import ListNotations.
Local Open Scope list_scope.
Local Open Scope string_scope.

Set Implicit Arguments.
Set Warnings "-register-all".
Set Warnings "-notation-overridden".
Set Warnings "-notation-incompatible-prefix".

(* ================================================================== *)
(** ** Python strings *)

Module PyStr.

Definition code (c : ascii) : N := N_of_ascii c.

Definition in_range (lo hi : N) (c : ascii) : bool :=
  ((lo <=? code c) && (code c <=? hi))%N.

(** [str.isspace] on one character. *)
Definition isspace (c : ascii) : bool :=
  in_range 9 13 c || in_range 28 32 c
  || (code c =? 133)%N || (code c =? 160)%N.

(** The class [\d] of [re] on [str] patterns: decimal digits. *)
Definition is_decimal (c : ascii) : bool := in_range 48 57 c.

(** [str.isdigit] on one character (it also accepts the superscripts). *)
Definition isdigit_char (c : ascii) : bool :=
  is_decimal c || (code c =? 178)%N || (code c =? 179)%N || (code c =? 185)%N.

(** [str.isupper] on one character. *)
Definition isupper (c : ascii) : bool :=
  in_range 65 90 c || in_range 192 214 c || in_range 216 222 c.

(** [str.isalnum] on one character, or an underscore: the class [\w]. *)
Definition is_word (c : ascii) : bool :=
  in_range 48 57 c || in_range 65 90 c || in_range 97 122 c
  || (code c =? 95)%N
  || (code c =? 170)%N || (code c =? 178)%N || (code c =? 179)%N
  || (code c =? 181)%N || (code c =? 185)%N || (code c =? 186)%N
  || in_range 188 190 c || in_range 192 214 c || in_range 216 246 c
  || in_range 248 255 c.

Definition lower_char (c : ascii) : ascii :=
  if isupper c then ascii_of_N (code c + 32) else c.

(** [s.lower()] *)
Fixpoint lower (s : string) : string :=
  match s with
  | EmptyString => EmptyString
  | String c s' => String (lower_char c) (lower s')
  end.

(** [len(s)] *)
Definition len (s : string) : nat := String.length s.

(** [s.startswith(p)] *)
Fixpoint startswith (p s : string) : bool :=
  match p, s with
  | EmptyString, _ => true
  | String a p', String b s' => Ascii.eqb a b && startswith p' s'
  | String _ _, EmptyString => false
  end.

(** [p in s] for strings: [p] occurs in [s]. *)
Fixpoint contains (p s : string) : bool :=
  startswith p s
  || match s with
     | EmptyString => false
     | String _ s' => contains p s'
     end.

Fixpoint rev_acc (s acc : string) : string :=
  match s with
  | EmptyString => acc
  | String c s' => rev_acc s' (String c acc)
  end.

Definition rev (s : string) : string := rev_acc s EmptyString.

(** [s.endswith(p)] *)
Definition endswith (p s : string) : bool := startswith (rev p) (rev s).

Fixpoint lstrip (s : string) : string :=
  match s with
  | String c s' => if isspace c then lstrip s' else s
  | EmptyString => EmptyString
  end.

Definition rstrip (s : string) : string := rev (lstrip (rev s)).

(** [s.strip()] *)
Definition strip (s : string) : string := rstrip (lstrip s).

Fixpoint lstrip_char (x : ascii) (s : string) : string :=
  match s with
  | String c s' => if Ascii.eqb c x then lstrip_char x s' else s
  | EmptyString => EmptyString
  end.

(** [s.rstrip(x)] for a one-character [x]. *)
Definition rstrip_char (x : ascii) (s : string) : string :=
  rev (lstrip_char x (rev s)).

(** [s.replace(x, '')] for a one-character [x]. *)
Fixpoint remove_char (x : ascii) (s : string) : string :=
  match s with
  | EmptyString => EmptyString
  | String c s' =>
      if Ascii.eqb c x then remove_char x s' else String c (remove_char x s')
  end.

Fixpoint all_chars (p : ascii -> bool) (s : string) : bool :=
  match s with
  | EmptyString => true
  | String c s' => p c && all_chars p s'
  end.

(** [s.isdigit()] *)
Definition isdigit (s : string) : bool :=
  match s with
  | EmptyString => false
  | _ => all_chars isdigit_char s
  end.

(** [s[:n]] *)
Fixpoint prefix (n : nat) (s : string) : string :=
  match n, s with
  | S n', String c s' => String c (prefix n' s')
  | _, _ => EmptyString
  end.

(** [s.split(x)] for a one-character separator: the fields between the
    separators, empty ones kept. *)
Fixpoint split_on (x : ascii) (s : string) : list string :=
  match s with
  | EmptyString => [EmptyString]
  | String c s' =>
      if Ascii.eqb c x then EmptyString :: split_on x s'
      else match split_on x s' with
           | w :: ws => String c w :: ws
           | [] => [String c EmptyString]
           end
  end.

(** [s.split()]: the maximal runs of non-space characters. *)
Fixpoint split_ws_aux (s : string) (cur : string) : list string :=
  match s with
  | EmptyString =>
      match cur with EmptyString => [] | _ => [rev cur] end
  | String c s' =>
      if isspace c then
        match cur with
        | EmptyString => split_ws_aux s' EmptyString
        | _ => rev cur :: split_ws_aux s' EmptyString
        end
      else split_ws_aux s' (String c cur)
  end.

Definition split (s : string) : list string := split_ws_aux s EmptyString.

(** [' '.join(l)] and [''.join(l)] *)
Fixpoint join (sep : string) (l : list string) : string :=
  match l with
  | [] => EmptyString
  | [x] => x
  | x :: l' => x ++ sep ++ join sep l'
  end.

(** Truthiness of a string: non-empty. *)
Definition nonempty (s : string) : bool :=
  match s with EmptyString => false | _ => true end.

End PyStr.


(* ================================================================== *)
(** ** Regular expressions: the part of [re] the scraper uses

    Patterns are syntax trees; the matcher is the usual backtracking one
    (leftmost start, alternatives in order, greedy repetition), written in
    continuation-passing style. *)

Module Re.

Inductive regex : Type :=
| Eps                              (* the empty pattern *)
| Chr (p : ascii -> bool)          (* one character of a class *)
| Cat (r1 r2 : regex)              (* r1 r2 *)
| Alt (r1 r2 : regex)              (* r1|r2 *)
| Star (r : regex)                 (* r*, greedy *)
| Group (i : nat) (r : regex)      (* the i-th capturing group *)
| WordB                            (* \b *)
| Bol                              (* ^ *)
| Eol.                             (* $ *)

(** The state of one match attempt: the character before the position
    (for [\b] and [^]), the text still to read, and the groups captured
    so far, most recent first. *)
Record mstate : Type := mkM {
  m_prev : option ascii;
  m_rest : list ascii;
  m_caps : list (nat * list ascii)
}.

Definition advance (c : ascii) (s : list ascii) (st : mstate) : mstate :=
  mkM (Some c) s (m_caps st).

(** The text read between two states of one attempt. *)
Definition consumed (st st1 : mstate) : list ascii :=
  firstn (length (m_rest st) - length (m_rest st1)) (m_rest st).

Definition set_cap (i : nat) (w : list ascii) (st : mstate) : mstate :=
  mkM (m_prev st) (m_rest st) ((i, w) :: m_caps st).

Fixpoint get_cap (i : nat) (caps : list (nat * list ascii)) : option (list ascii) :=
  match caps with
  | [] => None
  | (j, w) :: caps' => if Nat.eqb i j then Some w else get_cap i caps'
  end.

Definition word_opt (c : option ascii) : bool :=
  match c with Some x => PyStr.is_word x | None => false end.

Definition at_boundary (st : mstate) : bool :=
  xorb (word_opt (m_prev st)) (word_opt (hd_error (m_rest st))).

Definition at_start (st : mstate) : bool :=
  match m_prev st with None => true | Some _ => false end.

(** [$] without MULTILINE: at the end, or before a final newline. *)
Definition at_end (st : mstate) : bool :=
  match m_rest st with
  | [] => true
  | [c] => (PyStr.code c =? 10)%N
  | _ => false
  end.

(** [rmatch r st k]: the pattern [r] is matched at [st], and [k] decides
    on the state that is reached; a [None] of [k] makes the matcher go back
    to the last choice. A round of [r*] has to read something, so the
    length of the text bounds the number of rounds. *)
Fixpoint rmatch (r : regex) (st : mstate) (k : mstate -> option mstate)
  {struct r} : option mstate :=
  match r with
  | Eps => k st
  | Chr p =>
      match m_rest st with
      | c :: s => if p c then k (advance c s st) else None
      | [] => None
      end
  | Cat r1 r2 => rmatch r1 st (fun st1 => rmatch r2 st1 k)
  | Alt r1 r2 =>
      match rmatch r1 st k with
      | Some m => Some m
      | None => rmatch r2 st k
      end
  | Star r1 =>
      (fix loop (fuel : nat) (st : mstate) {struct fuel} : option mstate :=
         match fuel with
         | O => k st
         | S fuel' =>
             match rmatch r1 st
                     (fun st1 =>
                        if Nat.ltb (length (m_rest st1)) (length (m_rest st))
                        then loop fuel' st1 else None) with
             | Some m => Some m
             | None => k st
             end
         end) (length (m_rest st)) st
  | Group i r1 => rmatch r1 st (fun st1 => k (set_cap i (consumed st st1) st1))
  | WordB => if at_boundary st then k st else None
  | Bol => if at_start st then k st else None
  | Eol => if at_end st then k st else None
  end.

(** One attempt at a given position. *)
Definition match_here (r : regex) (st : mstate) : option mstate :=
  rmatch r st (fun st1 => Some st1).

(** A match object: the text of group 0 and the captured groups. *)
Record rematch : Type := mkMatch {
  group0 : string;
  caps : list (nat * list ascii)
}.

(** [m.group(i)] for [i >= 1]; [None] when the group took no part. *)
Definition group (m : rematch) (i : nat) : option string :=
  option_map string_of_list_ascii (get_cap i (caps m)).

Definition mk_result (st st1 : mstate) : rematch :=
  mkMatch (string_of_list_ascii (consumed st st1)) (m_caps st1).

(** [re.search]: the first position, from the left, where an attempt
    succeeds. *)
Fixpoint search_from (r : regex) (prev : option ascii) (s : list ascii)
  : option rematch :=
  let st := mkM prev s [] in
  match match_here r st with
  | Some st1 => Some (mk_result st st1)
  | None =>
      match s with
      | [] => None
      | c :: s' => search_from r (Some c) s'
      end
  end.

Definition search (r : regex) (text : string) : option rematch :=
  search_from r None (list_ascii_of_string text).

(** [re.sub(r, '', text)]: every match, found from left to right, is
    deleted. An empty match deletes nothing. Every step reads a character,
    so the fuel [sub_empty] gives, one more than the length, never runs
    out. *)
Fixpoint sub_from (fuel : nat) (r : regex) (prev : option ascii)
  (s : list ascii) : list ascii :=
  match fuel with
  | O => s
  | S fuel' =>
      let st := mkM prev s [] in
      let skip :=
        match s with
        | [] => []
        | c :: s' => c :: sub_from fuel' r (Some c) s'
        end in
      match match_here r st with
      | Some st1 =>
          if Nat.ltb (length (m_rest st1)) (length s)
          then sub_from fuel' r (m_prev st1) (m_rest st1)
          else skip
      | None => skip
      end
  end.

Definition sub_empty (r : regex) (text : string) : string :=
  let s := list_ascii_of_string text in
  string_of_list_ascii (sub_from (S (length s)) r None s).

(** *** Pattern syntax *)

Definition chr (c : ascii) : regex := Chr (Ascii.eqb c).

(** One character under IGNORECASE. *)
Definition ichr (c : ascii) : regex :=
  Chr (fun x => Ascii.eqb (PyStr.lower_char x) (PyStr.lower_char c)).

Fixpoint lit (s : string) : regex :=
  match s with
  | EmptyString => Eps
  | String c EmptyString => chr c
  | String c s' => Cat (chr c) (lit s')
  end.

Fixpoint ilit (s : string) : regex :=
  match s with
  | EmptyString => Eps
  | String c EmptyString => ichr c
  | String c s' => Cat (ichr c) (ilit s')
  end.

Definition digit : regex := Chr PyStr.is_decimal.          (* \d *)
Definition space : regex := Chr PyStr.isspace.             (* \s *)
Definition opt (r : regex) : regex := Alt r Eps.           (* r? *)
Definition plus (r : regex) : regex := Cat r (Star r).     (* r+ *)

(** [r{n}] *)
Fixpoint rep (n : nat) (r : regex) : regex :=
  match n with
  | O => Eps
  | S O => r
  | S n' => Cat r (rep n' r)
  end.

(** [r{0,n}], greedy *)
Fixpoint upto (n : nat) (r : regex) : regex :=
  match n with
  | O => Eps
  | S n' => opt (Cat r (upto n' r))
  end.

(** [r{lo,hi}] *)
Definition range (lo hi : nat) (r : regex) : regex :=
  match lo with
  | O => upto hi r
  | _ => Cat (rep lo r) (upto (hi - lo) r)
  end.

(** The concatenation of a list of patterns. *)
Fixpoint seq (l : list regex) : regex :=
  match l with
  | [] => Eps
  | [r] => r
  | r :: l' => Cat r (seq l')
  end.

(** The alternatives of a list of patterns, in order. *)
Fixpoint alts (l : list regex) : regex :=
  match l with
  | [] => Chr (fun _ => false)
  | [r] => r
  | r :: l' => Alt r (alts l')
  end.


(** *** What a successful attempt means

    [Sem r st st1]: the pattern [r] can take the matcher from [st] to
    [st1]. [Lang r w]: the pattern [r] can read the text [w]; the tests
    that read nothing ([\b], [^], [$]) are left open. Every answer of the
    matcher is justified by these. *)

Inductive Sem : regex -> mstate -> mstate -> Prop :=
| SEps st : Sem Eps st st
| SChr p c s st :
    m_rest st = c :: s -> p c = true -> Sem (Chr p) st (advance c s st)
| SCat r1 r2 st st1 st2 :
    Sem r1 st st1 -> Sem r2 st1 st2 -> Sem (Cat r1 r2) st st2
| SAltL r1 r2 st st1 : Sem r1 st st1 -> Sem (Alt r1 r2) st st1
| SAltR r1 r2 st st1 : Sem r2 st st1 -> Sem (Alt r1 r2) st st1
| SStar0 r st : Sem (Star r) st st
| SStarS r st st1 st2 :
    Sem r st st1 -> Sem (Star r) st1 st2 -> Sem (Star r) st st2
| SGroup i r st st1 :
    Sem r st st1 -> Sem (Group i r) st (set_cap i (consumed st st1) st1)
| SWordB st : at_boundary st = true -> Sem WordB st st
| SBol st : at_start st = true -> Sem Bol st st
| SEol st : at_end st = true -> Sem Eol st st.

Inductive Lang : regex -> list ascii -> Prop :=
| LEps : Lang Eps []
| LChr p c : p c = true -> Lang (Chr p) [c]
| LCat r1 r2 w1 w2 : Lang r1 w1 -> Lang r2 w2 -> Lang (Cat r1 r2) (w1 ++ w2)
| LAltL r1 r2 w : Lang r1 w -> Lang (Alt r1 r2) w
| LAltR r1 r2 w : Lang r2 w -> Lang (Alt r1 r2) w
| LStar0 r : Lang (Star r) []
| LStarS r w1 w2 : Lang r w1 -> Lang (Star r) w2 -> Lang (Star r) (w1 ++ w2)
| LGroup i r w : Lang r w -> Lang (Group i r) w
| LWordB : Lang WordB []
| LBol : Lang Bol []
| LEol : Lang Eol [].


(** The numbers of the groups of a pattern. *)
Fixpoint group_ids (r : regex) : list nat :=
  match r with
  | Cat r1 r2 | Alt r1 r2 => group_ids r1 ++ group_ids r2
  | Star r1 => group_ids r1
  | Group i r1 => i :: group_ids r1
  | _ => []
  end.

End Re.

(* ================================================================== *)
(** ** Python values and exceptions *)

(** The values [json.loads] builds, which are also the values of the
    result record. A float is carried by its [repr]. The keys of a dict
    are strings, in insertion order. *)
Inductive pyval : Type :=
| PNone
| PBool (b : bool)
| PInt (z : Z)
| PFloat (repr : string)
| PStr (s : string)
| PList (l : list pyval)
| PDict (d : list (string * pyval)).

(** A computation that may raise: [None] is a raised exception. The
    handlers of the scraper are bare [except:] clauses, so the kind of the
    exception is not recorded. *)
Definition exc (A : Type) : Type := option A.

Definition raise {A : Type} : exc A := None.

Definition bind {A B : Type} (m : exc A) (f : A -> exc B) : exc B :=
  match m with
  | Some a => f a
  | None => None
  end.

Notation "x <- m ;; f" := (bind m (fun x => f))
  (at level 61, m at next level, right associativity).

(** [d.get(k)] on an association list. *)
Fixpoint dict_get {V : Type} (k : string) (d : list (string * V)) : option V :=
  match d with
  | [] => None
  | (k', v) :: d' => if String.eqb k k' then Some v else dict_get k d'
  end.

(** [k in d] *)
Definition dict_has {V : Type} (k : string) (d : list (string * V)) : bool :=
  match dict_get k d with Some _ => true | None => false end.

(** [d[k] = v]: the value of an existing key is replaced in place, a new
    key goes to the end. *)
Fixpoint dict_set {V : Type} (k : string) (v : V) (d : list (string * V))
  : list (string * V) :=
  match d with
  | [] => [(k, v)]
  | (k', v') :: d' =>
      if String.eqb k k' then (k, v) :: d' else (k', v') :: dict_set k v d'
  end.

(** The value of a float: not a number, an infinity, or the number
    [m * 2^e]. *)
Inductive fval : Type :=
| FNan
| FInf (negative : bool)
| FNum (m e : Z).

(** The library functions the scraper calls and this file does not
    define. *)
Class PyLib : Type := {
  (** [urllib.parse.urljoin(base, url)]; [None] when it raises ValueError
      (a URL with a bracket that is no IPv6 address, for one) *)
  urljoin : string -> string -> exc string;
  (** [repr(float(s))]; [None] when [float(s)] raises ValueError *)
  py_float : string -> exc string;
  (** the value of the float whose [repr] is given *)
  float_value : string -> fval;
  (** [str(v)] for a list or a dict *)
  container_str : pyval -> string
}.

(** [x == y] on the values of floats, but for [nan]: the decoder of
    [json] returns one object for every [NaN], and the membership test of a
    set takes an object for equal to itself. *)
Definition fval_eqb (x y : fval) : bool :=
  match x, y with
  | FNan, FNan => true
  | FInf a, FInf b => Bool.eqb a b
  | FNum m1 e1, FNum m2 e2 =>
      let e := Z.min e1 e2 in
      Z.eqb (m1 * 2 ^ (e1 - e)) (m2 * 2 ^ (e2 - e))
  | _, _ => false
  end.

(** The value of a number; [True] is 1 and [False] is 0. *)
Definition num_value `{PyLib} (v : pyval) : option fval :=
  match v with
  | PBool b => Some (FNum (if b then 1 else 0) 0)
  | PInt z => Some (FNum z 0)
  | PFloat r => Some (float_value r)
  | _ => None
  end.

(** Equality of the hashable values, as the membership test of a [set]
    sees it: the numbers ([bool], [int] and [float]) are compared by their
    values, so [True], [1] and [1.0] are one element, and so are [0.0] and
    [-0.0]; a string is equal to a string only, [None] to [None] only. *)
Definition py_eqb `{PyLib} (a b : pyval) : bool :=
  match num_value a, num_value b with
  | Some x, Some y => fval_eqb x y
  | None, None =>
      match a, b with
      | PNone, PNone => true
      | PStr x, PStr y => String.eqb x y
      | _, _ => false
      end
  | _, _ => false
  end.

(** [hash(v)] raises on lists and dicts. *)
Definition hashable (v : pyval) : bool :=
  match v with
  | PList _ | PDict _ => false
  | _ => true
  end.

(** [k in v] for a string [k]: key of a dict, substring of a string,
    element of a list; a TypeError on the other values. *)
Definition py_contains (v : pyval) (k : string) : exc bool :=
  match v with
  | PDict d => Some (dict_has k d)
  | PStr s => Some (PyStr.contains k s)
  | PList l =>
      Some (existsb (fun x => match x with
                              | PStr s => String.eqb k s
                              | _ => false
                              end) l)
  | _ => raise
  end.

(** [v[k]] for a string [k]: KeyError on a missing key, TypeError on
    anything but a dict. *)
Definition py_getitem (v : pyval) (k : string) : exc pyval :=
  match v with
  | PDict d => dict_get k d
  | _ => raise
  end.

(** [str(v)] *)
Definition py_str `{PyLib} (v : pyval) : string :=
  match v with
  | PNone => "None"
  | PBool true => "True"
  | PBool false => "False"
  | PInt z => NilZero.string_of_int (Z.to_int z)
  | PFloat r => r
  | PStr s => s
  | PList _ | PDict _ => container_str v
  end.

(** The first element of a list on which [f] returns: a [for] loop whose
    body returns from the function. *)
Fixpoint first_some {A B : Type} (f : A -> option B) (l : list A) : option B :=
  match l with
  | [] => None
  | a :: l' =>
      match f a with
      | Some b => Some b
      | None => first_some f l'
      end
  end.

(* ================================================================== *)
(** ** The parsed document

    What the scraper asks of a [BeautifulSoup] object and of its tags. *)

(** A tag: its name, its attributes, the text nodes below it in document
    order, its parent, the [li] tags below it, and what [json.loads] makes
    of its attribute [data-a-dynamic-image] ([None] when it raises). *)
Inductive Tag : Type := mkTag {
  tag_name : string;
  tag_attrs : list (string * string);
  tag_strings : list string;
  tag_parent : option Tag;
  tag_li : list Tag;
  tag_dynamic_image : exc pyval
}.

(** [tag.get(attr)] *)
Definition tag_get (t : Tag) (attr : string) : option string :=
  dict_get attr (tag_attrs t).

(** [tag.get(attr, default)] *)
Definition tag_get_default (t : Tag) (attr default : string) : string :=
  match tag_get t attr with Some v => v | None => default end.

(** [tag.get_text()] *)
Definition get_text (t : Tag) : string := PyStr.join "" (tag_strings t).

(** [tag.get_text(strip=True)]: every text node is stripped, the empty
    ones are dropped. *)
Definition get_text_strip (t : Tag) : string :=
  PyStr.join ""
    (filter PyStr.nonempty (map PyStr.strip (tag_strings t))).

Record Soup : Type := mkSoup {
  (** [soup.select(selector)] *)
  select : string -> list Tag;
  (** [soup.find('title')] *)
  find_title : option Tag;
  (** [soup.find('meta', {attr: value})] *)
  find_meta : string -> string -> option Tag;
  (** [json.loads(script.string)] for every [script] of type
      [application/ld+json], in document order; [None] when it raises (the
      text is not JSON, or [script.string] is [None]) *)
  ld_scripts : list (exc pyval)
}.

(** [soup.select_one(selector)] *)
Definition select_one (soup : Soup) (selector : string) : option Tag :=
  hd_error (select soup selector).


(* ================================================================== *)
(** ** [ProductScraper] *)

(** The instance: the user agent drawn by [__init__] and the attribute
    [_last_product_name], which exists only once [scrape_product] has set
    it. *)
Record Scraper : Type := mkScraper {
  user_agent : string;
  last_product_name : option string
}.

Definition user_agents : list string :=
  [ "Mozilla/5.0 (Windows NT 10.0; Win64; x64) AppleWebKit/537.36 (KHTML, like Gecko) Chrome/120.0.0.0 Safari/537.36";
    "Mozilla/5.0 (Macintosh; Intel Mac OS X 10_15_7) AppleWebKit/537.36 (KHTML, like Gecko) Chrome/120.0.0.0 Safari/537.36";
    "Mozilla/5.0 (Windows NT 10.0; Win64; x64; rv:109.0) Gecko/20100101 Firefox/121.0";
    "Mozilla/5.0 (Macintosh; Intel Mac OS X 10_15_7) AppleWebKit/605.1.15 (KHTML, like Gecko) Version/17.1 Safari/605.1.15" ].

(** [__init__]: [choice] is the index [random.choice] draws. *)
Definition init (choice : nat) : Scraper :=
  mkScraper (nth choice user_agents "") None.

Definition name_not_found : string := "Product name not found".
Definition price_not_found : string := "Price not found".
Definition weight_not_found : string := "Weight not found".
Definition dimensions_not_found : string := "Dimensions not found".
Definition description_not_found : string := "Description not found".

Section Extractors.

Context {lib : PyLib}.

(** In the selectors below the double quotes of the source are written as
    single quotes; CSS reads both the same way. *)

(** *** [extract_name] *)

Definition name_selectors : list string :=
  [ "span#productTitle"; "h1#title span"; "h1.a-size-large";
    "h1[data-automation-id='title']";
    "h1"; "[itemprop='name']"; ".product-name"; ".product-title";
    "#product-title"; "[data-testid='product-title']"; ".pdp-product-title";
    "h1.title";
    "h1.x-item-title__mainTitle"; ".x-item-title h1";
    "h1 span.ux-textspans--BOLD";
    "h1[itemprop='name']"; "h1.prod-ProductTitle";
    "h1.product-title";
    "h1.product_title"; ".product-name h1" ].

(** Any character but a newline: [.] *)
Definition dot : Re.regex := Re.Chr (fun c => negb (PyStr.code c =? 10)%N).

(** [\s*-\s*Amazon\.ca.*$] *)
Definition re_title_amazon : Re.regex :=
  Re.seq [Re.Star Re.space; Re.chr "-"; Re.Star Re.space; Re.lit "Amazon.ca";
          Re.Star dot; Re.Eol].

(** [\s*\|\s*.*$] *)
Definition re_title_bar : Re.regex :=
  Re.seq [Re.Star Re.space; Re.chr "|"; Re.Star Re.space; Re.Star dot; Re.Eol].

Definition name_of_element (soup : Soup) (selector : string) : option string :=
  match select_one soup selector with
  | Some element =>
      let name := get_text_strip element in
      if PyStr.nonempty name && (5 <? PyStr.len name)%nat then Some name
      else None
  | None => None
  end.

Definition extract_name (soup : Soup) : string :=
  match first_some (name_of_element soup) name_selectors with
  | Some name => name
  | None =>
      let from_title :=
        match find_title soup with
        | Some title =>
            let title_text := get_text_strip title in
            let title_text := Re.sub_empty re_title_amazon title_text in
            let title_text := Re.sub_empty re_title_bar title_text in
            if PyStr.nonempty title_text then Some title_text else None
        | None => None
        end in
      match from_title with
      | Some t => t
      | None => name_not_found
      end
  end.

(** *** [extract_brand] *)

(** The brand of one JSON-LD object: [brand] is an object with a [name],
    or a string. *)
Definition brand_of_dict (d : list (string * pyval)) : option pyval :=
  match dict_get "brand" d with
  | Some (PDict b) => dict_get "name" b
  | Some (PStr s) => Some (PStr s)
  | _ => None
  end.

Definition brand_of_item (item : pyval) : option pyval :=
  match item with
  | PDict d => brand_of_dict d
  | _ => None
  end.

(** The body of the [try] for one script; an exception is passed over. *)
Definition brand_of_script (script : exc pyval) : option pyval :=
  match script with
  | Some (PDict d) => brand_of_dict d
  | Some (PList items) => first_some brand_of_item items
  | _ => None
  end.

Definition brand_selectors : list string :=
  [ "a#bylineInfo"; "span.by-line a"; "div.bylineInfo span.a-size-base";
    "a[id^='brand']"; "span.po-brand span.po-break-word";
    "tr.po-brand td.po-break-word span";
    "[itemprop='brand']"; ".product-brand"; ".brand-name";
    "[data-testid='brand-name']"; ".product-brand-name";
    "[data-testid='product-brand']"; "a[link-identifier='brandName']";
    ".product-brand-title";
    ".ux-textspans--BOLD:contains('Brand')"; "span[itemprop='brand']";
    ".ux-layout-section__row:contains('Brand') .ux-textspans--BOLD";
    "span:contains('Brand:') + span"; "td:contains('Brand') + td";
    ".brand"; ".manufacturer" ].

(** [^(Brand:|by|Visit the|Store)] with IGNORECASE *)
Definition re_brand_prefix : Re.regex :=
  Re.Cat Re.Bol
    (Re.Group 1 (Re.alts [Re.ilit "Brand:"; Re.ilit "by";
                          Re.ilit "Visit the"; Re.ilit "Store"])).

Definition str_in (s : string) (l : list string) : bool :=
  existsb (String.eqb s) l.

Definition brand_of_selector (soup : Soup) (selector : string) : option string :=
  match select_one soup selector with
  | Some element =>
      let brand_text := get_text_strip element in
      let brand_text := PyStr.strip (Re.sub_empty re_brand_prefix brand_text) in
      if PyStr.nonempty brand_text && (PyStr.len brand_text <? 50)%nat
         && negb (str_in brand_text ["Unknown"; "N/A"])
      then Some brand_text else None
  | None => None
  end.

Definition brand_of_row (row : Tag) : option string :=
  let text := get_text row in
  if PyStr.contains "brand" (PyStr.lower text) then
    match PyStr.split_on ":" text with
    | _ :: part1 :: _ =>
        let brand := PyStr.strip part1 in
        if PyStr.nonempty brand && (PyStr.len brand <? 50)%nat
        then Some brand else None
    | _ => None
    end
  else None.

Definition spec_selectors : list string :=
  [ ".product-specifications"; "[data-testid='product-specifications']";
    ".specification-table"; "table.product-specification-table";
    ".ux-layout-section-evo__item"; ".ux-layout-section__row" ].

(** [Brand[:\s]+([^\n\r]+)] with IGNORECASE *)
Definition re_brand_spec : Re.regex :=
  Re.seq [Re.ilit "Brand";
          Re.plus (Re.Chr (fun c => Ascii.eqb c ":" || PyStr.isspace c));
          Re.Group 1 (Re.plus (Re.Chr (fun c =>
             negb ((PyStr.code c =? 10)%N || (PyStr.code c =? 13)%N))))].

Definition brand_of_spec (spec : Tag) : option string :=
  match Re.search re_brand_spec (get_text spec) with
  | Some m =>
      match Re.group m 1 with
      | Some g =>
          let brand := PyStr.strip g in
          if PyStr.nonempty brand && (PyStr.len brand <? 50)%nat
          then Some brand else None
      | None => None
      end
  | None => None
  end.

Definition non_brand_words : list string :=
  [ "New"; "The"; "Premium"; "Professional"; "Original"; "Genuine";
    "Authentic" ].

(** The last resort: the first word of the product name. *)
Definition brand_of_name (product_name : string) : string :=
  if PyStr.nonempty product_name
     && negb (String.eqb product_name name_not_found)
  then
    match PyStr.split product_name with
    | first_word :: _ =>
        if (2 <? PyStr.len first_word)%nat && (PyStr.len first_word <? 20)%nat
           && match first_word with
              | String c _ => PyStr.isupper c
              | EmptyString => false
              end
        then
          if negb (str_in first_word non_brand_words) then first_word else ""
        else ""
    | [] => ""
    end
  else "".

(** The four stages before the product name, each [None] when it finds
    nothing. *)
Definition brand_from_ld (soup : Soup) : option pyval :=
  first_some brand_of_script (ld_scripts soup).

Definition brand_from_selectors (soup : Soup) : option string :=
  first_some (brand_of_selector soup) brand_selectors.

Definition brand_from_details (soup : Soup) : option string :=
  first_some brand_of_row
    (select soup "table.prodDetTable tr, div.product-facts-detail").

Definition brand_from_specs (soup : Soup) : option string :=
  first_some (fun selector => first_some brand_of_spec (select soup selector))
    spec_selectors.

Definition extract_brand (soup : Soup) (product_name : string) : pyval :=
  match brand_from_ld soup with
  | Some b => b
  | None =>
  match brand_from_selectors soup with
  | Some b => PStr b
  | None =>
  match brand_from_details soup with
  | Some b => PStr b
  | None =>
  match brand_from_specs soup with
  | Some b => PStr b
  | None => PStr (brand_of_name product_name)
  end end end end.


(** *** [extract_gtin] *)

Definition gtin_keys : list string :=
  [ "gtin"; "gtin13"; "gtin12"; "gtin8"; "isbn"; "ean"; "upc" ].

(** [for gtin_key in ...: if gtin_key in d: return str(d[gtin_key])] *)
Definition gtin_of_keys (d : list (string * pyval)) : option string :=
  first_some (fun gtin_key => option_map py_str (dict_get gtin_key d)) gtin_keys.

Definition gtin_of_dict (d : list (string * pyval)) : option string :=
  match gtin_of_keys d with
  | Some g => Some g
  | None =>
      match dict_get "offers" d with
      | Some (PDict offers) => gtin_of_keys offers
      | _ => None
      end
  end.

Definition gtin_of_item (item : pyval) : option string :=
  match item with
  | PDict d => gtin_of_keys d
  | _ => None
  end.

Definition gtin_of_script (script : exc pyval) : option string :=
  match script with
  | Some (PDict d) => gtin_of_dict d
  | Some (PList items) => first_some gtin_of_item items
  | _ => None
  end.

Definition gtin_selectors : list string :=
  [ "[itemprop='gtin']"; "[itemprop='gtin13']"; "[itemprop='gtin12']";
    "[itemprop='gtin8']"; "[itemprop='isbn']";
    ".product-upc"; ".product-ean"; ".product-gtin"; ".product-barcode";
    "div.product-facts-detail"; "table.prodDetTable";
    "div#detailBullets_feature_div span.a-list-item";
    "[data-testid='product-upc']"; "div:contains('UPC') + div";
    "span:contains('UPC:') + span"; "span:contains('EAN:') + span";
    "span:contains('ISBN:') + span";
    ".ux-textspans:contains('UPC')"; ".ux-textspans:contains('EAN')" ].

(** [[:\s]+] *)
Definition colon_spaces : Re.regex :=
  Re.plus (Re.Chr (fun c => Ascii.eqb c ":" || PyStr.isspace c)).

(** [[A-Z0-9]] with IGNORECASE *)
Definition alnum_i : Re.regex :=
  Re.Chr (fun c => PyStr.in_range 65 90 c || PyStr.in_range 97 122 c
                   || PyStr.in_range 48 57 c).

(** The seven patterns of the selector scan, all with IGNORECASE:
    [UPC[:\s]+(\d{12})], [EAN[:\s]+(\d{13})], [GTIN[:\s]+(\d{8,14})],
    [ISBN-13[:\s]+(\d{13})], [ISBN-10[:\s]+(\d{10})],
    [ASIN[:\s]+([A-Z0-9]{10})], [\b(\d{12,13})\b]. *)
Definition gtin_patterns : list Re.regex :=
  [ Re.seq [Re.ilit "UPC"; colon_spaces; Re.Group 1 (Re.rep 12 Re.digit)];
    Re.seq [Re.ilit "EAN"; colon_spaces; Re.Group 1 (Re.rep 13 Re.digit)];
    Re.seq [Re.ilit "GTIN"; colon_spaces; Re.Group 1 (Re.range 8 14 Re.digit)];
    Re.seq [Re.ilit "ISBN-13"; colon_spaces; Re.Group 1 (Re.rep 13 Re.digit)];
    Re.seq [Re.ilit "ISBN-10"; colon_spaces; Re.Group 1 (Re.rep 10 Re.digit)];
    Re.seq [Re.ilit "ASIN"; colon_spaces; Re.Group 1 (Re.rep 10 alnum_i)];
    Re.seq [Re.WordB; Re.Group 1 (Re.range 12 13 Re.digit); Re.WordB] ].

(** [m.group(1)] of the first pattern that matches. *)
Definition group1_of (text : string) (pattern : Re.regex) : option string :=
  match Re.search pattern text with
  | Some m => Re.group m 1
  | None => None
  end.

Definition gtin_of_element (element : Tag) : option string :=
  first_some (group1_of (get_text_strip element)) gtin_patterns.

(** [[^\w\d]] *)
Definition re_non_word : Re.regex :=
  Re.Chr (fun c => negb (PyStr.is_word c || PyStr.is_decimal c)).

Definition gtin_of_bullet (bullet : Tag) : option string :=
  let text := get_text bullet in
  if existsb (fun term => PyStr.contains term text) ["ASIN"; "UPC"; "EAN"; "ISBN"]
  then
    match PyStr.split_on ":" text with
    | _ :: part1 :: _ =>
        let value := Re.sub_empty re_non_word (PyStr.strip part1) in
        if PyStr.nonempty value
           && existsb (Nat.eqb (PyStr.len value)) [10; 12; 13]%nat
        then Some value else None
    | _ => None
    end
  else None.

Definition extract_gtin (soup : Soup) : string :=
  match first_some gtin_of_script (ld_scripts soup) with
  | Some g => g
  | None =>
  match first_some (fun selector => first_some gtin_of_element (select soup selector))
          gtin_selectors with
  | Some g => g
  | None =>
  match first_some gtin_of_bullet
          (select soup "div#detailBullets_feature_div span.a-list-item") with
  | Some g => g
  | None => ""
  end end end.

(** *** [extract_description] *)

Definition description_selectors : list string :=
  [ "div#feature-bullets ul"; "div.feature ul li"; "div#productDescription";
    "div#productDescription_feature_div";
    "[itemprop='description']"; ".product-description"; ".product-details";
    "#product-description"; "[data-testid='product-description']";
    ".pdp-product-description"; ".description";
    ".x-item-description iframe"; ".ux-section--description";
    "div[data-testid='x-item-description']"; ".d-item-description";
    ".product-overview"; ".product-details-description";
    "div[data-cy='product-description']"; ".product-info-section" ].

Definition attr_truthy (t : Tag) (attr : string) : bool :=
  match tag_get t attr with
  | Some v => PyStr.nonempty v
  | None => false
  end.

Definition description_of_selector (soup : Soup) (selector : string)
  : option string :=
  match select_one soup selector with
  | Some element =>
      if String.eqb (tag_name element) "ul" then
        match tag_li element with
        | [] => None
        | bullets =>
            let description :=
              PyStr.join " " (map get_text_strip (firstn 5 bullets)) in
            Some (PyStr.prefix 500 description)
        end
      else if String.eqb (tag_name element) "iframe" && attr_truthy element "src"
      then Some "Full description available in item listing"
      else Some (PyStr.prefix 500 (get_text_strip element))
  | None => None
  end.

Definition extract_description (soup : Soup) : string :=
  match first_some (description_of_selector soup) description_selectors with
  | Some d => d
  | None =>
  match find_meta soup "name" "description" with
  | Some meta_desc => PyStr.prefix 500 (tag_get_default meta_desc "content" "")
  | None =>
  match find_meta soup "property" "og:description" with
  | Some og_desc => PyStr.prefix 500 (tag_get_default og_desc "content" "")
  | None => description_not_found
  end end end.

(** *** [extract_images] *)

Definition amazon_image_selectors : list string :=
  [ "div#imageBlock img"; "div#main-image-container img";
    "div.imgTagWrapper img"; "img.a-dynamic-image";
    "img[data-a-image-name='landingImage']"; "div#altImages img";
    "div.imageThumbnail img" ].

Definition image_selectors : list string :=
  [ "img[itemprop='image']"; ".product-image img"; ".product-photo img";
    ".gallery-image img"; "[data-testid='product-image'] img";
    ".pdp-image img"; ".product-images img";
    ".ux-image-carousel-item img"; ".ux-image-grid-item img";
    "button.ux-image-grid-item img"; ".ux-image-carousel img";
    "div[data-testid='ux-image-carousel'] img"; ".merch-image-grid img";
    "img.hover-zoom-hero-image"; "img[data-testid='hero-image']";
    ".product-image-main img"; ".ProductImage img"; "picture img";
    ".gallery img"; ".thumbnail img" ].

(** The value of the first attribute of the list that is present and not
    empty. *)
Definition first_attr (element : Tag) (attrs : list string) : option string :=
  first_some (fun attr =>
                match tag_get element attr with
                | Some v => if PyStr.nonempty v then Some v else None
                | None => None
                end) attrs.

(** The source of an image of the Amazon branch: [src], [data-src],
    [data-old-hires], then the first key of the JSON object in
    [data-a-dynamic-image]. *)
Definition amazon_src (element : Tag) : option string :=
  match first_attr element ["src"; "data-src"; "data-old-hires"] with
  | Some v => Some v
  | None =>
      match first_attr element ["data-a-dynamic-image"] with
      | Some _ =>
          match tag_dynamic_image element with
          | Some (PDict ((k, _) :: _)) => Some k
          | _ => None
          end
      | None => None
      end
  end.

(** The common end of both branches: the protocol is added, the URL is
    resolved, and it is appended unless already there or a [.gif]. The call
    of [urljoin] is in no [try]: when it raises, the extractor raises. *)
Definition add_image (base_url : string) (images : list string) (src : string)
  : exc (list string) :=
  let src := if PyStr.startswith "//" src then "https:" ++ src else src in
  absolute_url <- urljoin base_url src ;;
  Some (if negb (str_in absolute_url images)
           && negb (PyStr.endswith ".gif" absolute_url)
        then (images ++ [absolute_url])%list else images).

Definition amazon_step (base_url : string) (images : list string)
  (element : Tag) : exc (list string) :=
  match amazon_src element with
  | Some src =>
      if PyStr.nonempty src && negb (PyStr.startswith "data:" src)
      then add_image base_url images src else Some images
  | None => Some images
  end.

Definition general_step (base_url : string) (images : list string)
  (element : Tag) : exc (list string) :=
  match first_attr element
          ["src"; "data-src"; "data-lazy-src"; "data-original";
           "data-zoom-image"] with
  | Some src =>
      if PyStr.startswith "data:" src then Some images
      else add_image base_url images (PyStr.strip src)
  | None => Some images
  end.

(** A [for] loop whose body updates [a] and may raise. *)
Fixpoint fold_exc {A B : Type} (f : A -> B -> exc A) (l : list B) (a : A)
  : exc A :=
  match l with
  | [] => Some a
  | b :: l' => a' <- f a b ;; fold_exc f l' a'
  end.

(** [for selector in selectors: for element in soup.select(selector)] *)
Definition images_of_selectors (soup : Soup)
  (step : list string -> Tag -> exc (list string)) (selectors : list string)
  : exc (list string) :=
  fold_exc (fun images selector => fold_exc step (select soup selector) images)
    selectors [].

(** The images of the selectors, of the branch of Amazon or of the general
    one. *)
Definition selector_images (soup : Soup) (base_url : string)
  : exc (list string) :=
  if PyStr.contains "amazon" base_url
  then images_of_selectors soup (amazon_step base_url) amazon_image_selectors
  else images_of_selectors soup (general_step base_url) image_selectors.

(** What one JSON-LD script adds to the list. *)
Definition ld_images_of_script (script : exc pyval) : list pyval :=
  match script with
  | Some (PDict d) =>
      match dict_get "image" d with
      | Some (PStr s) => [PStr s]
      | Some (PList l) => l
      | _ => []
      end
  | _ => []
  end.

(** The list before the duplicates are removed. *)
Definition collect_images (soup : Soup) (base_url : string)
  : exc (list pyval) :=
  images <- selector_images soup base_url ;;
  Some (map PStr images ++ flat_map ld_images_of_script (ld_scripts soup))%list.

(** The loop over [images] with the set [seen]; membership in a set
    hashes the value. *)
Fixpoint unique_images (seen : list pyval) (images : list pyval)
  : exc (list pyval) :=
  match images with
  | [] => Some []
  | img :: images' =>
      if hashable img then
        if existsb (py_eqb img) seen then unique_images seen images'
        else rest <- unique_images (img :: seen) images' ;; Some (img :: rest)
      else raise
  end.

Definition extract_images (soup : Soup) (base_url : string) : exc (list pyval) :=
  images <- collect_images soup base_url ;;
  unique <- unique_images [] images ;;
  Some (firstn 10 unique).

(** *** [extract_price] *)

(** [if '.' not in price and price.isdigit(): price = price + '.00'] *)
Definition ld_price (v : pyval) : string :=
  let price := py_str v in
  if negb (PyStr.contains "." price) && PyStr.isdigit price
  then price ++ ".00" else price.

(** A JSON-LD object at top level. The test ['price' in data['offers']]
    and the subscript [data['offers']['price']] raise on some values. *)
Definition price_of_dict (d : list (string * pyval)) : exc (option string) :=
  in_offers <- match dict_get "offers" d with
               | Some offers => py_contains offers "price"
               | None => Some false
               end ;;
  if in_offers then
    offers <- dict_get "offers" d ;;
    v <- py_getitem offers "price" ;;
    Some (Some (ld_price v))
  else Some (option_map ld_price (dict_get "price" d)).

(** A JSON-LD object inside a list: here [offers] is tested to be a dict. *)
Definition price_of_item (item : pyval) : option string :=
  match item with
  | PDict d =>
      match dict_get "offers" d with
      | Some (PDict offers) =>
          match dict_get "price" offers with
          | Some v => Some (ld_price v)
          | None => option_map ld_price (dict_get "price" d)
          end
      | _ => option_map ld_price (dict_get "price" d)
      end
  | _ => None
  end.

Definition price_of_script (script : exc pyval) : option string :=
  match script with
  | Some (PDict d) =>
      match price_of_dict d with
      | Some r => r
      | None => None
      end
  | Some (PList items) => first_some price_of_item items
  | _ => None
  end.

Definition price_selectors : list string :=
  [ "span.a-price.a-text-price.a-size-medium.apexPriceToPay";
    "span.a-price-whole"; ".a-price .a-offscreen";
    "span.a-price > span.a-offscreen";
    "span[class*='price'] > span.a-offscreen";
    "div.a-section.a-spacing-none.aok-align-center span.a-price-whole";
    "span.priceToPay"; ".reinventPricePriceToPayMargin span.a-price-whole";
    "[itemprop='price']"; ".price"; ".product-price"; ".current-price";
    "[data-testid='product-price']"; ".pdp-price"; "span.price"; ".price-now";
    ".x-price-primary span[itemprop='price']"; ".x-price-primary .ux-textspans";
    "span.ux-textspans[itemprop='price']"; ".x-bin-price__content";
    ".x-buybox-price";
    "span[itemprop='price']"; ".price-characteristic";
    "[data-automation-id='product-price']" ].

(** [^[A-Z]{3}\s*] *)
Definition re_currency_code : Re.regex :=
  Re.seq [Re.Bol; Re.rep 3 (Re.Chr (PyStr.in_range 65 90)); Re.Star Re.space].

(** The class of the currency symbols: dollar, pound and yen; the euro and
    the rupee signs are beyond code point 255. *)
Definition currency_symbol (c : ascii) : bool :=
  (PyStr.code c =? 36)%N || (PyStr.code c =? 163)%N || (PyStr.code c =? 165)%N.

(** [[symbols]\s*] *)
Definition re_currency_symbol : Re.regex :=
  Re.Cat (Re.Chr currency_symbol) (Re.Star Re.space).

(** One group, the whole pattern: [\d{1,3}(?:,\d{3})*(?:\.\d{2})?] *)
Definition re_price : Re.regex :=
  Re.Group 1
    (Re.seq [Re.range 1 3 Re.digit;
             Re.Star (Re.Cat (Re.chr ",") (Re.rep 3 Re.digit));
             Re.opt (Re.Cat (Re.chr ".") (Re.rep 2 Re.digit))]).

(** One group, the whole pattern: [\d{1,3}(?:,\d{3})*\.?\d*] *)
Definition re_price_parent : Re.regex :=
  Re.Group 1
    (Re.seq [Re.range 1 3 Re.digit;
             Re.Star (Re.Cat (Re.chr ",") (Re.rep 3 Re.digit));
             Re.opt (Re.chr "."); Re.Star Re.digit]).

(** [price = m.group(1).replace(',', '')], then [.00] is appended when
    there is no point. *)
Definition normalize_price (g : string) : string :=
  let price := PyStr.remove_char "," g in
  if negb (PyStr.contains "." price) then price ++ ".00" else price.

(** The price in the text of an element that is not a [meta] tag. *)
Definition price_of_text (text : string) : option string :=
  let price_text := Re.sub_empty re_currency_code text in
  let price_text := Re.sub_empty re_currency_symbol price_text in
  match Re.search re_price price_text with
  | Some m => option_map normalize_price (Re.group m 1)
  | None => None
  end.

(** The price in the [content] of a [meta] tag. *)
Definition price_of_meta (element : Tag) : option string :=
  let price := tag_get_default element "content" "" in
  if PyStr.nonempty price
     && PyStr.isdigit (PyStr.remove_char "," (PyStr.remove_char "." price))
  then Some (PyStr.remove_char "," price) else None.

Definition price_of_selector (soup : Soup) (selector : string) : option string :=
  match select_one soup selector with
  | Some element =>
      if String.eqb (tag_name element) "meta" then price_of_meta element
      else price_of_text (get_text_strip element)
  | None => None
  end.

(** The last resort: the whole part and the fraction part of Amazon. *)
Definition price_of_whole (soup : Soup) : option string :=
  match select_one soup "span.a-price-whole" with
  | Some amazon_whole =>
      let whole_text := PyStr.rstrip_char "." (get_text_strip amazon_whole) in
      match select_one soup "span.a-price-fraction" with
      | Some amazon_fraction =>
          Some (whole_text ++ "." ++ get_text_strip amazon_fraction)
      | None =>
          let from_parent :=
            match tag_parent amazon_whole with
            | Some parent =>
                match Re.search re_price_parent (get_text_strip parent) with
                | Some m => option_map normalize_price (Re.group m 1)
                | None => None
                end
            | None => None
            end in
          match from_parent with
          | Some price => Some price
          | None => Some (whole_text ++ ".00")
          end
      end
  | None => None
  end.

Definition price_from_ld (soup : Soup) : option string :=
  first_some price_of_script (ld_scripts soup).

Definition price_from_selectors (soup : Soup) : option string :=
  first_some (price_of_selector soup) price_selectors.

Definition extract_price (soup : Soup) : string :=
  match price_from_ld soup with
  | Some price => price
  | None =>
  match price_from_selectors soup with
  | Some price => price
  | None =>
  match price_of_whole soup with
  | Some price => price
  | None => price_not_found
  end end end.

(** *** [extract_currency] *)

Definition currency_of_script (script : exc pyval) : option pyval :=
  match script with
  | Some (PDict d) =>
      match dict_get "offers" d with
      | Some offers =>
          match py_contains offers "priceCurrency" with
          | Some true => py_getitem offers "priceCurrency"
          | _ => None
          end
      | None => None
      end
  | _ => None
  end.

Definition extract_currency (soup : Soup) (url : string) : pyval :=
  if PyStr.contains "amazon.ca" url then PStr "CAD"
  else if PyStr.contains "amazon.com" url then PStr "USD"
  else if PyStr.contains "amazon.co.uk" url then PStr "GBP"
  else if PyStr.contains "amazon.de" url || PyStr.contains "amazon.fr" url
          || PyStr.contains "amazon.es" url || PyStr.contains "amazon.it" url
  then PStr "EUR"
  else if PyStr.contains "amazon.co.jp" url then PStr "JPY"
  else if PyStr.contains "amazon.in" url then PStr "INR"
  else if PyStr.contains "amazon.com.au" url then PStr "AUD"
  else
    match find_meta soup "itemprop" "priceCurrency" with
    | Some currency_meta => PStr (tag_get_default currency_meta "content" "USD")
    | None =>
        match first_some currency_of_script (ld_scripts soup) with
        | Some c => c
        | None =>
            if PyStr.contains "walmart.ca" url then PStr "CAD"
            else if PyStr.contains "ebay.ca" url then PStr "CAD"
            else PStr "USD"
        end
    end.

(** *** [extract_weight] *)

(** [\d+\.?\d*], the number every weight and dimension pattern captures *)
Definition number : Re.regex :=
  Re.seq [Re.plus Re.digit; Re.opt (Re.chr "."); Re.Star Re.digit].

Definition spaces : Re.regex := Re.Star Re.space.

(** [x?] for a letter, with IGNORECASE *)
Definition opt_i (c : ascii) : Re.regex := Re.opt (Re.ichr c).

(** [kg|g|lbs?|pounds?|ounces?|oz|fl\s*oz] *)
Definition weight_unit : Re.regex :=
  Re.alts [ Re.ilit "kg"; Re.ilit "g";
            Re.Cat (Re.ilit "lb") (opt_i "s");
            Re.Cat (Re.ilit "pound") (opt_i "s");
            Re.Cat (Re.ilit "ounce") (opt_i "s");
            Re.ilit "oz";
            Re.seq [Re.ilit "fl"; spaces; Re.ilit "oz"] ].

(** [[:\s]*] *)
Definition colon_spaces0 : Re.regex :=
  Re.Star (Re.Chr (fun c => Ascii.eqb c ":" || PyStr.isspace c)).

Definition measure : Re.regex :=
  Re.seq [Re.Group 1 number; spaces; Re.Group 2 weight_unit].

(** The six patterns of the selector scan, all with IGNORECASE; NUM is
    [\d+\.?\d*] and UNIT the alternatives above:
    [weight[:\s]*(NUM)\s*(UNIT)], [(NUM)\s*(UNIT)\s*weight],
    [item\s*weight[:\s]*(NUM)\s*(UNIT)],
    [shipping\s*weight[:\s]*(NUM)\s*(UNIT)],
    [net\s*wt\.?\s*(NUM)\s*(UNIT)], [(NUM)\s*(fl\s*oz|fluid\s*ounces?)]. *)
Definition weight_patterns : list Re.regex :=
  [ Re.seq [Re.ilit "weight"; colon_spaces0; measure];
    Re.seq [measure; spaces; Re.ilit "weight"];
    Re.seq [Re.ilit "item"; spaces; Re.ilit "weight"; colon_spaces0; measure];
    Re.seq [Re.ilit "shipping"; spaces; Re.ilit "weight"; colon_spaces0;
            measure];
    Re.seq [Re.ilit "net"; spaces; Re.ilit "wt"; Re.opt (Re.chr "."); spaces;
            measure];
    Re.seq [Re.Group 1 number; spaces;
            Re.Group 2 (Re.Alt (Re.seq [Re.ilit "fl"; spaces; Re.ilit "oz"])
                               (Re.seq [Re.ilit "fluid"; spaces;
                                        Re.ilit "ounce"; opt_i "s"]))] ].

Definition weight_selectors : list string :=
  [ ".product-weight"; "[itemprop='weight']";
    "table.prodDetTable tr"; "div#detailBullets_feature_div span.a-list-item";
    "div.product-facts-detail";
    "td:contains('Weight')"; "span:contains('Weight')" ].

(** The patterns run on the product name, all with IGNORECASE. *)

(** [(NUM)\s*(fl\.?\s*oz|fluid\s*ounces?)] *)
Definition re_fl_oz : Re.regex :=
  Re.seq [Re.Group 1 number; spaces;
          Re.Group 2 (Re.Alt (Re.seq [Re.ilit "fl"; Re.opt (Re.chr ".");
                                      spaces; Re.ilit "oz"])
                             (Re.seq [Re.ilit "fluid"; spaces;
                                      Re.ilit "ounce"; opt_i "s"]))].

(** [(NUM)\s*(oz|ounces?)\b] *)
Definition re_oz : Re.regex :=
  Re.seq [Re.Group 1 number; spaces;
          Re.Group 2 (Re.Alt (Re.ilit "oz") (Re.Cat (Re.ilit "ounce") (opt_i "s")));
          Re.WordB].

(** [(NUM)\s*(ml|mL|milliliters?)] *)
Definition re_ml : Re.regex :=
  Re.seq [Re.Group 1 number; spaces;
          Re.Group 2 (Re.alts [Re.ilit "ml"; Re.ilit "mL";
                               Re.Cat (Re.ilit "milliliter") (opt_i "s")])].

(** [(NUM)\s*(L|liters?)\b] *)
Definition re_l : Re.regex :=
  Re.seq [Re.Group 1 number; spaces;
          Re.Group 2 (Re.Alt (Re.ilit "L") (Re.Cat (Re.ilit "liter") (opt_i "s")));
          Re.WordB].

(** [(NUM)\s*(g|grams?)\b] *)
Definition re_g : Re.regex :=
  Re.seq [Re.Group 1 number; spaces;
          Re.Group 2 (Re.Alt (Re.ilit "g") (Re.Cat (Re.ilit "gram") (opt_i "s")));
          Re.WordB].

(** [(NUM)\s*(kg|kilograms?)\b] *)
Definition re_kg : Re.regex :=
  Re.seq [Re.Group 1 number; spaces;
          Re.Group 2 (Re.Alt (Re.ilit "kg")
                             (Re.Cat (Re.ilit "kilogram") (opt_i "s")));
          Re.WordB].

(** [(NUM)\s*(lbs?|pounds?)\b] *)
Definition re_lb : Re.regex :=
  Re.seq [Re.Group 1 number; spaces;
          Re.Group 2 (Re.Alt (Re.Cat (Re.ilit "lb") (opt_i "s"))
                             (Re.Cat (Re.ilit "pound") (opt_i "s")));
          Re.WordB].

(** [title_patterns] of [extract_weight] *)
Definition title_patterns : list Re.regex :=
  [ re_fl_oz; re_oz; re_ml; re_l; re_g; re_kg; re_lb ].

(** A group in an f-string: a group that took no part prints as None. *)
Definition fmt_group (g : option string) : string :=
  match g with Some s => s | None => "None" end.

(** The f-string that joins group 1 and group 2 with a space, for the
    first pattern of the list that matches the text. *)
Definition weight_of_text (patterns : list Re.regex) (text : string)
  : option string :=
  first_some (fun pattern =>
                match Re.search pattern text with
                | Some m =>
                    Some (fmt_group (Re.group m 1) ++ " "
                          ++ fmt_group (Re.group m 2))
                | None => None
                end) patterns.

Definition weight_from_selectors (soup : Soup) : option string :=
  first_some (fun selector =>
                first_some (fun element =>
                              weight_of_text weight_patterns (get_text element))
                  (select soup selector))
    weight_selectors.

Definition extract_weight (self : Scraper) (soup : Soup) : string :=
  match weight_from_selectors soup with
  | Some w => w
  | None =>
      let from_title :=
        match last_product_name self with
        | Some name => weight_of_text title_patterns name
        | None => None
        end in
      match from_title with
      | Some w => w
      | None => weight_not_found
      end
  end.

(** *** [extract_dimensions] *)

(** The double quote. *)
Definition dquote : ascii := ascii_of_N 34.

(** The inch and foot marks; the double prime of the source is beyond
    code point 255. *)
Definition is_mark (c : ascii) : bool := Ascii.eqb c dquote || Ascii.eqb c "'".

(** The letter x or the multiplication sign, with IGNORECASE. *)
Definition is_times (c : ascii) : bool :=
  Ascii.eqb c "x" || Ascii.eqb c "X" || (PyStr.code c =? 215)%N.

Definition mark_opt : Re.regex := Re.opt (Re.Chr is_mark).

Definition times : Re.regex := Re.seq [spaces; Re.Chr is_times; spaces].

(** [inches?] *)
Definition inches : Re.regex := Re.Cat (Re.ilit "inche") (opt_i "s").

(** The six patterns, all with IGNORECASE, and the number of groups of
    each: the labelled L x W x H, the Length/Width/Height triple, the
    plain and the labelled three numbers, and the two-number patterns with
    and without marks. *)
Definition dim_patterns : list (Re.regex * nat) :=
  [ (Re.seq [Re.Group 1 number; spaces; mark_opt; spaces; Re.ichr "l"; times;
             Re.Group 2 number; spaces; mark_opt; spaces; Re.ichr "w"; times;
             Re.Group 3 number; spaces; mark_opt; spaces; Re.ichr "h"; spaces;
             mark_opt; spaces;
             Re.opt (Re.Group 4 (Re.alts [Re.ilit "in"; inches; Re.ilit "cm";
                                          Re.ilit "mm"]))], 4%nat);
    (Re.seq [Re.ilit "length"; colon_spaces0; Re.Group 1 number; Re.Star dot;
             Re.ilit "width"; colon_spaces0; Re.Group 2 number; Re.Star dot;
             Re.ilit "height"; colon_spaces0; Re.Group 3 number; spaces;
             Re.opt (Re.Group 4 (Re.alts [Re.ilit "in"; inches; Re.ilit "cm";
                                          Re.ilit "mm"]))], 4%nat);
    (Re.seq [Re.Group 1 number; times; Re.Group 2 number; times;
             Re.Group 3 number; spaces;
             Re.opt (Re.Group 4 (Re.alts [Re.ilit "in"; inches; Re.ilit "cm";
                                          Re.ilit "mm"; Re.ilit "m"]))], 4%nat);
    (Re.seq [Re.ilit "dimension"; opt_i "s"; colon_spaces0;
             Re.Group 1 number; times; Re.Group 2 number; times;
             Re.Group 3 number; spaces;
             Re.opt (Re.Group 4 (Re.alts [Re.ilit "cm"; Re.ilit "mm";
                                          Re.ilit "in"; inches; Re.ilit "m"]))],
     4%nat);
    (Re.seq [Re.Group 1 number; Re.Chr is_mark; times; Re.Group 2 number;
             Re.Chr is_mark], 2%nat);
    (Re.seq [Re.Group 1 number; times; Re.Group 2 number; spaces;
             Re.opt (Re.Group 3 (Re.alts [Re.ilit "in"; inches; Re.ilit "cm";
                                          Re.ilit "mm"]))], 3%nat) ].

Definition dim_selectors : list string :=
  [ "table.prodDetTable tr"; "div#detailBullets_feature_div span.a-list-item";
    "div.product-facts-detail";
    ".product-dimensions"; "[itemprop='dimensions']";
    "td:contains('Dimensions')"; "span:contains('Dimensions')" ].

Definition dim_units : list string := [ "in"; "cm"; "mm"; "inches"; "m" ].

Definition no_dimensions : list (string * pyval) :=
  [ ("raw", PStr dimensions_not_found); ("length", PNone); ("width", PNone);
    ("height", PNone); ("unit", PNone) ].

(** [m.groups()] of a pattern with [n] groups *)
Definition groups_of (m : Re.rematch) (n : nat) : list (option string) :=
  map (Re.group m) (List.seq 1 n).

(** [float(g)] *)
Definition float_of (g : option string) : exc pyval :=
  s <- g ;; r <- py_float s ;; Some (PFloat r).

Definition opt_in (g : option string) (l : list string) : bool :=
  match g with Some s => str_in s l | None => false end.

Definition opt_truthy (g : option string) : bool :=
  match g with Some s => PyStr.nonempty s | None => false end.

(** The body of the [try]: the assignments made before a ValueError stay.
    Groups 1 and 2 take part in every match of the six patterns. *)
Definition parse_dimensions (dimensions : list (string * pyval))
  (groups : list (option string)) : list (string * pyval) :=
  match float_of (nth 0 groups None) with
  | None => dimensions
  | Some len =>
  let dimensions := dict_set "length" len dimensions in
  match float_of (nth 1 groups None) with
  | None => dimensions
  | Some wid =>
  let dimensions := dict_set "width" wid dimensions in
  let g2 := nth 2 groups None in
  let with_height :=
    if (3 <=? length groups)%nat && opt_truthy g2 && negb (opt_in g2 dim_units)
    then h <- float_of g2 ;; Some (dict_set "height" h dimensions)
    else Some dimensions in
  match with_height with
  | None => dimensions
  | Some dimensions =>
      let g_last := last groups None in
      if opt_in g_last dim_units
      then dict_set "unit" (PStr (fmt_group g_last)) dimensions
      else dict_set "unit" (PStr "in") dimensions
  end end end.

Definition dimensions_of_text (text : string) (pattern : Re.regex * nat)
  : option (list (string * pyval)) :=
  match Re.search (fst pattern) text with
  | Some m =>
      let dimensions :=
        dict_set "raw" (PStr (PyStr.strip (Re.group0 m))) no_dimensions in
      let groups := groups_of m (snd pattern) in
      Some (if (2 <=? length groups)%nat
            then parse_dimensions dimensions groups else dimensions)
  | None => None
  end.

(** The scan of the product name sets [raw] only. *)
Definition raw_of_name (name : string) (pattern : Re.regex * nat)
  : option (list (string * pyval)) :=
  match Re.search (fst pattern) name with
  | Some m =>
      Some (dict_set "raw" (PStr (PyStr.strip (Re.group0 m))) no_dimensions)
  | None => None
  end.

Definition extract_dimensions (self : Scraper) (soup : Soup)
  : list (string * pyval) :=
  match first_some (fun selector =>
           first_some (fun element =>
                         first_some (dimensions_of_text (get_text element))
                           dim_patterns)
             (select soup selector)) dim_selectors with
  | Some dimensions => dimensions
  | None =>
      let from_title :=
        match last_product_name self with
        | Some name => first_some (raw_of_name name) (skipn 4 dim_patterns)
        | None => None
        end in
      match from_title with
      | Some dimensions => dimensions
      | None => no_dimensions
      end
  end.

End Extractors.

(* ================================================================== *)
(** ** [scrape_product] *)

(** [BeautifulSoup(content, 'html.parser')] *)
Class HtmlParser : Type := {
  BeautifulSoup : string -> Soup
}.

(** The response of [session.get], after the redirects. *)
Record Response : Type := mkResponse {
  response_url : string;
  status_code : Z;
  text : string;
  content : string
}.

(** How [session.get(url, timeout=15, allow_redirects=True)] followed by
    [raise_for_status()] ends. *)
Inductive Fetch : Type :=
| Timeout                         (* requests.exceptions.Timeout *)
| FetchError                      (* any other exception *)
| Fetched (response : Response).

(** How [scrape_product] ends: with a record, or with the exception of
    its last handler. *)
Inductive Result : Type :=
| Returns (product_data : list (string * pyval))
| Raises.

Section ScrapeProduct.

Context {lib : PyLib} {parser : HtmlParser}.

Definition make_debug_info (response : Response) : list (string * pyval) :=
  [ ("status", PInt (status_code response));
    ("response_length", PInt (Z.of_nat (PyStr.len (text response))));
    ("robot_check",
     PBool (PyStr.contains "robot check" (PyStr.lower (text response))));
    ("captcha", PBool (PyStr.contains "captcha" (PyStr.lower (text response)))) ].

(** The test of the blocking branch. *)
Definition is_blocked (response : Response) : bool :=
  PyStr.contains "Robot Check" (text response)
  || PyStr.contains "captcha" (PyStr.lower (text response)).

Definition blocked_record (url : string) (debug_info : list (string * pyval))
  : list (string * pyval) :=
  [ ("name", PStr "Product name not found");
    ("brand", PStr "");
    ("gtin", PStr "");
    ("description",
     PStr "Amazon blocked automated access. Please enter details manually.");
    ("images", PList []);
    ("price", PStr "Price not found");
    ("currency", PStr (if PyStr.contains "amazon.ca" url then "CAD" else "USD"));
    ("source", PStr url);
    ("weight", PStr "Weight not found");
    ("dimensions", PDict [ ("raw", PStr "Dimensions not found");
                           ("length", PNone); ("width", PNone);
                           ("height", PNone); ("unit", PNone) ]);
    ("blocked", PBool true);
    ("message",
     PStr "Amazon detected automated access. Please enter product details manually.");
    ("debug_info", PDict debug_info) ].

Definition timeout_record (url : string) : list (string * pyval) :=
  [ ("name", PStr "Product name not found");
    ("brand", PStr "");
    ("gtin", PStr "");
    ("description",
     PStr "Request timed out. The site may be slow or blocking automated access.");
    ("images", PList []);
    ("price", PStr "Price not found");
    ("currency", PStr "USD");
    ("source", PStr url);
    ("weight", PStr "Weight not found");
    ("dimensions", PDict [ ("raw", PStr "Dimensions not found");
                           ("length", PNone); ("width", PNone);
                           ("height", PNone); ("unit", PNone) ]);
    ("error", PStr "Request timed out") ].

(** The unit tokens of the guard of the weight backfill. *)
Definition backfill_units : list string := [ "oz"; "fl"; "lb"; "g"; "kg"; "ml" ].

(** [weight_patterns] of [scrape_product]: five of the patterns that
    [extract_weight] runs on the name. *)
Definition backfill_patterns : list Re.regex :=
  [ re_fl_oz; re_oz; re_ml; re_g; re_lb ].

(** The guard of the backfill. *)
Definition backfill_guard (weight name : string) : bool :=
  String.eqb weight "Weight not found"
  && existsb (fun unit => PyStr.contains unit (PyStr.lower name)) backfill_units.

(** The backfill: the first pattern that matches the name overwrites the
    weight. *)
Definition backfill (weight name : string) (product_data : list (string * pyval))
  : list (string * pyval) :=
  if backfill_guard weight name then
    match weight_of_text backfill_patterns name with
    | Some w => dict_set "weight" (PStr w) product_data
    | None => product_data
    end
  else product_data.

(** The summary that is printed takes the first 80 characters of the
    first image: a first image that is not a string raises there. The other
    values it prints are strings of the model, which [print] can write; a
    text that [print] cannot encode (a lone surrogate out of JSON-LD) is
    not a string of the model. *)
Definition summary_raises (images : list pyval) : bool :=
  match images with
  | [] => false
  | PStr _ :: _ => false
  | _ :: _ => true
  end.

(** The part of [scrape_product] after the blocking test. *)
Definition scrape_page (self : Scraper) (response : Response)
  : Scraper * Result :=
  let url := response_url response in
  let soup := BeautifulSoup (content response) in
  let name := extract_name soup in
  let self := mkScraper (user_agent self) (Some name) in
  let price := extract_price soup in
  let currency := extract_currency soup url in
  let brand := extract_brand soup name in
  let gtin := extract_gtin soup in
  let description := extract_description soup in
  match extract_images soup url with
  | None => (self, Raises)
  | Some images =>
      let weight := extract_weight self soup in
      let dimensions := extract_dimensions self soup in
      let product_data :=
        [ ("name", PStr name); ("brand", brand); ("gtin", PStr gtin);
          ("description", PStr description); ("images", PList images);
          ("price", PStr price); ("currency", currency); ("source", PStr url);
          ("weight", PStr weight); ("dimensions", PDict dimensions);
          ("blocked", PBool false) ] in
      let product_data := backfill weight name product_data in
      if summary_raises images then (self, Raises)
      else (self, Returns product_data)
  end.

(** [scrape_product(url)]. [delay] is the draw of [random.uniform(1, 3)],
    in microseconds, and [fetched] the end of the request; the user agent of
    the instance and the delay act on the request only. *)
Definition scrape_product (self : Scraper) (delay : Z) (fetched : Fetch)
  (url : string) : Scraper * Result :=
  match fetched with
  | Timeout => (self, Returns (timeout_record url))
  | FetchError => (self, Raises)
  | Fetched response =>
      let url := response_url response in
      let debug_info := make_debug_info response in
      if is_blocked response
      then (self, Returns (blocked_record url debug_info))
      else scrape_page self response
  end.

End ScrapeProduct.

(* ================================================================== *)
(** ** The contract of the specification, and documents to run on *)

(** The fields of the ProductRecord of the specification. *)
Definition contract_fields : list string :=
  [ "name"; "brand"; "gtin"; "description"; "images"; "price"; "currency";
    "source"; "weight"; "dimensions"; "blocked" ].






(** The first word of a name looks like a brand, in the words of the
    specification: capitalized, of length strictly between 2 and 20, and
    not one of the generic lead words. *)
Definition brand_like (w : string) : bool :=
  match w with
  | String c _ => PyStr.isupper c
  | EmptyString => false
  end
  && (2 <? PyStr.len w)%nat && (PyStr.len w <? 20)%nat
  && negb (str_in w ["New"; "The"; "Premium"; "Professional"; "Original";
                     "Genuine"; "Authentic"]).

(** Group 1 holds a text that starts with a digit. *)
Definition digit_first (caps : list (nat * list ascii)) : Prop :=
  exists c w, Re.get_cap 1 caps = Some (c :: w) /\ PyStr.is_decimal c = true.

(** Every match of the pattern leaves such a text in group 1. *)
Definition sets_number (r : Re.regex) : Prop :=
  forall st st1, Re.Sem r st st1 -> digit_first (Re.m_caps st1).

(** No two values of the list are equal. *)
Fixpoint distinct `{PyLib} (l : list pyval) : bool :=
  match l with
  | [] => true
  | a :: l' => negb (existsb (py_eqb a) l') && distinct l'
  end.

(** The URLs of the list are results of [urljoin] on the base, and none
    ends in [.gif]. *)
Definition resolved `{PyLib} (base_url : string) (images : list string) : Prop :=
  forall u, In u images ->
    PyStr.endswith ".gif" u = false
    /\ exists src, urljoin base_url src = Some u.

(** An absolute URL starts with a scheme. *)
Definition is_absolute (url : string) : bool :=
  PyStr.startswith "http://" url || PyStr.startswith "https://" url.

(** The result without the status code that [debug_info] holds: the
    entry [status] is taken out of the dict under [debug_info], and nothing
    else is touched. *)
Definition drop_status (r : Result) : Result :=
  match r with
  | Returns product_data =>
      Returns
        (map (fun kv =>
                match kv with
                | (k, PDict d) =>
                    if String.eqb k "debug_info"
                    then (k, PDict (filter (fun e =>
                                              negb (String.eqb (fst e) "status"))
                                      d))
                    else kv
                | _ => kv
                end) product_data)
  | Raises => Raises
  end.

(** The domains of Amazon that [extract_currency] tests first. *)
Definition amazon_domains : list string :=
  [ "amazon.ca"; "amazon.com"; "amazon.co.uk"; "amazon.de"; "amazon.fr";
    "amazon.es"; "amazon.it"; "amazon.co.jp"; "amazon.in"; "amazon.com.au" ].

(** The characters before the first slash. *)
Fixpoint until_slash (s : string) : string :=
  match s with
  | EmptyString => EmptyString
  | String c s' => if Ascii.eqb c "/" then EmptyString else String c (until_slash s')
  end.

(** Scheme and host of an absolute URL. *)
Definition origin (url : string) : string :=
  if PyStr.startswith "https://" url
  then "https://" ++ until_slash (String.substring 8 (String.length url - 8) url)
  else if PyStr.startswith "http://" url
  then "http://" ++ until_slash (String.substring 7 (String.length url - 7) url)
  else url.

(** The number that a text of decimal digits denotes. *)
Fixpoint digits_value (s : string) (acc : Z) : option Z :=
  match s with
  | EmptyString => Some acc
  | String c rest =>
      if PyStr.is_decimal c
      then digits_value rest (10 * acc + Z.of_N (PyStr.code c - 48))%Z
      else None
  end.

(** The integer nearest to [a / b], the even one of two. *)
Definition round_half_even (a b : Z) : Z :=
  let q := (a / b)%Z in
  let r := (a mod b)%Z in
  if (2 * r <? b)%Z then q
  else if (b <? 2 * r)%Z then (q + 1)%Z
  else if Z.even q then q else (q + 1)%Z.

(** The float nearest to [n / d], for positive [n] and [d], within the
    normal range: a mantissa of 53 bits, ties to even. *)
Definition nearest_float (negative : bool) (n d : Z) : fval :=
  let e0 := (Z.log2 n - Z.log2 d - 52)%Z in
  let below :=
    if (0 <=? e0)%Z then (n <? 2 ^ 52 * d * 2 ^ e0)%Z
    else (n * 2 ^ (- e0) <? 2 ^ 52 * d)%Z in
  let e := if below then (e0 - 1)%Z else e0 in
  let m :=
    if (0 <=? e)%Z then round_half_even n (d * 2 ^ e)
    else round_half_even (n * 2 ^ (- e)) d in
  FNum (if negative then (- m)%Z else m) e.

(** The value of the [repr] of a float: [nan], [inf], [-inf], or digits
    with a point and, for the large and the small, an exponent. *)
Definition value_of_repr (r : string) : fval :=
  let negative := PyStr.startswith "-" r in
  let body := if negative then String.substring 1 (String.length r) r else r in
  if String.eqb body "nan" then FNan
  else if String.eqb body "inf" then FInf negative
  else
    let parts := PyStr.split_on "e"%char body in
    let mantissa := PyStr.split_on "."%char (nth 0 parts "") in
    let integral := nth 0 mantissa "" in
    let fraction := nth 1 mantissa "" in
    let exponent := nth 1 parts "+0" in
    let exponent_negative := PyStr.startswith "-" exponent in
    let exponent_digits := String.substring 1 (String.length exponent) exponent in
    match digits_value (integral ++ fraction) 0, digits_value exponent_digits 0 with
    | Some n, Some x =>
        let x := ((if exponent_negative then - x else x)
                  - Z.of_nat (String.length fraction))%Z in
        if (n =? 0)%Z then FNum 0 0
        else if (0 <=? x)%Z then nearest_float negative (n * 10 ^ x) 1
        else nearest_float negative n (10 ^ (- x))
    | _, _ => FNan
    end.

(** A library to run the examples with. Its [urljoin] knows three cases:
    a bracket that closes no address, on which it raises, an absolute URL,
    which is kept, and a path from the root, which is put behind the origin
    of the base. Its [float] knows the short decimal literals without
    superfluous zeros. *)
Definition example_lib : PyLib := {|
  urljoin := fun base url =>
    if PyStr.contains "[" url && negb (PyStr.contains "]" url) then raise
    else if is_absolute url then Some url
    else if PyStr.startswith "/" url then Some (origin base ++ url)
    else Some base;
  py_float := fun s => Some (if PyStr.contains "." s then s else s ++ ".0");
  float_value := value_of_repr;
  container_str := fun _ => "[...]"
|}.

(** The parser that reads every page as the given document. *)
Definition parser_of (soup : Soup) : HtmlParser :=
  {| BeautifulSoup := fun _ => soup |}.

(** A tag without parent. *)
Definition tag (name : string) (attrs : list (string * string))
  (strings : list string) : Tag :=
  mkTag name attrs strings None [] None.

(** A document in which nothing is found. *)
Definition empty_soup : Soup :=
  mkSoup (fun _ => []) None (fun _ _ => None) [].

(** A document whose only content is one JSON-LD object. *)
Definition ld_soup (data : pyval) : Soup :=
  mkSoup (fun _ => []) None (fun _ _ => None) [Some data].

(** A document in which one selector finds one tag. *)
Definition one_tag_soup (selector : string) (t : Tag) : Soup :=
  mkSoup (fun sel => if String.eqb sel selector then [t] else [])
    None (fun _ _ => None) [].

(** A page of a shop: a title, a price and two pictures. *)
Definition shop_soup : Soup :=
  mkSoup (fun sel =>
            if String.eqb sel "h1" then [tag "h1" [] [" Acme Hand Soap 16 fl oz "]]
            else if String.eqb sel ".price" then [tag "span" [] ["$1,299"]]
            else if String.eqb sel ".gallery img" then
              [tag "img" [("src", "//cdn.shop.example/soap.jpg")] [];
               tag "img" [("src", "/img/spinner.gif")] [];
               tag "img" [("data-src", "/img/soap-2.jpg")] []]
            else [])
    None (fun _ _ => None) [].

Definition shop_page : string :=
  "<h1> Acme Hand Soap 16 fl oz </h1><span class='price'>$1,299</span><div class='gallery'><img src='//cdn.shop.example/soap.jpg'><img src='/img/spinner.gif'><img data-src='/img/soap-2.jpg'></div>".

Definition shop_response : Response :=
  mkResponse "https://shop.example/p/1" 200 shop_page shop_page.

(** A page without a weight, whose name holds the unit token g. *)
Definition widget_soup : Soup :=
  one_tag_soup "h1" (tag "h1" [] ["Acme Heavy-Duty Widget"]).

Definition widget_response : Response :=
  mkResponse "https://shop.example/p/2" 200 "<h1>Acme Heavy-Duty Widget</h1>"
    "<h1>Acme Heavy-Duty Widget</h1>".

(** A page that says robot check in lower case, and the same in upper
    case. *)
Definition lower_robot_response : Response :=
  mkResponse "https://www.amazon.ca/dp/B0" 200 "<title>robot check</title>"
    "<title>robot check</title>".

Definition upper_robot_response : Response :=
  mkResponse "https://www.amazon.ca/dp/B0" 200 "<title>ROBOT CHECK</title>"
    "<title>ROBOT CHECK</title>".

Definition lower_robot_soup : Soup :=
  mkSoup (fun _ => []) (Some (tag "title" [] ["robot check"]))
    (fun _ _ => None) [].

(** A page stopped by the robot check of Amazon Canada. *)
Definition robot_response : Response :=
  mkResponse "https://www.amazon.ca/errors/validateCaptcha" 200
    "<title>Robot Check</title>" "<title>Robot Check</title>".

(** A page that gives the UPC of the product. *)
Definition upc_soup : Soup :=
  one_tag_soup ".product-upc" (tag "span" [] ["UPC: 036000291452"]).

(** The record of the page of the shop. *)
Definition shop_record : list (string * pyval) :=
  [ ("name", PStr "Acme Hand Soap 16 fl oz"); ("brand", PStr "Acme");
    ("gtin", PStr ""); ("description", PStr "Description not found");
    ("images", PList [PStr "https://cdn.shop.example/soap.jpg";
                      PStr "https://shop.example/img/soap-2.jpg"]);
    ("price", PStr "1299.00"); ("currency", PStr "USD");
    ("source", PStr "https://shop.example/p/1");
    ("weight", PStr "16 fl oz");
    ("dimensions",
     PDict [ ("raw", PStr "Dimensions not found"); ("length", PNone);
             ("width", PNone); ("height", PNone); ("unit", PNone) ]);
    ("blocked", PBool false) ].


(** A page with a picture whose address opens a bracket and does not
    close it. *)
Definition bracket_soup : Soup :=
  one_tag_soup ".gallery img" (tag "img" [("src", "//[")] []).

(** A page that Walmart Canada serves with a price in US dollars. *)
Definition walmart_usd_soup : Soup :=
  mkSoup (fun _ => []) None
    (fun attr value =>
       if String.eqb attr "itemprop" && String.eqb value "priceCurrency"
       then Some (tag "meta" [("itemprop", "priceCurrency"); ("content", "USD")] [])
       else None)
    [].

(* ================================================================== *)
(** ** The shapes of the results *)

(** The scan of the selectors in [extract_dimensions], before the product
    name is looked at. *)
Definition dimensions_from_selectors `{PyLib} (soup : Soup)
  : option (list (string * pyval)) :=
  first_some (fun selector =>
     first_some (fun element =>
                   first_some (dimensions_of_text (get_text element))
                     dim_patterns)
       (select soup selector)) dim_selectors.

(** The keys of the dict of [extract_dimensions], in the order in which
    the literal gives them. *)
Definition dimension_keys : list string :=
  [ "raw"; "length"; "width"; "height"; "unit" ].

(** The unit is [None] or one of the five unit strings. *)
Definition unit_ok (d : list (string * pyval)) : Prop :=
  dict_get "unit" d = Some PNone
  \/ exists u, In u dim_units /\ dict_get "unit" d = Some (PStr u).

(** Every match of the pattern leaves in group 1 a text with [Q]. *)
Definition group1_is (Q : list ascii -> Prop) (r : Re.regex) : Prop :=
  forall st st1, Re.Sem r st st1 ->
    exists w, Re.get_cap 1 (Re.m_caps st1) = Some w /\ Q w.

(** Between 8 and 14 characters, each a letter, a digit or an underscore. *)
Definition gtin_like (w : list ascii) : Prop :=
  (8 <= length w <= 14)%nat /\ forallb PyStr.is_word w = true.

Definition gtin_text (g : string) : Prop :=
  (8 <= PyStr.len g <= 14)%nat /\ PyStr.all_chars PyStr.is_word g = true.

(** The keys of the record of the timeout handler. *)
Definition timeout_fields : list string :=
  [ "name"; "brand"; "gtin"; "description"; "images"; "price"; "currency";
    "source"; "weight"; "dimensions"; "error" ].

(** ** The routes *)

(** Truthiness of a value. *)
Definition py_truthy (v : pyval) : bool :=
  match v with
  | PNone => false
  | PBool b => b
  | PInt z => negb (Z.eqb z 0)
  | PFloat r => negb (String.eqb r "0.0" || String.eqb r "-0.0")
  | PStr s => PyStr.nonempty s
  | PList l => match l with [] => false | _ => true end
  | PDict d => match d with [] => false | _ => true end
  end.

(** What a route answers: [jsonify(body), status]. [JsonError] is the
    answer of a handler of exceptions, [jsonify({'error': str(e)})] with
    its status: the text of the exception is not modelled. *)
Inductive RouteAnswer : Type :=
| Json (status : Z) (body : list (string * pyval))
| JsonError (status : Z).

Definition answer_status (a : RouteAnswer) : Z :=
  match a with
  | Json status _ => status
  | JsonError status => status
  end.

(** *** [scrape] *)

Section ScrapeRoute.

Context {lib : PyLib} {parser : HtmlParser}.

(** [scrape()]. [get_json] is what [request.get_json()] gives ([None]
    when it raises), [choice] and [delay] are the random draws of the new
    instance and of its call, [fetched] the end of the request. A URL that
    is not a string never gets to the network: [requests] raises on it. *)
Definition scrape (get_json : exc pyval) (choice : nat) (delay : Z)
  (fetched : Fetch) : RouteAnswer :=
  match get_json with
  | Some (PDict data) =>
      match dict_get "url" data with
      | Some url =>
          if negb (py_truthy url)
          then Json 400 [("error", PStr "URL is required")]
          else
            match url with
            | PStr url =>
                let scraper := init choice in
                match snd (scrape_product scraper delay fetched url) with
                | Returns product_data => Json 200 product_data
                | Raises => JsonError 500
                end
            | _ => JsonError 500
            end
      | None => Json 400 [("error", PStr "URL is required")]
      end
  | _ => JsonError 500
  end.

End ScrapeRoute.

(** *** [find_attachment_fields] *)

(** The environment: [os.getenv] gives a string or [None]. *)
Record Config : Type := mkConfig {
  AIRTABLE_API_KEY : option string;
  AIRTABLE_BASE_ID : option string
}.

Definition env_truthy (v : option string) : bool :=
  match v with Some s => PyStr.nonempty s | None => false end.

(** The response of Airtable: the status code, the header content-type,
    the text of the body and what [response.json()] gives ([None] when it
    raises). *)
Record ApiResponse : Type := mkApiResponse {
  api_status : Z;
  api_content_type : option string;
  api_text : string;
  api_json : exc pyval
}.

Definition attachment_words : list string :=
  [ "photo"; "image"; "attachment"; "file"; "picture"; "inspection" ].

(** The test of the list comprehension. *)
Definition is_potential (f : string) : bool :=
  existsb (fun word => PyStr.contains word (PyStr.lower f)) attachment_words.

(** The test of the loop over the potential fields. *)
Definition is_inspection_photo (field : string) : bool :=
  PyStr.contains "inspection" (PyStr.lower field)
  && (PyStr.contains "photo" (PyStr.lower field)
      || PyStr.contains "image" (PyStr.lower field)).

(** The dict [results] for the names of the fields of the first record. *)
Definition attachment_results (fields : list string) : list (string * pyval) :=
  let potential_fields := filter is_potential fields in
  let results :=
    [ ("all_fields", PList (map PStr fields));
      ("potential_attachment_fields", PList (map PStr potential_fields));
      ("recommendation", PNone) ] in
  let results :=
    match find is_inspection_photo potential_fields with
    | Some field =>
        dict_set "message"
          (PStr ("Found likely field: '" ++ field
                 ++ "' - Update INSPECTION_PHOTOS_FIELD_NAME in the code to match"))
          (dict_set "recommendation" (PStr field) results)
    | None => results
    end in
  let recommended :=
    match dict_get "recommendation" results with
    | Some v => py_truthy v
    | None => false
    end in
  match potential_fields with
  | first :: _ =>
      if negb recommended then
        dict_set "message"
          (PStr ("No 'inspection photo' field found. Consider using: '"
                 ++ first ++ "'"))
          (dict_set "recommendation" (PStr first) results)
      else results
  | [] =>
      dict_set "message"
        (PStr "No attachment-like fields found. Make sure you have an Attachment field in Airtable.")
        results
  end.

(** [list(records[0].get('fields', {}).keys())]: [records] has to be a
    list, its first element a dict, and [fields], when there, a dict. *)
Definition first_record_fields (records : pyval) : exc (list string) :=
  match records with
  | PList (PDict record :: _) =>
      match dict_get "fields" record with
      | Some (PDict fields) => Some (map fst fields)
      | Some _ => raise
      | None => Some []
      end
  | _ => raise
  end.

(** [find_attachment_fields()]; [got] is the end of [requests.get],
    [None] when it raises. *)
Definition find_attachment_fields (config : Config) (got : exc ApiResponse)
  : RouteAnswer :=
  if negb (env_truthy (AIRTABLE_API_KEY config))
     || negb (env_truthy (AIRTABLE_BASE_ID config))
  then Json 500 [("error", PStr "Airtable not configured")]
  else
    match got with
    | None => JsonError 500
    | Some response =>
        if negb (Z.eqb (api_status response) 200)
        then Json 500 [("error", PStr "Could not access table")]
        else
          match api_json response with
          | Some (PDict body) =>
              let records :=
                match dict_get "records" body with
                | Some v => v
                | None => PList []
                end in
              if negb (py_truthy records)
              then Json 400 [("error", PStr "No records found to analyze")]
              else
                match first_record_fields records with
                | Some fields => Json 200 (attachment_results fields)
                | None => JsonError 500
                end
          | _ => JsonError 500
          end
    end.

(** *** [get_auctions] *)

(** [a or b or ... or default]: the first truthy value, or the default. *)
Fixpoint first_truthy (candidates : list (option pyval)) (default : pyval)
  : pyval :=
  match candidates with
  | [] => default
  | Some v :: rest => if py_truthy v then v else first_truthy rest default
  | None :: rest => first_truthy rest default
  end.

(** [s[-n:]] *)
Definition suffix (n : nat) (s : string) : string :=
  String.substring (String.length s - n) n s.

Definition auction_name_keys : list string :=
  [ "Auction Name"; "Auction No"; "Name"; "Title"; "Auction Number"; "Number";
    "Auction"; "Auction ID"; "ID" ].

Section Auctions.

Context {lib : PyLib}.

(** The f-string of the fallback name: the last six characters of the id
    of the record. A missing id, or an id that cannot be sliced, raises. *)
Definition fallback_name (record : list (string * pyval)) : exc string :=
  match dict_get "id" record with
  | Some (PStr id) => Some ("Auction " ++ suffix 6 id)
  | Some (PList l) =>
      Some ("Auction " ++ py_str (PList (skipn (length l - 6) l)))
  | _ => raise
  end.

(** The body of the loop over the records. *)
Definition auction_of_record (record : pyval) : exc (list (string * pyval)) :=
  match record with
  | PDict record =>
      fields <- match dict_get "fields" record with
                | Some (PDict fields) => Some fields
                | Some _ => raise
                | None => Some []
                end ;;
      let named :=
        first_truthy (map (fun k => dict_get k fields) auction_name_keys) PNone in
      auction_name <- (if py_truthy named then Some (py_str named)
                       else fallback_name record) ;;
      let status :=
        first_truthy [dict_get "Status" fields; dict_get "Auction Status" fields;
                      dict_get "State" fields] (PStr "Unknown") in
      let date :=
        first_truthy [dict_get "Auction Date" fields; dict_get "Date" fields;
                      dict_get "Start Date" fields; dict_get "Created" fields]
          (PStr "") in
      id <- dict_get "id" record ;;
      Some [ ("id", id); ("name", PStr auction_name); ("date", date);
             ("status", status) ]
  | _ => raise
  end.

(** The loop: one record that raises ends it. *)
Fixpoint auctions_of_records (records : list pyval)
  : exc (list (list (string * pyval))) :=
  match records with
  | [] => Some []
  | record :: rest =>
      auction <- auction_of_record record ;;
      auctions <- auctions_of_records rest ;;
      Some (auction :: auctions)
  end.

(** [get_auctions()]; [got] is the end of [requests.get]. The records
    have to be a list (or an empty string or dict, over which the loop does
    nothing). *)
Definition get_auctions (config : Config) (got : exc ApiResponse) : RouteAnswer :=
  if negb (env_truthy (AIRTABLE_API_KEY config))
     || negb (env_truthy (AIRTABLE_BASE_ID config))
  then Json 500 [("error", PStr "Airtable not configured")]
  else
    match got with
    | None => JsonError 500
    | Some response =>
        if Z.eqb (api_status response) 200 then
          match api_json response with
          | Some (PDict body) =>
              let records :=
                match dict_get "records" body with
                | Some v => v
                | None => PList []
                end in
              match records with
              | PList l =>
                  match auctions_of_records l with
                  | Some auctions =>
                      Json 200 [ ("success", PBool true);
                                 ("auctions", PList (map PDict auctions)) ]
                  | None => JsonError 500
                  end
              | PStr EmptyString | PDict [] =>
                  Json 200 [("success", PBool true); ("auctions", PList [])]
              | _ => JsonError 500
              end
          | _ => JsonError 500
          end
        else if Z.eqb (api_status response) 404 then
          Json 404
            [ ("error",
               PStr "Table 'Auctions' not found. Please check the table name.");
              ("suggestion",
               PStr "Make sure you have an 'Auctions' table in your Airtable base") ]
        else
          (* [response.json()] is called, and may raise, only under the
             content type of JSON; what it gives is not used *)
          let is_json :=
            match api_content_type response with
            | Some t => String.eqb t "application/json"
            | None => false
            end in
          match (if is_json then api_json response else Some (PDict [])) with
          | Some _ =>
              Json 500
                [ ("error", PStr "Failed to fetch auctions");
                  ("details",
                   PStr ("Airtable API Error: "
                         ++ py_str (PInt (api_status response)) ++ " - "
                         ++ PyStr.prefix 200 (api_text response))) ]
          | None => JsonError 500
          end
    end.

End Auctions.

(** *** [check_config] *)

(** The words of [check_config]: those of [find_attachment_fields] but
    inspection. *)
Definition config_words : list string :=
  [ "photo"; "image"; "attachment"; "picture"; "file" ].

Definition is_attachment_field (f : string) : bool :=
  existsb (fun word => PyStr.contains word (PyStr.lower f)) config_words.

(** [response.json().get('records', [])] *)
Definition records_of (response : ApiResponse) : exc pyval :=
  match api_json response with
  | Some (PDict body) =>
      Some match dict_get "records" body with
           | Some v => v
           | None => PList []
           end
  | _ => raise
  end.

(** The body of the [try] of [check_config]: what it makes of the dict
    [config], when it does not raise. Nothing is written before the last
    expression that can raise is evaluated. *)
Definition field_check (got : exc ApiResponse) (config : list (string * pyval))
  : exc (list (string * pyval)) :=
  response <- got ;;
  if Z.eqb (api_status response) 200 then
    records <- records_of response ;;
    if py_truthy records then
      fields <- first_record_fields records ;;
      let config :=
        dict_set "items_fields_sample" (PList (map PStr (firstn 10 fields)))
          config in
      let config :=
        dict_set "inspection_photos_field_exists"
          (PBool (str_in "Inspection Photos" fields)) config in
      let attachment_fields := filter is_attachment_field fields in
      Some match attachment_fields with
           | [] => config
           | _ =>
               dict_set "possible_attachment_fields"
                 (PList (map PStr attachment_fields)) config
           end
    else Some config
  else Some config.

(** [check_config()]: the dict given to [jsonify], the status being 200 on
    every path. [env] holds the settings of Airtable, [error_text] is the
    text of the exception, if one is raised, and [got] the end of
    [requests.get], which is called only when Airtable is configured. *)
Definition check_config (env : Config) (CLOUDINARY_AVAILABLE : bool)
  (CLOUDINARY_CLOUD_NAME : option string) (error_text : string)
  (got : exc ApiResponse) : list (string * pyval) :=
  let airtable_configured :=
    env_truthy (AIRTABLE_API_KEY env) && env_truthy (AIRTABLE_BASE_ID env) in
  let config :=
    [ ("airtable_configured", PBool airtable_configured);
      ("cloudinary_configured",
       PBool (CLOUDINARY_AVAILABLE && env_truthy CLOUDINARY_CLOUD_NAME));
      ("cloudinary_available", PBool CLOUDINARY_AVAILABLE) ] in
  if airtable_configured then
    match field_check got config with
    | Some config => config
    | None => dict_set "field_check_error" (PStr error_text) config
    end
  else config.

(** *** [test_airtable] *)

Definition is_photo_field (f : string) : bool :=
  PyStr.contains "photo" (PyStr.lower f)
  || PyStr.contains "image" (PyStr.lower f)
  || PyStr.contains "attachment" (PyStr.lower f).

(** The part of [test_airtable] on the table of the auctions. *)
Definition auctions_check (response : ApiResponse)
  : exc (list (string * pyval)) :=
  let ok := Z.eqb (api_status response) 200 in
  let result :=
    [ ("airtable_connected", PBool ok); ("auctions_table_exists", PBool ok);
      ("status_code", PInt (api_status response)) ] in
  if ok then
    records <- records_of response ;;
    if py_truthy records then
      fields <- first_record_fields records ;;
      Some (dict_set "auction_fields" (PList (map PStr fields)) result)
    else Some result
  else
    Some (dict_set "error" (PStr (PyStr.prefix 200 (api_text response))) result).

(** The part of [test_airtable] on the table of the items. *)
Definition items_check (items_response : ApiResponse)
  (result : list (string * pyval)) : exc (list (string * pyval)) :=
  if Z.eqb (api_status items_response) 200 then
    items_records <- records_of items_response ;;
    if py_truthy items_records then
      items_fields <- first_record_fields items_records ;;
      let result :=
        dict_set "items_table_fields" (PList (map PStr items_fields)) result in
      let photo_fields := filter is_photo_field items_fields in
      Some match photo_fields with
           | [] => result
           | _ =>
               dict_set "potential_photo_fields"
                 (PList (map PStr photo_fields)) result
           end
    else Some result
  else Some result.

(** [test_airtable()]; [got] is the end of the request for the auctions
    and [got_items] the end of the request for the items, which is made
    when the first part did not raise. *)
Definition test_airtable (config : Config) (got : exc ApiResponse)
  (got_items : exc ApiResponse) : RouteAnswer :=
  if negb (env_truthy (AIRTABLE_API_KEY config))
     || negb (env_truthy (AIRTABLE_BASE_ID config))
  then Json 500 [("error", PStr "Airtable not configured")]
  else
    let answer :=
      response <- got ;;
      result <- auctions_check response ;;
      items_response <- got_items ;;
      items_check items_response result in
    match answer with
    | Some result => Json 200 result
    | None => JsonError 500
    end.

(** What one round of the loop of [get_auctions] appends for a record:
    the id of the record, a name that is a string, a date that is truthy or
    the empty string, and a status that is truthy. *)
Definition auction_of (record : pyval) (auction : list (string * pyval))
  : Prop :=
  exists r id name date status,
    record = PDict r
    /\ dict_get "id" r = Some id
    /\ auction = [ ("id", id); ("name", PStr name); ("date", date);
                   ("status", status) ]
    /\ py_truthy status = true
    /\ (py_truthy date = true \/ date = PStr "").

(** ** Requests to run the routes on *)

Definition example_config : Config :=
  mkConfig (Some "keyXXXXXXXXXXXXXX") (Some "appXXXXXXXXXXXXXX").

(** The text of a body, written with single quotes for the double ones of
    JSON. *)
Fixpoint double_quoted (s : string) : string :=
  match s with
  | EmptyString => EmptyString
  | String c rest =>
      String (if Ascii.eqb c "'" then dquote else c) (double_quoted rest)
  end.

(** The first record of a table of items. *)
Definition items_response : ApiResponse :=
  mkApiResponse 200 (Some "application/json")
    (double_quoted
       "{'records': [{'id': 'recA1B2C3D4E5F6G7', 'fields': {'SKU': 'A-100', 'Item Photos': [], 'Inspection Photos': []}}]}")
    (Some (PDict
       [ ("records",
          PList [ PDict [ ("id", PStr "recA1B2C3D4E5F6G7");
                          ("fields",
                           PDict [ ("SKU", PStr "A-100");
                                   ("Item Photos", PList []);
                                   ("Inspection Photos", PList []) ]) ] ]) ])).

(** Two auctions: one with a name and a status, one without fields. *)
Definition auction_records : list pyval :=
  [ PDict [ ("id", PStr "recA1B2C3D4E5F6G7");
            ("fields", PDict [ ("Auction Name", PStr "Spring sale");
                               ("Status", PStr "Active");
                               ("Created", PStr "2024-03-01") ]) ];
    PDict [ ("id", PStr "recH8I9J0K1L2M3N4") ] ].

Definition auctions_response : ApiResponse :=
  mkApiResponse 200 (Some "application/json")
    (double_quoted
       "{'records': [{'id': 'recA1B2C3D4E5F6G7', 'fields': {'Auction Name': 'Spring sale', 'Status': 'Active', 'Created': '2024-03-01'}}, {'id': 'recH8I9J0K1L2M3N4'}]}")
    (Some (PDict [("records", PList auction_records)])).

(** The answer of Airtable for a table that is not there. *)
Definition not_found_response : ApiResponse :=
  mkApiResponse 404 (Some "application/json")
    (double_quoted "{'error': 'NOT_FOUND'}")
    (Some (PDict [("error", PStr "NOT_FOUND")])).

(** A page whose JSON-LD gives a list in the list of images. *)
Definition nested_image_soup : Soup :=
  ld_soup (PDict [("image", PList [PList [PStr "/img/a.jpg"]])]).

(** * Properties *)

Unset Implicit Arguments.

(** ** The matcher answers only with matches *)

Section Matcher.

Import Re.

(** A successful attempt stands on a derivation of [Sem]. *)
Lemma rmatch_sound : forall r st k res,
  rmatch r st k = Some res ->
  exists st1, Sem r st st1 /\ k st1 = Some res.
Proof.
  induction r as [ | p | r1 IH1 r2 IH2 | r1 IH1 r2 IH2 | r IH | i r IH | | | ];
    intros st k res H; simpl in H.
  - exists st. split; [constructor | exact H].
  - destruct (m_rest st) as [ | c s] eqn:E; [discriminate | ].
    destruct (p c) eqn:Ep; [ | discriminate].
    exists (advance c s st). split; [now constructor | exact H].
  - apply IH1 in H. destruct H as (st1 & S1 & H).
    apply IH2 in H. destruct H as (st2 & S2 & H).
    exists st2. split; [econstructor; eauto | exact H].
  - destruct (rmatch r1 st k) eqn:E1.
    + inversion H; subst. apply IH1 in E1. destruct E1 as (st1 & S1 & E1).
      exists st1. split; [now apply SAltL | exact E1].
    + apply IH2 in H. destruct H as (st1 & S1 & H).
      exists st1. split; [now apply SAltR | exact H].
  - revert H. generalize (length (m_rest st)) as fuel. intros fuel.
    revert st. induction fuel as [ | fuel IHf]; intros st H.
    + exists st. split; [constructor | exact H].
    + match type of H with
      | match ?X with _ => _ end = _ => destruct X eqn:E1
      end.
      * inversion H; subst. apply IH in E1. destruct E1 as (st1 & S1 & E1).
        destruct (Nat.ltb (length (m_rest st1)) (length (m_rest st)));
          [ | discriminate].
        apply IHf in E1. destruct E1 as (st2 & S2 & E2).
        exists st2. split; [eapply SStarS; eauto | exact E2].
      * exists st. split; [constructor | exact H].
  - apply IH in H. destruct H as (st1 & S1 & H).
    exists (set_cap i (consumed st st1) st1). split; [now constructor | exact H].
  - destruct (at_boundary st) eqn:E; [ | discriminate].
    exists st. split; [now constructor | exact H].
  - destruct (at_start st) eqn:E; [ | discriminate].
    exists st. split; [now constructor | exact H].
  - destruct (at_end st) eqn:E; [ | discriminate].
    exists st. split; [now constructor | exact H].
Qed.

(** What is read between two states is a text of the pattern. *)
Lemma Sem_Lang : forall r st st1,
  Sem r st st1 -> exists w, m_rest st = (w ++ m_rest st1)%list /\ Lang r w.
Proof.
  induction 1.
  - exists []. split; [reflexivity | constructor].
  - exists [c]. split; [simpl; assumption | now constructor].
  - destruct IHSem1 as (w1 & E1 & L1). destruct IHSem2 as (w2 & E2 & L2).
    exists (w1 ++ w2)%list. split; [ | now constructor].
    rewrite E1, E2. now rewrite app_assoc.
  - destruct IHSem as (w & E & L). exists w. split; [exact E | now apply LAltL].
  - destruct IHSem as (w & E & L). exists w. split; [exact E | now apply LAltR].
  - exists []. split; [reflexivity | constructor].
  - destruct IHSem1 as (w1 & E1 & L1). destruct IHSem2 as (w2 & E2 & L2).
    exists (w1 ++ w2)%list. split; [ | now constructor].
    rewrite E1, E2. now rewrite app_assoc.
  - destruct IHSem as (w & E & L). exists w. split; [exact E | now constructor].
  - exists []. split; [reflexivity | constructor].
  - exists []. split; [reflexivity | constructor].
  - exists []. split; [reflexivity | constructor].
Qed.

Lemma consumed_app : forall st st1 w,
  m_rest st = (w ++ m_rest st1)%list -> consumed st st1 = w.
Proof.
  intros st st1 w E. unfold consumed. rewrite E, length_app.
  replace (length w + length (m_rest st1) - length (m_rest st1))%nat
    with (length w + 0)%nat by lia.
  rewrite firstn_app_2. simpl. apply app_nil_r.
Qed.

Lemma Sem_cat_inv : forall r1 r2 st st2,
  Sem (Cat r1 r2) st st2 -> exists st1, Sem r1 st st1 /\ Sem r2 st1 st2.
Proof. intros r1 r2 st st2 H. inversion H; subst. eauto. Qed.

Lemma Sem_group_inv : forall i r st st2,
  Sem (Group i r) st st2 ->
  exists st1, Sem r st st1 /\ st2 = set_cap i (consumed st st1) st1.
Proof. intros i r st st2 H. inversion H; subst. eauto. Qed.

(** A group holds a text that its pattern can read. *)
Lemma Sem_group : forall i r st st1,
  Sem (Group i r) st st1 ->
  exists w, Lang r w /\ get_cap i (m_caps st1) = Some w.
Proof.
  intros i r st st1 H. apply Sem_group_inv in H. destruct H as (st' & H & ->).
  destruct (Sem_Lang _ _ _ H) as (w & E & L).
  exists w. split; [exact L | ].
  simpl. rewrite Nat.eqb_refl. now rewrite (consumed_app _ _ _ E).
Qed.

(** A pattern leaves the groups of the other numbers alone. *)
Lemma Sem_other_groups : forall r st st1 i,
  Sem r st st1 -> ~ In i (group_ids r) ->
  get_cap i (m_caps st1) = get_cap i (m_caps st).
Proof.
  induction 1; intros Hi; simpl in *; try reflexivity.
  - rewrite IHSem2, IHSem1; [reflexivity | | ]; intro; apply Hi;
      apply in_or_app; auto.
  - apply IHSem. intro; apply Hi; apply in_or_app; auto.
  - apply IHSem. intro; apply Hi; apply in_or_app; auto.
  - rewrite IHSem2, IHSem1; auto.
  - destruct (Nat.eqb i i0) eqn:E.
    + apply Nat.eqb_eq in E. exfalso. apply Hi. left. now symmetry.
    + apply IHSem. intro; apply Hi. now right.
Qed.

Lemma search_from_sound : forall r s prev m,
  search_from r prev s = Some m ->
  exists st st1, Sem r st st1 /\ m_caps st = [] /\ m = mk_result st st1.
Proof.
  induction s as [ | c s IH]; intros prev m H; simpl in H.
  - destruct (match_here r (mkM prev [] [])) eqn:E; [ | discriminate].
    inversion H; subst. apply rmatch_sound in E. destruct E as (st1 & S1 & E).
    inversion E; subst. eauto.
  - destruct (match_here r (mkM prev (c :: s) [])) eqn:E.
    + inversion H; subst. apply rmatch_sound in E. destruct E as (st1 & S1 & E).
      inversion E; subst. eauto.
    + eapply IH; eauto.
Qed.

(** A match of [search] is a match of the pattern somewhere in the text. *)
Lemma search_sound : forall r text m,
  search r text = Some m ->
  exists st st1, Sem r st st1 /\ m_caps st = [] /\ m = mk_result st st1.
Proof. intros r text m H. eapply search_from_sound; eauto. Qed.


End Matcher.

(** ** Loops that return on the first hit *)

Lemma first_some_in : forall (A B : Type) (f : A -> option B) l b,
  first_some f l = Some b -> exists a, In a l /\ f a = Some b.
Proof.
  induction l as [ | a l IH]; intros b H; simpl in H; [discriminate | ].
  destruct (f a) eqn:E.
  - inversion H; subst. exists a. split; [now left | exact E].
  - destruct (IH _ H) as (a' & Hin & Ha). exists a'. split; [now right | exact Ha].
Qed.

Lemma first_some_none : forall (A B : Type) (f : A -> option B) l,
  first_some f l = None -> forall a, In a l -> f a = None.
Proof.
  induction l as [ | a l IH]; intros H x Hin; simpl in *; [contradiction | ].
  destruct (f a) eqn:E; [discriminate | ].
  destruct Hin as [<- | Hin]; [exact E | now apply IH].
Qed.

Lemma first_some_all_none : forall (A B : Type) (f : A -> option B) l,
  (forall a, In a l -> f a = None) -> first_some f l = None.
Proof.
  induction l as [ | a l IH]; intros H; simpl; [reflexivity | ].
  rewrite (H a (or_introl eq_refl)). apply IH. intros x Hx. apply H. now right.
Qed.

(** ** The weight patterns capture a number *)

Lemma Lang_number : forall w,
  Re.Lang number w -> exists c w', w = c :: w' /\ PyStr.is_decimal c = true.
Proof.
  intros w H. unfold number in H. cbn [Re.seq Re.plus] in H.
  inversion H as [ | | r1 r2 w1 w2 H1 H2 | | | | | | | | ]; subst.
  inversion H1 as [ | | r1' r2' w11 w12 H11 H12 | | | | | | | | ]; subst.
  inversion H11; subst.
  exists c, (w12 ++ w2)%list. split; [reflexivity | assumption].
Qed.

Lemma sets_number_group : sets_number (Re.Group 1 number).
Proof.
  intros st st1 H. destruct (Sem_group _ _ _ _ H) as (w & L & E).
  destruct (Lang_number _ L) as (c & w' & -> & D).
  exists c, w'. auto.
Qed.

Lemma not_in_ids : forall i l, existsb (Nat.eqb i) l = false -> ~ In i l.
Proof.
  intros i l H Hin.
  assert (existsb (Nat.eqb i) l = true) as E.
  { apply existsb_exists. exists i. split; [exact Hin | apply Nat.eqb_refl]. }
  congruence.
Qed.

Lemma sets_number_cat_l : forall r1 r2,
  sets_number r1 -> existsb (Nat.eqb 1) (Re.group_ids r2) = false ->
  sets_number (Re.Cat r1 r2).
Proof.
  intros r1 r2 H1 H2 st st2 H.
  apply Sem_cat_inv in H. destruct H as (st1 & Ha & Hb).
  destruct (H1 _ _ Ha) as (c & w & E & D).
  exists c, w. split; [ | exact D].
  rewrite (Sem_other_groups _ _ _ 1%nat Hb (not_in_ids _ _ H2)). exact E.
Qed.

Lemma sets_number_cat_r : forall r1 r2,
  sets_number r2 -> sets_number (Re.Cat r1 r2).
Proof.
  intros r1 r2 H2 st st2 H.
  apply Sem_cat_inv in H. destruct H as (st1 & Ha & Hb). eauto.
Qed.

Ltac sets_number :=
  first
    [ apply sets_number_group
    | apply sets_number_cat_l; [ solve [sets_number] | vm_compute; reflexivity ]
    | apply sets_number_cat_r; solve [sets_number] ].

Lemma weight_patterns_number : Forall sets_number weight_patterns.
Proof.
  unfold weight_patterns, measure. cbn [Re.seq].
  repeat constructor; sets_number.
Qed.

Lemma title_patterns_number : Forall sets_number title_patterns.
Proof.
  unfold title_patterns, re_fl_oz, re_oz, re_ml, re_l, re_g, re_kg, re_lb.
  cbn [Re.seq].
  repeat constructor; sets_number.
Qed.

(** A weight read by such patterns starts with a digit. *)
Lemma weight_of_text_digit : forall patterns text w,
  Forall sets_number patterns ->
  weight_of_text patterns text = Some w ->
  exists c rest, w = String c rest /\ PyStr.is_decimal c = true.
Proof.
  intros patterns text w HF H. unfold weight_of_text in H.
  apply first_some_in in H. destruct H as (p & Hin & H).
  rewrite Forall_forall in HF. specialize (HF p Hin).
  destruct (Re.search p text) as [m | ] eqn:E; [ | discriminate].
  inversion H; subst; clear H.
  apply search_sound in E. destruct E as (st & st1 & S & _ & ->).
  destruct (HF _ _ S) as (c & w' & Ecap & D).
  unfold Re.group, Re.mk_result. simpl. rewrite Ecap. simpl.
  eauto.
Qed.

Lemma weight_of_text_found : forall patterns text w,
  Forall sets_number patterns ->
  weight_of_text patterns text = Some w -> w <> weight_not_found.
Proof.
  intros patterns text w HF H E.
  destruct (weight_of_text_digit _ _ _ HF H) as (c & rest & -> & D).
  unfold weight_not_found in E. inversion E; subst. discriminate D.
Qed.

Lemma weight_from_selectors_found : forall soup w,
  weight_from_selectors soup = Some w -> w <> weight_not_found.
Proof.
  intros soup w H. unfold weight_from_selectors in H.
  apply first_some_in in H. destruct H as (sel & _ & H).
  apply first_some_in in H. destruct H as (el & _ & H).
  eapply weight_of_text_found; [apply weight_patterns_number | exact H].
Qed.

(** When [extract_weight] answers with the sentinel, no pattern of its
    title pass matches the name. *)
Lemma extract_weight_not_found : forall self soup name,
  last_product_name self = Some name ->
  extract_weight self soup = weight_not_found ->
  weight_of_text title_patterns name = None.
Proof.
  intros self soup name Hn H. unfold extract_weight in H. rewrite Hn in H.
  destruct (weight_from_selectors soup) as [w | ] eqn:E.
  - exfalso. exact (weight_from_selectors_found _ _ E H).
  - destruct (weight_of_text title_patterns name) as [w | ] eqn:Et;
      [ | reflexivity].
    exfalso. exact (weight_of_text_found _ _ _ title_patterns_number Et H).
Qed.

(** The patterns of the backfill are among those of the title pass. *)
Lemma backfill_patterns_in_title : forall p,
  In p backfill_patterns -> In p title_patterns.
Proof.
  intros p H. unfold backfill_patterns in H. unfold title_patterns.
  simpl in H. simpl. intuition.
Qed.

Lemma title_none_backfill_none : forall name,
  weight_of_text title_patterns name = None ->
  weight_of_text backfill_patterns name = None.
Proof.
  intros name H. unfold weight_of_text in *.
  apply first_some_all_none. intros p Hp.
  apply (first_some_none _ _ _ _ H). now apply backfill_patterns_in_title.
Qed.

Lemma backfill_noop : forall self soup name product_data,
  last_product_name self = Some name ->
  backfill (extract_weight self soup) name product_data = product_data.
Proof.
  intros self soup name pd Hn. unfold backfill.
  destruct (backfill_guard (extract_weight self soup) name) eqn:G;
    [ | reflexivity].
  unfold backfill_guard in G. apply andb_prop in G. destruct G as (G & _).
  apply String.eqb_eq in G.
  rewrite (title_none_backfill_none _ (extract_weight_not_found _ _ _ Hn G)).
  reflexivity.
Qed.

(** ** The price read in the text of an element *)


















(** ** The list of images *)

Lemma fval_eqb_sym : forall x y, fval_eqb x y = fval_eqb y x.
Proof.
  intros [ | a | m1 e1] [ | b | m2 e2]; simpl; try reflexivity.
  - now destruct a, b.
  - rewrite (Z.min_comm e2 e1). apply Z.eqb_sym.
Qed.

Lemma py_eqb_sym : forall (lib : PyLib) a b, py_eqb a b = py_eqb b a.
Proof.
  intros lib a b. unfold py_eqb.
  destruct (num_value a), (num_value b); try reflexivity.
  - apply fval_eqb_sym.
  - destruct a, b; try reflexivity. apply String.eqb_sym.
Qed.

Lemma unique_images_fresh : forall (lib : PyLib) images seen unique,
  unique_images seen images = Some unique ->
  forall a, In a unique -> existsb (py_eqb a) seen = false.
Proof.
  intros lib.
  induction images as [ | img images IH]; intros seen unique H a Ha; simpl in H.
  - inversion H; subst. contradiction.
  - destruct (hashable img); [ | discriminate].
    destruct (existsb (py_eqb img) seen) eqn:E; [now apply (IH _ _ H) | ].
    destruct (unique_images (img :: seen) images) as [rest | ] eqn:Er;
      [ | discriminate].
    inversion H; subst. destruct Ha as [<- | Ha]; [exact E | ].
    pose proof (IH _ _ Er a Ha) as F. simpl in F.
    now apply orb_false_elim in F.
Qed.

Lemma unique_images_distinct : forall (lib : PyLib) images seen unique,
  unique_images seen images = Some unique -> distinct unique = true.
Proof.
  intros lib.
  induction images as [ | img images IH]; intros seen unique H; simpl in H.
  - inversion H; subst. reflexivity.
  - destruct (hashable img); [ | discriminate].
    destruct (existsb (py_eqb img) seen) eqn:E; [now apply (IH _ _ H) | ].
    destruct (unique_images (img :: seen) images) as [rest | ] eqn:Er;
      [ | discriminate].
    inversion H; subst. simpl. rewrite (IH _ _ Er), andb_true_r.
    apply negb_true_iff. apply not_true_is_false. intros F.
    apply existsb_exists in F. destruct F as (x & Hx & Fx).
    pose proof (unique_images_fresh lib _ _ _ Er x Hx) as G. simpl in G.
    apply orb_false_elim in G. destruct G as (G & _).
    rewrite py_eqb_sym in G. congruence.
Qed.

Lemma In_firstn : forall (A : Type) n (l : list A) x,
  In x (firstn n l) -> In x l.
Proof.
  induction n as [ | n IH]; intros l x H; [contradiction | ].
  destruct l as [ | a l]; [contradiction | ].
  simpl in H. destruct H as [<- | H]; [now left | right; now apply IH].
Qed.

Lemma distinct_firstn : forall (lib : PyLib) n l,
  distinct l = true -> distinct (firstn n l) = true.
Proof.
  intros lib.
  induction n as [ | n IH]; intros l H; [reflexivity | ].
  destruct l as [ | a l]; [reflexivity | ].
  simpl in *. apply andb_prop in H. destruct H as (Ha & Hl).
  rewrite (IH _ Hl), andb_true_r.
  apply negb_true_iff. apply negb_true_iff in Ha.
  apply not_true_is_false. intros F. apply existsb_exists in F.
  destruct F as (x & Hx & Fx). apply In_firstn in Hx.
  assert (existsb (py_eqb a) l = true) by (apply existsb_exists; eauto).
  congruence.
Qed.

(** What [extract_images] returns, by its three steps. *)
Lemma extract_images_returns : forall (lib : PyLib) soup base_url images,
  extract_images soup base_url = Some images ->
  exists found unique,
    selector_images soup base_url = Some found
    /\ unique_images []
         (map PStr found ++ flat_map ld_images_of_script (ld_scripts soup))
       = Some unique
    /\ images = firstn 10 unique.
Proof.
  intros lib soup base_url images H.
  unfold extract_images, collect_images, bind in H.
  destruct (selector_images soup base_url) as [found | ]; [ | discriminate].
  destruct (unique_images [] _) as [unique | ] eqn:U; [ | discriminate].
  exists found, unique. repeat split; congruence.
Qed.

Lemma extract_images_distinct_at_most_10 :
  forall (lib : PyLib) soup base_url images,
  extract_images soup base_url = Some images ->
  distinct images = true /\ (length images <= 10)%nat.
Proof.
  intros lib soup base_url images H.
  apply extract_images_returns in H.
  destruct H as (found & unique & _ & U & ->). split.
  - apply distinct_firstn. eapply unique_images_distinct; eauto.
  - apply firstn_le_length.
Qed.

Lemma add_image_resolved : forall (lib : PyLib) base_url images src images',
  add_image base_url images src = Some images' ->
  resolved base_url images -> resolved base_url images'.
Proof.
  intros lib base_url images src images' A H. unfold add_image, bind in A.
  destruct (urljoin base_url _) as [absolute_url | ] eqn:J; [ | discriminate].
  destruct (negb (str_in absolute_url images)
            && negb (PyStr.endswith ".gif" absolute_url)) eqn:E;
    [ | now replace images' with images by congruence].
  replace images' with (images ++ [absolute_url])%list by congruence.
  apply andb_prop in E. destruct E as (_ & E). apply negb_true_iff in E.
  intros u Hu. apply in_app_or in Hu. destruct Hu as [Hu | [<- | []]];
    [now apply H | ].
  split; [exact E | eauto].
Qed.

Lemma fold_exc_resolved :
  forall (lib : PyLib) (A : Type)
    (step : list string -> A -> exc (list string)) base_url l images out,
  (forall imgs a imgs', step imgs a = Some imgs' ->
     resolved base_url imgs -> resolved base_url imgs') ->
  fold_exc step l images = Some out ->
  resolved base_url images -> resolved base_url out.
Proof.
  intros lib A step base_url.
  induction l as [ | a l IH]; intros images out Hs F H; simpl in F.
  - now replace out with images by congruence.
  - unfold bind in F.
    destruct (step images a) as [images' | ] eqn:E; [ | discriminate].
    eapply IH; eauto.
Qed.

(** The images found by the selectors, in both branches, are resolved
    against the base and none of them is a [.gif]. *)
Lemma selector_images_resolved : forall (lib : PyLib) soup base_url found,
  selector_images soup base_url = Some found -> resolved base_url found.
Proof.
  intros lib soup base_url found H. unfold selector_images in H.
  assert (forall imgs el imgs', general_step base_url imgs el = Some imgs' ->
            resolved base_url imgs -> resolved base_url imgs') as G.
  { intros imgs el imgs' S Hi. unfold general_step in S.
    destruct (first_attr el _) as [src | ];
      [ | now replace imgs' with imgs by congruence].
    destruct (PyStr.startswith "data:" src);
      [now replace imgs' with imgs by congruence | ].
    eapply add_image_resolved; eauto. }
  assert (forall imgs el imgs', amazon_step base_url imgs el = Some imgs' ->
            resolved base_url imgs -> resolved base_url imgs') as A.
  { intros imgs el imgs' S Hi. unfold amazon_step in S.
    destruct (amazon_src el) as [src | ];
      [ | now replace imgs' with imgs by congruence].
    destruct (PyStr.nonempty src && negb (PyStr.startswith "data:" src));
      [ | now replace imgs' with imgs by congruence].
    eapply add_image_resolved; eauto. }
  destruct (PyStr.contains "amazon" base_url); unfold images_of_selectors in H.
  - eapply fold_exc_resolved; [ | exact H | intros u []].
    intros imgs sel imgs' F Hi.
    exact (fold_exc_resolved lib _ _ _ _ _ _ A F Hi).
  - eapply fold_exc_resolved; [ | exact H | intros u []].
    intros imgs sel imgs' F Hi.
    exact (fold_exc_resolved lib _ _ _ _ _ _ G F Hi).
Qed.

(** The selectors raise only when [urljoin] does. *)
Lemma fold_exc_raises :
  forall (A B : Type) (step : A -> B -> exc A) (P : Prop) l a,
  (forall a b, step a b = None -> P) -> fold_exc step l a = None -> P.
Proof.
  intros A B step P. induction l as [ | b l IH]; intros a Hs F; simpl in F.
  - discriminate.
  - unfold bind in F. destruct (step a b) as [a' | ] eqn:E; eauto.
Qed.

Lemma selector_images_raises : forall (lib : PyLib) soup base_url,
  selector_images soup base_url = None ->
  exists src, urljoin base_url src = None.
Proof.
  intros lib soup base_url H. unfold selector_images in H.
  assert (forall imgs src, add_image base_url imgs src = None ->
            exists src', urljoin base_url src' = None) as J.
  { intros imgs src E. unfold add_image, bind in E.
    destruct (urljoin base_url _) eqn:U; [discriminate | eauto]. }
  destruct (PyStr.contains "amazon" base_url); unfold images_of_selectors in H;
    (eapply fold_exc_raises; [ | exact H]);
    intros imgs sel F; (eapply fold_exc_raises; [ | exact F]);
    intros imgs' el S.
  - unfold amazon_step in S.
    destruct (amazon_src el) as [src | ]; [ | discriminate].
    destruct (PyStr.nonempty src && negb (PyStr.startswith "data:" src));
      [eauto | discriminate].
  - unfold general_step in S.
    destruct (first_attr el _) as [src | ]; [ | discriminate].
    destruct (PyStr.startswith "data:" src); [discriminate | eauto].
Qed.

(** ** The claims *)

(** C1. When the body of the response triggers the blocking test,
    [scrape_product] returns at once, whatever the parser and the library
    are: the instance is left as it was (the name is not even stored), and
    the record is the one written here in full, with blocked true, the
    sentinels for name, price, weight and dimensions.raw, empty brand and
    gtin, no images, the explanation as description, the currency CAD when
    the final URL contains amazon.ca and USD otherwise, the final URL as
    source, the message, and in debug_info the status code, the length of
    the body and the two flags. Nothing of the record comes from the parsed
    document or from an extractor, and no extractor can make the call raise:
    the result is the same for every parser and every library. *)
Theorem blocked_page_short_circuits :
  forall (lib : PyLib) (parser : HtmlParser) self delay response url,
  is_blocked response = true ->
  scrape_product self delay (Fetched response) url
  = (self,
     Returns
       [ ("name", PStr "Product name not found");
         ("brand", PStr "");
         ("gtin", PStr "");
         ("description",
          PStr "Amazon blocked automated access. Please enter details manually.");
         ("images", PList []);
         ("price", PStr "Price not found");
         ("currency",
          PStr (if PyStr.contains "amazon.ca" (response_url response)
                then "CAD" else "USD"));
         ("source", PStr (response_url response));
         ("weight", PStr "Weight not found");
         ("dimensions",
          PDict [ ("raw", PStr "Dimensions not found"); ("length", PNone);
                  ("width", PNone); ("height", PNone); ("unit", PNone) ]);
         ("blocked", PBool true);
         ("message",
          PStr "Amazon detected automated access. Please enter product details manually.");
         ("debug_info",
          PDict
            [ ("status", PInt (status_code response));
              ("response_length", PInt (Z.of_nat (PyStr.len (text response))));
              ("robot_check",
               PBool (PyStr.contains "robot check"
                        (PyStr.lower (text response))));
              ("captcha",
               PBool (PyStr.contains "captcha"
                        (PyStr.lower (text response)))) ]) ])
  /\ forall (lib' : PyLib) (parser' : HtmlParser),
       scrape_product (lib := lib') (parser := parser') self delay
         (Fetched response) url
       = scrape_product (lib := lib) (parser := parser) self delay
           (Fetched response) url.
Proof.
  intros lib parser self delay response url H.
  assert (forall (l : PyLib) (q : HtmlParser),
            scrape_product (lib := l) (parser := q) self delay
              (Fetched response) url
            = (self,
               Returns (blocked_record (response_url response)
                          (make_debug_info response)))) as E.
  { intros l q. unfold scrape_product. now rewrite H. }
  split.
  - rewrite E. reflexivity.
  - intros lib' parser'. now rewrite !E.
Qed.

Lemma blocked_page_short_circuits_witness :
  is_blocked robot_response = true
  /\ exists product_data,
       scrape_product (lib := example_lib) (parser := parser_of shop_soup)
         (init 0) 2000000 (Fetched robot_response) "https://a.co/d/1"
       = (init 0, Returns product_data)
       /\ dict_get "blocked" product_data = Some (PBool true)
       /\ dict_get "currency" product_data = Some (PStr "CAD").
Proof.
  split; [reflexivity | ]. eexists. split.
  - exact (proj1 (blocked_page_short_circuits example_lib (parser_of shop_soup)
                    (init 0) 2000000 robot_response "https://a.co/d/1"
                    eq_refl)).
  - split; reflexivity.
Defined.

(** C2. The blocking test looks for Robot Check as it is written: a body
    with the words in lower case, or in upper case, is not taken for a
    blocked page, although the flag robot_check of debug_info, which lowers
    the body first, is true for it; the page is parsed and the record says
    blocked false. *)
Theorem lowercase_robot_check_is_not_blocked :
  is_blocked lower_robot_response = false
  /\ dict_get "robot_check" (make_debug_info lower_robot_response)
     = Some (PBool true)
  /\ is_blocked upper_robot_response = false
  /\ dict_get "robot_check" (make_debug_info upper_robot_response)
     = Some (PBool true)
  /\ exists product_data,
       snd (scrape_product (lib := example_lib)
              (parser := parser_of lower_robot_soup)
              (init 0) 2000000 (Fetched lower_robot_response) "https://a.co/d/1")
       = Returns product_data
       /\ dict_get "name" product_data = Some (PStr "robot check")
       /\ dict_get "blocked" product_data = Some (PBool false).
Proof.
  repeat split. eexists. repeat split; reflexivity.
Qed.

(** C3. An image of the JSON-LD data is appended as it stands: a relative
    URL that ends in [.gif] comes out of [extract_images] unresolved and
    unfiltered, whatever [urljoin] is. *)
Theorem ld_image_kept_as_it_is : forall (lib : PyLib),
  let soup := ld_soup (PDict [("image", PStr "/img/anim.gif")]) in
  extract_images soup "https://shop.example/p/1" = Some [PStr "/img/anim.gif"]
  /\ PyStr.endswith ".gif" "/img/anim.gif" = true
  /\ is_absolute "/img/anim.gif" = false.
Proof. intros lib. repeat split. Qed.







(** C5. On a timeout [scrape_product] returns, and what it returns is the
    record of sentinels: name, price, weight and dimensions.raw not found,
    brand and gtin empty, no images, the currency USD, no key blocked, and
    the description that starts with Request timed out. *)
Theorem timeout_returns_sentinels :
  forall (lib : PyLib) (parser : HtmlParser) self delay url,
  exists product_data,
    scrape_product self delay Timeout url = (self, Returns product_data)
    /\ dict_get "name" product_data = Some (PStr "Product name not found")
    /\ dict_get "price" product_data = Some (PStr "Price not found")
    /\ dict_get "weight" product_data = Some (PStr "Weight not found")
    /\ (exists dimensions,
          dict_get "dimensions" product_data = Some (PDict dimensions)
          /\ dict_get "raw" dimensions = Some (PStr "Dimensions not found"))
    /\ dict_get "brand" product_data = Some (PStr "")
    /\ dict_get "gtin" product_data = Some (PStr "")
    /\ dict_get "images" product_data = Some (PList [])
    /\ dict_get "currency" product_data = Some (PStr "USD")
    /\ dict_has "blocked" product_data = false
    /\ (exists description,
          dict_get "description" product_data = Some (PStr description)
          /\ description
             = "Request timed out. The site may be slow or blocking automated access."
          /\ PyStr.startswith "Request timed out" description = true).
Proof.
  intros lib parser self delay url. exists (timeout_record url).
  repeat split; try reflexivity.
  - eexists. split; reflexivity.
  - eexists. repeat split; reflexivity.
Qed.

(** C6, as amended. Every record that [scrape_product] returns has the
    fields name, brand, gtin, description, images, price, currency, source,
    weight and dimensions; the field blocked is there on the success path
    and on the blocked path, and it is not there on the timeout path. *)
Theorem fields_present_but_blocked_on_timeout :
  forall (lib : PyLib) (parser : HtmlParser) self delay fetched url self'
    product_data,
  scrape_product self delay fetched url = (self', Returns product_data) ->
  (forall field, In field contract_fields -> field <> "blocked" ->
     dict_has field product_data = true)
  /\ (fetched <> Timeout -> dict_has "blocked" product_data = true)
  /\ (fetched = Timeout -> dict_has "blocked" product_data = false).
Proof.
  intros lib parser self delay fetched url self' pd H.
  assert (forall response (d : list (string * pyval)),
            (forall field, In field contract_fields -> dict_has field d = true) ->
            (forall field, In field contract_fields -> field <> "blocked" ->
               dict_has field d = true)
            /\ (Fetched response <> Timeout -> dict_has "blocked" d = true)
            /\ (Fetched response = Timeout -> dict_has "blocked" d = false))
    as All.
  { intros response d Hd. repeat split.
    - intros f Hf _. now apply Hd.
    - intros _. apply Hd. simpl. tauto.
    - discriminate. }
  unfold scrape_product in H. destruct fetched as [ | | response].
  - inversion H; subst. split; [ | split].
    + intros f Hf Hb. simpl in Hf.
      repeat (destruct Hf as [<- | Hf]; [try reflexivity; congruence | ]).
      contradiction.
    + congruence.
    + reflexivity.
  - discriminate.
  - destruct (is_blocked response).
    + inversion H; subst. apply All. intros f Hf. simpl in Hf.
      repeat (destruct Hf as [<- | Hf]; [reflexivity | ]). contradiction.
    + unfold scrape_page in H.
      destruct (extract_images _ _) as [images | ]; [ | discriminate].
      destruct (summary_raises images); [discriminate | ].
      inversion H; subst; clear H. apply All. intros f Hf.
      unfold backfill.
      destruct (backfill_guard _ _); [destruct (weight_of_text _ _) | ];
        simpl in Hf;
        repeat (destruct Hf as [<- | Hf]; [reflexivity | ]); contradiction.
Qed.

Lemma fields_present_witness :
  exists product_data,
    scrape_product (lib := example_lib) (parser := parser_of shop_soup)
      (init 0) 2000000 (Fetched shop_response) "https://shop.example/p/1"
    = (mkScraper (user_agent (init 0)) (Some "Acme Hand Soap 16 fl oz"),
       Returns product_data)
    /\ dict_has "price" product_data = true
    /\ dict_has "blocked" product_data = true.
Proof.
  eexists. split; [reflexivity | ].
  pose proof (fields_present_but_blocked_on_timeout example_lib
                (parser_of shop_soup) (init 0) 2000000 (Fetched shop_response)
                "https://shop.example/p/1" _ _ eq_refl) as (Hf & Hb & _).
  split.
  - apply Hf; [simpl; tauto | discriminate].
  - apply Hb. discriminate.
Defined.

(** C6, as stated, fails: the record of the timeout path has no field
    blocked. *)
Lemma timeout_record_lacks_blocked :
  exists product_data,
    scrape_product (lib := example_lib) (parser := parser_of shop_soup)
      (init 0) 2000000 Timeout "https://shop.example/p/1"
    = (init 0, Returns product_data)
    /\ In "blocked" contract_fields
    /\ dict_has "blocked" product_data = false.
Proof.
  eexists. split; [reflexivity | ]. split; [simpl; tauto | reflexivity].
Qed.

(** C7, as amended. For every URL that contains amazon.ca the currency is
    CAD, and for every URL that contains amazon.co.uk, and neither
    amazon.ca nor amazon.com, it is GBP, whatever the page holds: these
    tests come before the meta tag and the structured data. The domains
    walmart.ca and ebay.ca come after them: for a URL that no test of Amazon
    matches, a priceCurrency meta tag gives the currency (USD when it has no
    content), else the structured data does, and only when neither gives one
    do walmart.ca and ebay.ca give CAD. *)
Theorem currency_by_amazon_domain : forall soup url,
  (PyStr.contains "amazon.ca" url = true ->
   extract_currency soup url = PStr "CAD")
  /\ (PyStr.contains "amazon.co.uk" url = true ->
      PyStr.contains "amazon.ca" url = false ->
      PyStr.contains "amazon.com" url = false ->
      extract_currency soup url = PStr "GBP")
  /\ (existsb (fun domain => PyStr.contains domain url) amazon_domains = false ->
      (PyStr.contains "walmart.ca" url = true
       \/ PyStr.contains "ebay.ca" url = true) ->
      extract_currency soup url
      = match find_meta soup "itemprop" "priceCurrency" with
        | Some currency_meta =>
            PStr (tag_get_default currency_meta "content" "USD")
        | None =>
            match first_some currency_of_script (ld_scripts soup) with
            | Some currency => currency
            | None => PStr "CAD"
            end
        end).
Proof.
  intros soup url. unfold extract_currency. split; [ | split].
  - intros ->. reflexivity.
  - intros H1 H2 H3. rewrite H2, H3, H1. reflexivity.
  - intros H W. unfold amazon_domains in H. cbn [existsb] in H.
    repeat (apply orb_false_elim in H; destruct H as (?A & H)).
    repeat match goal with
           | E : PyStr.contains _ url = false |- _ => rewrite E; clear E
           end.
    cbn [orb].
    destruct (find_meta soup "itemprop" "priceCurrency"); [reflexivity | ].
    destruct (first_some currency_of_script (ld_scripts soup));
      [reflexivity | ].
    destruct W as [-> | ->]; [reflexivity | ].
    now destruct (PyStr.contains "walmart.ca" url).
Qed.

Lemma currency_by_amazon_domain_witness :
  extract_currency walmart_usd_soup "https://www.amazon.ca/dp/B0" = PStr "CAD"
  /\ extract_currency walmart_usd_soup "https://www.amazon.co.uk/dp/B0"
     = PStr "GBP"
  /\ extract_currency empty_soup "https://www.walmart.ca/en/ip/6000"
     = PStr "CAD".
Proof.
  split; [ | split].
  - apply (proj1 (currency_by_amazon_domain walmart_usd_soup
                    "https://www.amazon.ca/dp/B0")). reflexivity.
  - apply (proj1 (proj2 (currency_by_amazon_domain walmart_usd_soup
                           "https://www.amazon.co.uk/dp/B0"))); reflexivity.
  - apply (proj2 (proj2 (currency_by_amazon_domain empty_soup
                           "https://www.walmart.ca/en/ip/6000")));
      [reflexivity | left; reflexivity].
Defined.

(** C7, as stated, fails: the domain walmart.ca is looked up after the
    page, so a meta tag that says USD wins over it; and a URL of
    amazon.co.uk that also contains amazon.com is taken for the American
    shop. *)
Lemma currency_domain_counterexample :
  PyStr.contains "walmart.ca" "https://www.walmart.ca/en/ip/6000" = true
  /\ extract_currency walmart_usd_soup "https://www.walmart.ca/en/ip/6000"
     = PStr "USD"
  /\ PyStr.contains "amazon.co.uk"
       "https://www.amazon.co.uk/s?k=amazon.com+gift+card" = true
  /\ extract_currency empty_soup
       "https://www.amazon.co.uk/s?k=amazon.com+gift+card" = PStr "USD".
Proof. repeat split. Qed.

(** C8, as amended. When the structured data, the brand selectors, the
    detail rows and the specification regions give no brand,
    [extract_brand] returns the first word of the product name exactly
    when that word starts with an upper-case letter, is longer than 2 and
    shorter than 20 characters, is not one of the seven generic words, and
    the name is not the sentinel of a name that was not found; otherwise
    it returns the empty string. *)
Theorem brand_falls_back_to_first_word : forall soup product_name,
  brand_from_ld soup = None ->
  brand_from_selectors soup = None ->
  brand_from_details soup = None ->
  brand_from_specs soup = None ->
  extract_brand soup product_name =
  PStr (match PyStr.split product_name with
        | first_word :: _ =>
            if brand_like first_word
               && negb (String.eqb product_name "Product name not found")
            then first_word else ""
        | [] => ""
        end).
Proof.
  intros soup name H1 H2 H3 H4. unfold extract_brand.
  rewrite H1, H2, H3, H4. f_equal. unfold brand_of_name, brand_like.
  fold non_brand_words. unfold name_not_found.
  destruct name as [ | c name']; [reflexivity | ].
  cbn [PyStr.nonempty andb].
  destruct (PyStr.split (String c name')) as [ | w ws].
  - now destruct (negb _).
  - destruct (String.eqb (String c name') "Product name not found");
      cbn [negb andb]; [now rewrite andb_false_r | ].
    rewrite andb_true_r.
    destruct (2 <? PyStr.len w)%nat, (PyStr.len w <? 20)%nat,
      (match w with String c0 _ => PyStr.isupper c0 | EmptyString => false end),
      (negb (str_in w non_brand_words)); reflexivity.
Qed.

Lemma brand_falls_back_witness :
  extract_brand empty_soup "Acme Heavy-Duty Widget" = PStr "Acme"
  /\ extract_brand empty_soup "New Widget Pro" = PStr "".
Proof.
  split.
  - apply (brand_falls_back_to_first_word empty_soup "Acme Heavy-Duty Widget");
      reflexivity.
  - apply (brand_falls_back_to_first_word empty_soup "New Widget Pro");
      reflexivity.
Defined.

(** C8, as stated, fails: the first word of the sentinel name, Product,
    looks like a brand, and yet no brand is returned for it. *)
Lemma brand_of_sentinel_name_counterexample :
  hd_error (PyStr.split "Product name not found") = Some "Product"
  /\ brand_like "Product" = true
  /\ brand_from_ld empty_soup = None
  /\ brand_from_selectors empty_soup = None
  /\ brand_from_details empty_soup = None
  /\ brand_from_specs empty_soup = None
  /\ extract_brand empty_soup "Product name not found" = PStr "".
Proof. repeat split. Qed.

(** C9. The result depends on the response only: two calls whose
    responses have the same URL, text and content return the same record
    but for the status code in debug_info, or both raise, whatever the
    instances (their user agent, the name a former call left), the delays
    and the URLs asked for are; every other entry of debug_info agrees too.
    When the status codes are the same as well, the two results are
    equal. *)
Theorem scrape_is_deterministic :
  forall (lib : PyLib) (parser : HtmlParser)
    self1 self2 delay1 delay2 response1 response2 url1 url2,
  response_url response1 = response_url response2 ->
  text response1 = text response2 ->
  content response1 = content response2 ->
  drop_status (snd (scrape_product self1 delay1 (Fetched response1) url1))
  = drop_status (snd (scrape_product self2 delay2 (Fetched response2) url2))
  /\ (status_code response1 = status_code response2 ->
      snd (scrape_product self1 delay1 (Fetched response1) url1)
      = snd (scrape_product self2 delay2 (Fetched response2) url2)).
Proof.
  intros lib parser self1 self2 d1 d2 [u1 s1 t1 c1] [u2 s2 t2 c2] url1 url2
    Hu Ht Hc.
  simpl in Hu, Ht, Hc. subst u2 t2 c2.
  assert (forall url,
            snd (scrape_product self1 d1 (Fetched (mkResponse u1 s1 t1 c1)) url)
            = snd (scrape_product self2 d2 (Fetched (mkResponse u1 s1 t1 c1))
                     url2)) as E.
  { intros url. unfold scrape_product, is_blocked. cbn [text response_url].
    destruct (PyStr.contains "Robot Check" t1
              || PyStr.contains "captcha" (PyStr.lower t1)); [reflexivity | ].
    unfold scrape_page. cbn [content response_url].
    unfold extract_weight, extract_dimensions. cbn [last_product_name].
    destruct (extract_images _ _) as [images | ]; [ | reflexivity].
    destruct (summary_raises images); reflexivity. }
  split.
  - rewrite E. unfold scrape_product, is_blocked. cbn [text response_url].
    destruct (PyStr.contains "Robot Check" t1
              || PyStr.contains "captcha" (PyStr.lower t1)); reflexivity.
  - cbn [status_code]. intros <-. apply E.
Qed.

Lemma scrape_is_deterministic_witness :
  drop_status
    (snd (scrape_product (lib := example_lib) (parser := parser_of shop_soup)
            (init 0) 1000000 (Fetched shop_response) "https://shop.example/p/1"))
  = drop_status
      (snd (scrape_product (lib := example_lib) (parser := parser_of shop_soup)
              (mkScraper (nth 3 user_agents "") (Some "Another product 2 kg"))
              3000000
              (Fetched (mkResponse "https://shop.example/p/1" 203
                          shop_page shop_page))
              "https://short.example/1")).
Proof.
  apply (proj1 (scrape_is_deterministic example_lib (parser_of shop_soup)
                  (init 0)
                  (mkScraper (nth 3 user_agents "") (Some "Another product 2 kg"))
                  1000000 3000000 shop_response
                  (mkResponse "https://shop.example/p/1" 203 shop_page shop_page)
                  "https://shop.example/p/1" "https://short.example/1"
                  eq_refl eq_refl eq_refl)).
Defined.

(** C10. The backfill of the weight changes nothing: in every record of
    the success path the weight is what [extract_weight] returned, and
    whenever the guard of the backfill holds, none of its five patterns
    matches the name, since [extract_weight] has tried them all on the same
    name before it gave the sentinel. *)
Theorem weight_backfill_is_noop :
  forall (lib : PyLib) (parser : HtmlParser) self response self' product_data,
  scrape_page self response = (self', Returns product_data) ->
  let soup := BeautifulSoup (content response) in
  dict_get "weight" product_data = Some (PStr (extract_weight self' soup))
  /\ (backfill_guard (extract_weight self' soup) (extract_name soup) = true ->
      weight_of_text backfill_patterns (extract_name soup) = None).
Proof.
  intros lib parser self response self' pd H soup. unfold scrape_page in H.
  fold soup in H.
  destruct (extract_images soup (response_url response)) as [images | ];
    [ | discriminate].
  rewrite backfill_noop in H by reflexivity.
  destruct (summary_raises images); [discriminate | ].
  inversion H; subst; clear H. split; [reflexivity | ].
  intros G. unfold backfill_guard in G. apply andb_prop in G.
  destruct G as (G & _). apply String.eqb_eq in G.
  apply title_none_backfill_none.
  eapply extract_weight_not_found; [ | exact G]. reflexivity.
Qed.

Lemma weight_backfill_is_noop_witness :
  exists product_data,
    scrape_page (lib := example_lib) (parser := parser_of widget_soup)
      (init 0) widget_response
    = (mkScraper (user_agent (init 0)) (Some "Acme Heavy-Duty Widget"),
       Returns product_data)
    /\ backfill_guard "Weight not found" "Acme Heavy-Duty Widget" = true
    /\ dict_get "weight" product_data = Some (PStr "Weight not found").
Proof.
  eexists. split; [reflexivity | ]. split; [reflexivity | ].
  apply (weight_backfill_is_noop example_lib (parser_of widget_soup)
           (init 0) widget_response _ _ eq_refl).
Defined.

(** ** The scraper at work *)

Example shop_scrape :
  snd (scrape_product (lib := example_lib) (parser := parser_of shop_soup)
         (init 0) 2000000 (Fetched shop_response) "https://shop.example/p/1")
  = Returns
      [ ("name", PStr "Acme Hand Soap 16 fl oz"); ("brand", PStr "Acme");
        ("gtin", PStr ""); ("description", PStr "Description not found");
        ("images", PList [PStr "https://cdn.shop.example/soap.jpg";
                          PStr "https://shop.example/img/soap-2.jpg"]);
        ("price", PStr "1299.00"); ("currency", PStr "USD");
        ("source", PStr "https://shop.example/p/1");
        ("weight", PStr "16 fl oz");
        ("dimensions", PDict no_dimensions); ("blocked", PBool false) ].
Proof. reflexivity. Qed.

(** The price examples of the specification. *)
Example price_examples :
  price_of_text "$1,299" = Some "1299.00"
  /\ price_of_text "19.99" = Some "19.99"
  /\ price_of_text "call us" = None.
Proof. repeat split. Qed.

(** The [meta] path does not add the decimals that the other paths add. *)
Example meta_price_without_decimals :
  extract_price (lib := example_lib)
    (one_tag_soup "[itemprop='price']" (tag "meta" [("content", "1299")] []))
  = "1299".
Proof. reflexivity. Qed.

(** The weight example of the specification: the title pass of
    [extract_weight] finds the weight, the backfill has nothing to do. *)
Example weight_example :
  extract_weight (mkScraper "" (Some "Hand Soap 16 fl oz")) empty_soup
  = "16 fl oz".
Proof. reflexivity. Qed.

(** * Further properties of the extractors *)

Lemma unique_images_raises : forall (lib : PyLib) images seen,
  unique_images seen images = None <->
  exists v, In v images /\ hashable v = false.
Proof.
  intros lib. induction images as [ | img images IH]; intros seen; simpl.
  - split; [discriminate | intros (v & [] & _)].
  - destruct (hashable img) eqn:Hh.
    + destruct (existsb (py_eqb img) seen).
      * rewrite IH. split; intros (v & Hv & Hf); exists v; split; auto.
        destruct Hv as [<- | Hv]; [congruence | exact Hv].
      * destruct (unique_images (img :: seen) images) as [rest | ] eqn:E.
        -- split; [discriminate | ]. intros (v & [<- | Hv] & Hf); [congruence | ].
           assert (unique_images (img :: seen) images = None) as N
             by (apply IH; eauto).
           congruence.
        -- split; [intros _ | reflexivity].
           apply IH in E. destruct E as (v & Hv & Hf). exists v. auto.
    + split; [intros _; exists img; auto | reflexivity].
Qed.

(** The unhashable images are those of the lists of the JSON-LD data. *)
Lemma unhashable_image_of_ld : forall soup (found : list string),
  (exists v,
     In v (map PStr found ++ flat_map ld_images_of_script (ld_scripts soup))
     /\ hashable v = false)
  <-> exists d l v,
        In (Some (PDict d)) (ld_scripts soup)
        /\ dict_get "image" d = Some (PList l)
        /\ In v l /\ hashable v = false.
Proof.
  intros soup found. split.
  - intros (v & Hv & Hf). apply in_app_or in Hv. destruct Hv as [Hv | Hv].
    + apply in_map_iff in Hv. destruct Hv as (s & <- & _). discriminate.
    + apply in_flat_map in Hv. destruct Hv as (script & Hs & Hv).
      unfold ld_images_of_script in Hv.
      destruct script as [[ | | | | | | d] | ]; try contradiction.
      destruct (dict_get "image" d) as [[ | | | | s | l | ] | ] eqn:E;
        try contradiction.
      * destruct Hv as [<- | []]. discriminate.
      * exists d, l, v. auto.
  - intros (d & l & v & Hs & E & Hv & Hf). exists v. split; [ | exact Hf].
    apply in_or_app. right. apply in_flat_map.
    exists (Some (PDict d)). split; [exact Hs | ].
    unfold ld_images_of_script. now rewrite E.
Qed.

(** X6. [extract_images] raises exactly when the pass over the selectors
    raises, or a JSON-LD object of the page gives, under the key image, a
    list with an element that cannot be hashed (a list or a dict): the set
    of the images seen hashes every image. The pass over the selectors
    raises only when [urljoin] does. *)
Theorem extract_images_raises_on_unhashable : forall (lib : PyLib) soup base_url,
  (extract_images soup base_url = None <->
   selector_images soup base_url = None
   \/ exists d l v,
        In (Some (PDict d)) (ld_scripts soup)
        /\ dict_get "image" d = Some (PList l)
        /\ In v l /\ hashable v = false)
  /\ (selector_images soup base_url = None ->
      exists src, urljoin base_url src = None).
Proof.
  intros lib soup base_url. split; [ | apply selector_images_raises].
  unfold extract_images, collect_images, bind.
  destruct (selector_images soup base_url) as [found | ].
  - rewrite <- (unhashable_image_of_ld soup found).
    rewrite <- (unique_images_raises lib _ []).
    destruct (unique_images [] _) as [unique | ].
    + split; [discriminate | intros [F | F]; discriminate].
    + split; auto.
  - split; auto.
Qed.

Lemma extract_images_raises_on_unhashable_witness :
  extract_images (lib := example_lib) nested_image_soup
    "https://shop.example/p/1" = None
  /\ extract_images (lib := example_lib) bracket_soup
       "https://shop.example/p/1" = None.
Proof.
  split.
  - apply (proj2 (proj1 (extract_images_raises_on_unhashable example_lib
                           nested_image_soup "https://shop.example/p/1"))).
    right.
    exists [("image", PList [PList [PStr "/img/a.jpg"]])],
      [PList [PStr "/img/a.jpg"]], (PList [PStr "/img/a.jpg"]).
    split; [left; reflexivity | ]. split; [reflexivity | ].
    split; [left; reflexivity | reflexivity].
  - apply (proj2 (proj1 (extract_images_raises_on_unhashable example_lib
                           bracket_soup "https://shop.example/p/1"))).
    left. reflexivity.
Defined.

Lemma prefix_length : forall n s, (PyStr.len (PyStr.prefix n s) <= n)%nat.
Proof.
  unfold PyStr.len. induction n as [ | n IH]; intros s; simpl; [lia | ].
  destruct s as [ | c s]; simpl; [lia | ]. specialize (IH s). lia.
Qed.

(** X4. The description is never longer than 500 characters, whichever
    path gives it: the bullets, the text of an element, a [meta] tag, the
    sentence for an [iframe], or the sentinel. *)
Theorem extract_description_at_most_500 : forall soup,
  (PyStr.len (extract_description soup) <= 500)%nat.
Proof.
  intros soup. unfold extract_description.
  destruct (first_some (description_of_selector soup) description_selectors)
    as [d | ] eqn:E.
  - apply first_some_in in E. destruct E as (sel & _ & E).
    unfold description_of_selector in E.
    destruct (select_one soup sel) as [el | ]; [ | discriminate].
    destruct (String.eqb (tag_name el) "ul").
    + destruct (tag_li el); [discriminate | ].
      match type of E with Some ?X = Some _ => replace d with X by congruence end.
      apply prefix_length.
    + destruct (String.eqb (tag_name el) "iframe" && attr_truthy el "src").
      * match type of E with Some ?X = Some _ => replace d with X by congruence end.
        unfold PyStr.len. simpl. lia.
      * match type of E with Some ?X = Some _ => replace d with X by congruence end.
        apply prefix_length.
  - destruct (find_meta soup "name" "description"); [apply prefix_length | ].
    destruct (find_meta soup "property" "og:description");
      [apply prefix_length | ].
    unfold PyStr.len. simpl. lia.
Qed.

(** X1. [extract_name] never returns the empty string; a name found by
    one of the selectors is longer than five characters. *)
Theorem extract_name_not_empty : forall soup,
  extract_name soup <> ""
  /\ (first_some (name_of_element soup) name_selectors <> None ->
      (5 < PyStr.len (extract_name soup))%nat).
Proof.
  intros soup. unfold extract_name.
  destruct (first_some (name_of_element soup) name_selectors) as [n | ] eqn:E.
  - apply first_some_in in E. destruct E as (sel & _ & E).
    unfold name_of_element in E.
    destruct (select_one soup sel) as [el | ]; [ | discriminate].
    destruct (PyStr.nonempty (get_text_strip el)
              && (5 <? PyStr.len (get_text_strip el))%nat) eqn:G; [ | discriminate].
    inversion E; subst. apply andb_prop in G. destruct G as (G1 & G2).
    apply Nat.ltb_lt in G2. split; [ | intros _; exact G2].
    intros F. rewrite F in G1. discriminate.
  - split; [ | congruence].
    destruct (find_title soup) as [t | ]; [ | discriminate].
    match goal with
    | |- context [PyStr.nonempty ?X] => destruct X eqn:T
    end; discriminate.
Qed.

Lemma extract_name_not_empty_witness :
  (5 < PyStr.len (extract_name shop_soup))%nat.
Proof.
  apply (proj2 (extract_name_not_empty shop_soup)). discriminate.
Defined.

Lemma unique_images_subset : forall (lib : PyLib) images seen unique,
  unique_images seen images = Some unique ->
  forall v, In v unique -> In v images.
Proof.
  intros lib.
  induction images as [ | img images IH]; intros seen unique H v Hv.
  - inversion H; subst. contradiction.
  - cbn [unique_images] in H. destruct (hashable img); [ | discriminate].
    destruct (existsb (py_eqb img) seen).
    + right. eapply IH; eauto.
    + unfold bind in H.
      destruct (unique_images (img :: seen) images) as [rest | ] eqn:E;
        [ | discriminate].
      inversion H; subst. destruct Hv as [<- | Hv]; [now left | right].
      eapply IH; eauto.
Qed.

(** X5. On a page whose JSON-LD gives no image, [extract_images] raises
    exactly when the pass over the selectors raises (which only a raising
    [urljoin] brings about); when the pass returns, [extract_images] returns
    a list of strings, each found by the pass, each the result of
    [urljoin] on the base URL and none ending in .gif, without duplicates
    and with at most ten elements. *)
Theorem extract_images_without_ld : forall (lib : PyLib) soup base_url,
  flat_map ld_images_of_script (ld_scripts soup) = [] ->
  match selector_images soup base_url with
  | None => extract_images soup base_url = None
  | Some found =>
      exists urls,
        extract_images soup base_url = Some (map PStr urls)
        /\ incl urls found
        /\ resolved base_url urls
        /\ distinct (map PStr urls) = true
        /\ (length urls <= 10)%nat
  end.
Proof.
  intros lib soup base_url H.
  destruct (selector_images soup base_url) as [found | ] eqn:F;
    [ | unfold extract_images, collect_images; now rewrite F].
  pose proof (selector_images_resolved lib _ _ _ F) as R.
  destruct (extract_images soup base_url) as [images | ] eqn:E.
  - destruct (extract_images_distinct_at_most_10 _ _ _ _ E) as (D & L).
    apply extract_images_returns in E.
    destruct E as (found' & unique & F' & U & ->).
    assert (found' = found) as -> by congruence.
    pose proof (unique_images_subset lib _ _ _ U) as S.
    rewrite H, app_nil_r in S.
    assert (forall l : list pyval,
              (forall v, In v l -> In v (map PStr found)) ->
              exists urls, l = map PStr urls /\ incl urls found) as M.
    { induction l as [ | v l IH]; intros Hl.
      - exists []. split; [reflexivity | intros u []].
      - destruct IH as (urls & -> & Ru); [intros w Hw; apply Hl; now right | ].
        destruct (proj1 (in_map_iff _ _ _) (Hl v (or_introl eq_refl)))
          as (u & <- & Hu).
        exists (u :: urls). split; [reflexivity | ].
        intros u' [<- | Hu']; [exact Hu | now apply Ru]. }
    destruct (M (firstn 10 unique)) as (urls & Eu & Ru).
    { intros v Hv. apply S. eapply In_firstn; eauto. }
    exists urls. rewrite Eu in D, L |- *. rewrite length_map in L.
    split; [reflexivity | ]. split; [exact Ru | ].
    split; [intros u Hu; apply R; now apply Ru | ]. split; assumption.
  - exfalso. unfold extract_images, collect_images, bind in E.
    rewrite F in E.
    destruct (unique_images [] _) as [unique | ] eqn:U; [discriminate | ].
    apply unique_images_raises in U. destruct U as (v & Hv & Hh).
    rewrite H, app_nil_r in Hv.
    apply in_map_iff in Hv. destruct Hv as (u & <- & _). discriminate.
Qed.

Lemma extract_images_without_ld_witness :
  exists urls,
    extract_images (lib := example_lib) shop_soup "https://shop.example/p/1"
    = Some (map PStr urls)
    /\ incl urls
         ["https://cdn.shop.example/soap.jpg";
          "https://shop.example/img/soap-2.jpg"]
    /\ resolved (H := example_lib) "https://shop.example/p/1" urls
    /\ distinct (H := example_lib) (map PStr urls) = true
    /\ (length urls <= 10)%nat.
Proof.
  exact (extract_images_without_ld example_lib shop_soup
           "https://shop.example/p/1" eq_refl).
Defined.

(** X9. The weight is the sentinel or a text that starts with a decimal
    digit: every pattern of the selectors and of the title captures a
    number first. *)
Theorem extract_weight_sentinel_or_number : forall self soup,
  extract_weight self soup = "Weight not found"
  \/ exists c rest,
       extract_weight self soup = String c rest /\ PyStr.is_decimal c = true.
Proof.
  intros self soup. unfold extract_weight.
  destruct (weight_from_selectors soup) as [w | ] eqn:E.
  - right. unfold weight_from_selectors in E.
    apply first_some_in in E. destruct E as (sel & _ & E).
    apply first_some_in in E. destruct E as (el & _ & E).
    exact (weight_of_text_digit _ _ _ weight_patterns_number E).
  - destruct (last_product_name self) as [name | ]; [ | now left].
    destruct (weight_of_text title_patterns name) as [w | ] eqn:Et; [ | now left].
    right. exact (weight_of_text_digit _ _ _ title_patterns_number Et).
Qed.

Lemma dict_set_keys : forall (V : Type) k (v : V) d,
  dict_has k d = true -> map fst (dict_set k v d) = map fst d.
Proof.
  intros V k v d. unfold dict_has. induction d as [ | [k' v'] d IH]; simpl.
  - discriminate.
  - destruct (String.eqb k k') eqn:E.
    + intros _. apply String.eqb_eq in E. subst. reflexivity.
    + intros H. simpl. now rewrite IH.
Qed.

Lemma dict_has_keys : forall (V : Type) k (d : list (string * V)),
  dict_has k d = true <-> In k (map fst d).
Proof.
  intros V k d. unfold dict_has. induction d as [ | [k' v'] d IH]; simpl.
  - split; [discriminate | contradiction].
  - destruct (String.eqb k k') eqn:E.
    + apply String.eqb_eq in E. subst. split; auto.
    + rewrite IH. split; [auto | ]. intros [F | H]; [ | exact H].
      subst. rewrite String.eqb_refl in E. discriminate.
Qed.

Lemma dict_get_set_same : forall (V : Type) k (v : V) d,
  dict_get k (dict_set k v d) = Some v.
Proof.
  intros V k v d. induction d as [ | [k' v'] d IH]; simpl.
  - now rewrite String.eqb_refl.
  - destruct (String.eqb k k') eqn:E; simpl.
    + now rewrite String.eqb_refl.
    + now rewrite E.
Qed.

Lemma dict_get_set_other : forall (V : Type) k k' (v : V) d,
  String.eqb k k' = false -> dict_get k (dict_set k' v d) = dict_get k d.
Proof.
  intros V k k' v d Hk. induction d as [ | [k2 v2] d IH]; simpl.
  - now rewrite Hk.
  - destruct (String.eqb k' k2) eqn:E; simpl.
    + apply String.eqb_eq in E. subst. now rewrite Hk.
    + now rewrite IH.
Qed.

Section Dims.
Context {lib : PyLib}.

Lemma parse_dimensions_keys : forall d groups,
  map fst d = dimension_keys ->
  map fst (parse_dimensions d groups) = dimension_keys.
Proof.
  intros d groups H. unfold parse_dimensions.
  assert (forall k v (d' : list (string * pyval)),
            In k dimension_keys -> map fst d' = dimension_keys ->
            map fst (dict_set k v d') = dimension_keys) as S.
  { intros k v d' Hk Hd. rewrite dict_set_keys; [exact Hd | ].
    apply dict_has_keys. now rewrite Hd. }
  destruct (float_of (nth 0 groups None)) as [l | ]; [ | exact H].
  destruct (float_of (nth 1 groups None)) as [w | ];
    [ | apply S; [simpl; tauto | exact H]].
  assert (map fst (dict_set "width" w (dict_set "length" l d)) = dimension_keys)
    as H2 by (apply S; [simpl; tauto | apply S; [simpl; tauto | exact H]]).
  destruct ((3 <=? length groups)%nat && opt_truthy (nth 2 groups None)
            && negb (opt_in (nth 2 groups None) dim_units)).
  - destruct (float_of (nth 2 groups None)) as [h | ]; cbn [bind]; [ | exact H2].
    destruct (opt_in (last groups None) dim_units);
      apply S; try (simpl; tauto); apply S; try (simpl; tauto); exact H2.
  - destruct (opt_in (last groups None) dim_units);
      apply S; try (simpl; tauto); exact H2.
Qed.

Lemma str_in_In : forall s l, str_in s l = true -> In s l.
Proof.
  intros s l H. unfold str_in in H. apply existsb_exists in H.
  destruct H as (x & Hx & E). apply String.eqb_eq in E. now subst.
Qed.

Lemma parse_dimensions_unit : forall d groups,
  unit_ok d -> unit_ok (parse_dimensions d groups).
Proof.
  intros d groups H. unfold parse_dimensions.
  assert (forall k v (d' : list (string * pyval)),
            String.eqb "unit" k = false -> unit_ok d' ->
            unit_ok (dict_set k v d')) as S.
  { intros k v d' Hk Hd. unfold unit_ok. now rewrite dict_get_set_other. }
  assert (forall (d' : list (string * pyval)),
            unit_ok
              (if opt_in (last groups None) dim_units
               then dict_set "unit" (PStr (fmt_group (last groups None))) d'
               else dict_set "unit" (PStr "in") d')) as U.
  { intros d'. destruct (opt_in (last groups None) dim_units) eqn:E.
    - right. destruct (last groups None) as [u | ]; [ | discriminate].
      exists u. split; [now apply str_in_In | apply dict_get_set_same].
    - right. exists "in". split; [simpl; tauto | apply dict_get_set_same]. }
  destruct (float_of (nth 0 groups None)) as [l | ]; [ | exact H].
  destruct (float_of (nth 1 groups None)) as [w | ]; [ | now apply S].
  destruct ((3 <=? length groups)%nat && opt_truthy (nth 2 groups None)
            && negb (opt_in (nth 2 groups None) dim_units)).
  - destruct (float_of (nth 2 groups None)) as [h | ]; cbn [bind].
    + apply U.
    + apply S; [reflexivity | now apply S].
  - apply U.
Qed.

(** X10. The dict of [extract_dimensions] always has the five keys raw,
    length, width, height and unit, in this order, and its unit is [None]
    or one of in, cm, mm, inches and m, whatever the letter case of the
    unit on the page. *)
Theorem extract_dimensions_shape : forall self soup,
  map fst (extract_dimensions self soup) = dimension_keys
  /\ unit_ok (extract_dimensions self soup).
Proof.
  intros self soup.
  assert (map fst (dict_set "raw" (PStr "x") no_dimensions) = dimension_keys) as _
    by reflexivity.
  assert (forall r, map fst (dict_set "raw" (PStr r) no_dimensions) = dimension_keys
                    /\ unit_ok (dict_set "raw" (PStr r) no_dimensions)) as R.
  { intros r. split; [reflexivity | left; reflexivity]. }
  unfold extract_dimensions.
  match goal with
  | |- context [match ?X with Some _ => _ | None => _ end] => destruct X as [d | ] eqn:E
  end.
  - apply first_some_in in E. destruct E as (sel & _ & E).
    apply first_some_in in E. destruct E as (el & _ & E).
    apply first_some_in in E. destruct E as (pat & _ & E).
    unfold dimensions_of_text in E.
    destruct (Re.search (fst pat) (get_text el)) as [m | ]; [ | discriminate].
    match type of E with Some ?X = Some _ => replace d with X by congruence end.
    destruct (2 <=? length (groups_of m (snd pat)))%nat.
    + split; [apply parse_dimensions_keys | apply parse_dimensions_unit]; apply R.
    + apply R.
  - destruct (last_product_name self) as [name | ].
    + destruct (first_some (raw_of_name name) (skipn 4 dim_patterns)) as [d | ] eqn:Et.
      * apply first_some_in in Et. destruct Et as (pat & _ & Et).
        unfold raw_of_name in Et.
        destruct (Re.search (fst pat) name) as [m | ]; [ | discriminate].
        match type of Et with Some ?X = Some _ => replace d with X by congruence end.
        apply R.
      * split; [reflexivity | left; reflexivity].
    + split; [reflexivity | left; reflexivity].
Qed.

(** X11. When no selector gives dimensions, a match in the product name
    sets raw only: length, width, height and unit stay [None]. *)
Theorem dimensions_of_name_not_parsed : forall self soup,
  dimensions_from_selectors soup = None ->
  forall k, In k ["length"; "width"; "height"; "unit"] ->
  dict_get k (extract_dimensions self soup) = Some PNone.
Proof.
  intros self soup H k Hk. unfold dimensions_from_selectors in H.
  unfold extract_dimensions. rewrite H.
  assert (forall r, dict_get k (dict_set "raw" (PStr r) no_dimensions) = Some PNone)
    as R.
  { intros r. simpl in Hk.
    repeat (destruct Hk as [<- | Hk]; [reflexivity | ]). contradiction. }
  destruct (last_product_name self) as [name | ].
  - destruct (first_some (raw_of_name name) (skipn 4 dim_patterns)) as [d | ] eqn:Et.
    + apply first_some_in in Et. destruct Et as (pat & _ & Et).
      unfold raw_of_name in Et.
      destruct (Re.search (fst pat) name) as [m | ]; [ | discriminate].
      match type of Et with Some ?X = Some _ => replace d with X by congruence end.
      apply R.
    + simpl in Hk. repeat (destruct Hk as [<- | Hk]; [reflexivity | ]). contradiction.
  - simpl in Hk. repeat (destruct Hk as [<- | Hk]; [reflexivity | ]). contradiction.
Qed.

End Dims.

Lemma dimensions_of_name_not_parsed_witness :
  dict_get "unit"
    (extract_dimensions (lib := example_lib)
       (mkScraper "" (Some "Frame 8 x 10 in")) empty_soup)
  = Some PNone.
Proof.
  apply (dimensions_of_name_not_parsed (lib := example_lib)
           (mkScraper "" (Some "Frame 8 x 10 in")) empty_soup).
  - reflexivity.
  - simpl. tauto.
Defined.

Lemma startswith_app : forall p q s,
  PyStr.startswith (p ++ q) s = true -> PyStr.startswith p s = true.
Proof.
  induction p as [ | a p IH]; intros q s H; [reflexivity | ].
  destruct s as [ | b s]; simpl in *; [discriminate | ].
  apply andb_prop in H. destruct H as (-> & H). simpl. eauto.
Qed.

Lemma contains_app : forall p q s,
  PyStr.contains (p ++ q) s = true -> PyStr.contains p s = true.
Proof.
  intros p q. induction s as [ | b s IH]; intros H.
  - simpl in *. rewrite orb_false_r in *. eapply startswith_app; eauto.
  - cbn [PyStr.contains] in *. apply orb_prop in H. destruct H as [H | H].
    + rewrite (startswith_app _ _ _ H). reflexivity.
    + rewrite (IH H). apply orb_true_r.
Qed.

(** X7. A URL of amazon.com.au never gets AUD: it contains amazon.com,
    which is tested before, so the currency is USD (or CAD when the URL
    also contains amazon.ca), whatever the page says. *)
Theorem amazon_com_au_is_not_aud : forall soup url,
  PyStr.contains "amazon.com.au" url = true ->
  extract_currency soup url
  = PStr (if PyStr.contains "amazon.ca" url then "CAD" else "USD").
Proof.
  intros soup url H. unfold extract_currency.
  assert (PyStr.contains "amazon.com" url = true) as C
    by (apply (contains_app "amazon.com" ".au"); exact H).
  destruct (PyStr.contains "amazon.ca" url); [reflexivity | ].
  now rewrite C.
Qed.

Lemma amazon_com_au_is_not_aud_witness :
  extract_currency empty_soup "https://www.amazon.com.au/dp/B0" = PStr "USD".
Proof.
  apply (amazon_com_au_is_not_aud empty_soup "https://www.amazon.com.au/dp/B0").
  reflexivity.
Defined.

(** X8. Without a priceCurrency [meta] tag and without a currency in the
    JSON-LD, the currency is one of CAD, USD, GBP, EUR, JPY and INR. *)
Theorem currency_without_page_data : forall soup url,
  find_meta soup "itemprop" "priceCurrency" = None ->
  first_some currency_of_script (ld_scripts soup) = None ->
  exists code,
    extract_currency soup url = PStr code
    /\ In code ["CAD"; "USD"; "GBP"; "EUR"; "JPY"; "INR"].
Proof.
  intros soup url Hm Hl. unfold extract_currency. rewrite Hm, Hl.
  repeat match goal with
         | |- context [if ?b then _ else _] =>
             destruct b eqn:?; [eexists; split; [reflexivity | simpl; tauto] | ]
         end.
  destruct (PyStr.contains "amazon.com.au" url) eqn:A.
  - apply (contains_app "amazon.com" ".au") in A. congruence.
  - repeat match goal with
           | |- context [if ?b then _ else _] =>
               destruct b eqn:?; [eexists; split; [reflexivity | simpl; tauto] | ]
           end.
    eexists; split; [reflexivity | simpl; tauto].
Qed.

Lemma currency_without_page_data_witness :
  exists code,
    extract_currency empty_soup "https://www.amazon.de/dp/B0" = PStr code
    /\ In code ["CAD"; "USD"; "GBP"; "EUR"; "JPY"; "INR"].
Proof.
  apply (currency_without_page_data empty_soup "https://www.amazon.de/dp/B0");
    reflexivity.
Defined.

(** X2. When the JSON-LD gives no brand, the brand is a string shorter
    than 50 characters (the empty string when nothing is found). *)
Theorem brand_without_ld_is_short : forall soup product_name,
  brand_from_ld soup = None ->
  exists b,
    extract_brand soup product_name = PStr b /\ (PyStr.len b < 50)%nat.
Proof.
  intros soup name H. unfold extract_brand. rewrite H.
  destruct (brand_from_selectors soup) as [b | ] eqn:E1.
  { exists b. split; [reflexivity | ]. unfold brand_from_selectors in E1.
    apply first_some_in in E1. destruct E1 as (sel & _ & E).
    unfold brand_of_selector in E.
    destruct (select_one soup sel) as [el | ]; [ | discriminate].
    match type of E with
    | (if ?c then _ else _) = _ => destruct c eqn:G; [ | discriminate]
    end.
    inversion E; subst. apply andb_prop in G. destruct G as (G & _).
    apply andb_prop in G. destruct G as (_ & G). now apply Nat.ltb_lt in G. }
  destruct (brand_from_details soup) as [b | ] eqn:E2.
  { exists b. split; [reflexivity | ]. unfold brand_from_details in E2.
    apply first_some_in in E2. destruct E2 as (row & _ & E).
    unfold brand_of_row in E.
    destruct (PyStr.contains "brand" (PyStr.lower (get_text row)));
      [ | discriminate].
    destruct (PyStr.split_on ":" (get_text row)) as [ | p0 [ | p1 ps]];
      try discriminate.
    match type of E with
    | (if ?c then _ else _) = _ => destruct c eqn:G; [ | discriminate]
    end.
    inversion E; subst. apply andb_prop in G. destruct G as (_ & G).
    now apply Nat.ltb_lt in G. }
  destruct (brand_from_specs soup) as [b | ] eqn:E3.
  { exists b. split; [reflexivity | ]. unfold brand_from_specs in E3.
    apply first_some_in in E3. destruct E3 as (sel & _ & E).
    apply first_some_in in E. destruct E as (spec & _ & E).
    unfold brand_of_spec in E.
    destruct (Re.search re_brand_spec (get_text spec)) as [m | ]; [ | discriminate].
    destruct (Re.group m 1) as [g | ]; [ | discriminate].
    match type of E with
    | (if ?c then _ else _) = _ => destruct c eqn:G; [ | discriminate]
    end.
    inversion E; subst. apply andb_prop in G. destruct G as (_ & G).
    now apply Nat.ltb_lt in G. }
  exists (brand_of_name name). split; [reflexivity | ].
  unfold brand_of_name.
  assert (PyStr.len "" < 50)%nat as Z by (unfold PyStr.len; simpl; lia).
  destruct (PyStr.nonempty name && negb (String.eqb name name_not_found));
    [ | exact Z].
  destruct (PyStr.split name) as [ | w ws]; [exact Z | ].
  destruct ((2 <? PyStr.len w)%nat && (PyStr.len w <? 20)%nat
            && match w with String c _ => PyStr.isupper c | EmptyString => false end)
    eqn:G; [ | exact Z].
  destruct (negb (str_in w non_brand_words)); [ | exact Z].
  apply andb_prop in G. destruct G as (G & _). apply andb_prop in G.
  destruct G as (_ & G). apply Nat.ltb_lt in G. lia.
Qed.

Lemma brand_without_ld_is_short_witness :
  exists b,
    extract_brand widget_soup "Acme Heavy-Duty Widget" = PStr b
    /\ (PyStr.len b < 50)%nat.
Proof.
  apply (brand_without_ld_is_short widget_soup "Acme Heavy-Duty Widget").
  reflexivity.
Defined.

Lemma group1_is_group : forall (Q : list ascii -> Prop) r,
  (forall w, Re.Lang r w -> Q w) -> group1_is Q (Re.Group 1 r).
Proof.
  intros Q r H st st1 S. destruct (Sem_group _ _ _ _ S) as (w & L & E).
  exists w. auto.
Qed.

Lemma group1_is_cat_l : forall Q r1 r2,
  group1_is Q r1 -> existsb (Nat.eqb 1) (Re.group_ids r2) = false ->
  group1_is Q (Re.Cat r1 r2).
Proof.
  intros Q r1 r2 H1 H2 st st2 H.
  apply Sem_cat_inv in H. destruct H as (st1 & Ha & Hb).
  destruct (H1 _ _ Ha) as (w & E & D).
  exists w. split; [ | exact D].
  rewrite (Sem_other_groups _ _ _ 1%nat Hb (not_in_ids _ _ H2)). exact E.
Qed.

Lemma group1_is_cat_r : forall Q r1 r2,
  group1_is Q r2 -> group1_is Q (Re.Cat r1 r2).
Proof.
  intros Q r1 r2 H2 st st2 H.
  apply Sem_cat_inv in H. destruct H as (st1 & Ha & Hb). eauto.
Qed.

Lemma Lang_chr_inv : forall p w,
  Re.Lang (Re.Chr p) w -> exists c, w = [c] /\ p c = true.
Proof. intros p w H. inversion H; subst. eauto. Qed.

Lemma Lang_cat_inv : forall r1 r2 w,
  Re.Lang (Re.Cat r1 r2) w ->
  exists w1 w2, w = (w1 ++ w2)%list /\ Re.Lang r1 w1 /\ Re.Lang r2 w2.
Proof. intros r1 r2 w H. inversion H; subst. eauto. Qed.

Lemma Lang_rep_chr : forall p n w,
  Re.Lang (Re.rep n (Re.Chr p)) w -> length w = n /\ forallb p w = true.
Proof.
  intros p n. induction n as [ | n IH]; intros w H.
  - inversion H; subst. auto.
  - destruct n as [ | n].
    + apply Lang_chr_inv in H. destruct H as (c & -> & Hc). simpl. now rewrite Hc.
    + change (Re.rep (S (S n)) (Re.Chr p))
        with (Re.Cat (Re.Chr p) (Re.rep (S n) (Re.Chr p))) in H.
      apply Lang_cat_inv in H. destruct H as (w1 & w2 & -> & H1 & H2).
      apply Lang_chr_inv in H1. destruct H1 as (c & -> & Hc).
      destruct (IH _ H2) as (L & F). simpl. rewrite Hc, F, L. auto.
Qed.

Lemma Lang_upto_chr : forall p n w,
  Re.Lang (Re.upto n (Re.Chr p)) w -> (length w <= n)%nat /\ forallb p w = true.
Proof.
  intros p n. induction n as [ | n IH]; intros w H.
  - inversion H; subst. auto.
  - simpl in H. unfold Re.opt in H.
    inversion H as [ | | | r1 r2 w0 Ha | r1 r2 w0 Hb | | | | | | ]; subst.
    + apply Lang_cat_inv in Ha. destruct Ha as (w1 & w2 & -> & H1 & H2).
      apply Lang_chr_inv in H1. destruct H1 as (c & -> & Hc).
      destruct (IH _ H2) as (L & F). simpl. rewrite Hc, F. split; [lia | auto].
    + inversion Hb; subst. simpl. split; [lia | auto].
Qed.

Lemma Lang_range_chr : forall p lo hi w,
  (lo <= hi)%nat ->
  Re.Lang (Re.range lo hi (Re.Chr p)) w ->
  (lo <= length w <= hi)%nat /\ forallb p w = true.
Proof.
  intros p lo hi w Hle H. unfold Re.range in H. destruct lo as [ | lo].
  - apply Lang_upto_chr in H. destruct H. split; [lia | auto].
  - apply Lang_cat_inv in H. destruct H as (w1 & w2 & -> & H1 & H2).
    apply Lang_rep_chr in H1. apply Lang_upto_chr in H2.
    destruct H1 as (L1 & F1). destruct H2 as (L2 & F2).
    rewrite length_app, forallb_app, F1, F2. split; [lia | auto].
Qed.

Lemma forallb_weaken : forall (p q : ascii -> bool) l,
  (forall c, p c = true -> q c = true) ->
  forallb p l = true -> forallb q l = true.
Proof.
  intros p q l H. induction l as [ | c l IH]; simpl; [auto | ].
  intros F. apply andb_prop in F. destruct F as (Fc & Fl).
  now rewrite (H _ Fc), IH.
Qed.

Lemma decimal_is_word : forall c, PyStr.is_decimal c = true -> PyStr.is_word c = true.
Proof.
  intros c H. unfold PyStr.is_word. unfold PyStr.is_decimal in H. now rewrite H.
Qed.

Lemma alnum_is_word : forall c,
  PyStr.in_range 65 90 c || PyStr.in_range 97 122 c || PyStr.in_range 48 57 c = true ->
  PyStr.is_word c = true.
Proof.
  intros c H. unfold PyStr.is_word.
  destruct (PyStr.in_range 48 57 c), (PyStr.in_range 65 90 c),
    (PyStr.in_range 97 122 c); simpl in *; auto; discriminate.
Qed.

Lemma gtin_rep_digit : forall n w,
  (8 <= n <= 14)%nat -> Re.Lang (Re.rep n Re.digit) w -> gtin_like w.
Proof.
  intros n w Hn H. apply Lang_rep_chr in H. destruct H as (L & F). split; [lia | ].
  eapply forallb_weaken; [apply decimal_is_word | exact F].
Qed.

Lemma gtin_range_digit : forall lo hi w,
  (8 <= lo <= hi)%nat -> (hi <= 14)%nat ->
  Re.Lang (Re.range lo hi Re.digit) w -> gtin_like w.
Proof.
  intros lo hi w Hlo Hhi H. apply Lang_range_chr in H; [ | lia].
  destruct H as (L & F). split; [lia | ].
  eapply forallb_weaken; [apply decimal_is_word | exact F].
Qed.

Lemma gtin_rep_alnum : forall w,
  Re.Lang (Re.rep 10 alnum_i) w -> gtin_like w.
Proof.
  intros w H. apply Lang_rep_chr in H. destruct H as (L & F). split; [lia | ].
  eapply forallb_weaken; [ | exact F]. apply alnum_is_word.
Qed.

Lemma gtin_patterns_group1 : Forall (group1_is gtin_like) gtin_patterns.
Proof.
  unfold gtin_patterns. cbn [Re.seq].
  repeat constructor;
    repeat first
      [ apply group1_is_cat_l; [ | vm_compute; reflexivity ]
      | apply group1_is_cat_r ];
    apply group1_is_group; intros w H.
  - now apply (gtin_rep_digit 12); [lia | ].
  - now apply (gtin_rep_digit 13); [lia | ].
  - now apply (gtin_range_digit 8 14); [lia | lia | ].
  - now apply (gtin_rep_digit 13); [lia | ].
  - now apply (gtin_rep_digit 10); [lia | ].
  - now apply gtin_rep_alnum.
  - now apply (gtin_range_digit 12 13); [lia | lia | ].
Qed.

Lemma len_of_list : forall l,
  PyStr.len (string_of_list_ascii l) = length l.
Proof.
  unfold PyStr.len. induction l as [ | c l IH]; simpl; [reflexivity | now rewrite IH].
Qed.

Lemma all_chars_of_list : forall p l,
  PyStr.all_chars p (string_of_list_ascii l) = forallb p l.
Proof.
  intros p. induction l as [ | c l IH]; simpl; [reflexivity | now rewrite IH].
Qed.

Lemma gtin_of_element_text : forall element g,
  gtin_of_element element = Some g -> gtin_text g.
Proof.
  intros el g H. unfold gtin_of_element in H.
  apply first_some_in in H. destruct H as (p & Hin & H).
  pose proof gtin_patterns_group1 as F. rewrite Forall_forall in F.
  specialize (F p Hin). unfold group1_of in H.
  destruct (Re.search p (get_text_strip el)) as [m | ] eqn:E; [ | discriminate].
  apply search_sound in E. destruct E as (st & st1 & S & _ & ->).
  destruct (F _ _ S) as (w & Ecap & (L & W)).
  unfold Re.group, Re.mk_result in H. cbn [Re.caps] in H. rewrite Ecap in H.
  simpl in H. inversion H; subst.
  split; [now rewrite len_of_list | now rewrite all_chars_of_list].
Qed.

(** Deleting the matches of a one-character class keeps the other
    characters. *)
Lemma sub_from_chr : forall p fuel prev s,
  (length s < fuel)%nat ->
  Re.sub_from fuel (Re.Chr p) prev s = filter (fun c => negb (p c)) s.
Proof.
  intros p fuel. induction fuel as [ | fuel IH]; intros prev s H; [lia | ].
  destruct s as [ | c s]; [reflexivity | ].
  simpl in H. cbn [Re.sub_from]. unfold Re.match_here.
  cbn [Re.rmatch Re.m_rest]. cbn [filter].
  destruct (p c); cbn [negb].
  - unfold Re.advance. cbn [Re.m_rest Re.m_prev length].
    replace (Nat.ltb (length s) (S (length s))) with true
      by (symmetry; apply Nat.ltb_lt; lia).
    apply IH. lia.
  - f_equal. apply IH. lia.
Qed.

Lemma gtin_of_bullet_text : forall bullet g,
  gtin_of_bullet bullet = Some g -> gtin_text g.
Proof.
  intros bullet g H. unfold gtin_of_bullet in H.
  destruct (existsb _ _); [ | discriminate].
  destruct (PyStr.split_on ":" (get_text bullet)) as [ | p0 [ | p1 ps]];
    try discriminate.
  match type of H with
  | (if ?c then _ else _) = _ => destruct c eqn:G; [ | discriminate]
  end.
  inversion H; subst; clear H. apply andb_prop in G. destruct G as (_ & G).
  split.
  - apply existsb_exists in G. destruct G as (n & Hn & E).
    apply Nat.eqb_eq in E. rewrite E. simpl in Hn.
    destruct Hn as [<- | [<- | [<- | []]]]; lia.
  - unfold Re.sub_empty, re_non_word.
    rewrite sub_from_chr by lia. rewrite all_chars_of_list.
    apply forallb_forall. intros c Hc. apply filter_In in Hc.
    destruct Hc as (_ & Hc). rewrite negb_involutive in Hc.
    apply orb_prop in Hc. destruct Hc as [Hc | Hc]; [exact Hc | ].
    now apply decimal_is_word.
Qed.

(** X3. When the JSON-LD gives no GTIN, the GTIN is the empty string or a
    text of 8 to 14 characters, each a letter, a digit or an underscore. *)
Theorem gtin_without_ld_shape : forall (lib : PyLib) soup,
  first_some gtin_of_script (ld_scripts soup) = None ->
  extract_gtin soup = "" \/ gtin_text (extract_gtin soup).
Proof.
  intros lib soup H. unfold extract_gtin. rewrite H.
  match goal with
  | |- context [match ?X with Some _ => _ | None => _ end] =>
      destruct X as [g | ] eqn:E
  end.
  - right. apply first_some_in in E. destruct E as (sel & _ & E).
    apply first_some_in in E. destruct E as (el & _ & E).
    exact (gtin_of_element_text _ _ E).
  - match goal with
    | |- context [match ?X with Some _ => _ | None => _ end] =>
        destruct X as [g | ] eqn:E2
    end; [ | now left].
    right. apply first_some_in in E2. destruct E2 as (b & _ & E2).
    exact (gtin_of_bullet_text _ _ E2).
Qed.

Lemma gtin_without_ld_shape_witness :
  extract_gtin (lib := example_lib) upc_soup = "036000291452"
  /\ gtin_text (extract_gtin (lib := example_lib) upc_soup).
Proof.
  split; [reflexivity | ].
  destruct (gtin_without_ld_shape example_lib upc_soup eq_refl) as [E | G].
  - discriminate E.
  - exact G.
Defined.

(** * The records of [scrape_product] *)

Lemma startswith_lower : forall p s,
  PyStr.startswith p s = true ->
  PyStr.startswith (PyStr.lower p) (PyStr.lower s) = true.
Proof.
  induction p as [ | a p IH]; intros s H; [reflexivity | ].
  destruct s as [ | b s]; simpl in *; [discriminate | ].
  apply andb_prop in H. destruct H as (E & H). apply Ascii.eqb_eq in E. subst.
  now rewrite Ascii.eqb_refl, IH.
Qed.

Lemma contains_lower : forall p s,
  PyStr.contains p s = true ->
  PyStr.contains (PyStr.lower p) (PyStr.lower s) = true.
Proof.
  intros p. induction s as [ | b s IH]; intros H.
  - simpl in *. rewrite orb_false_r in *. now apply (startswith_lower p "").
  - cbn [PyStr.contains] in H. apply orb_prop in H. cbn [PyStr.lower PyStr.contains].
    destruct H as [H | H].
    + pose proof (startswith_lower _ _ H) as H'. cbn [PyStr.lower] in H'.
      rewrite H'. reflexivity.
    + rewrite (IH H). apply orb_true_r.
Qed.

(** X12. A response that [scrape_product] takes as blocked has one of
    the two flags of debug_info set, and a response with the captcha flag
    is taken as blocked. (The converse fails for the flag robot_check, which
    ignores the letter case.) *)
Theorem blocked_page_sets_a_flag : forall response,
  (is_blocked response = true ->
   dict_get "robot_check" (make_debug_info response) = Some (PBool true)
   \/ dict_get "captcha" (make_debug_info response) = Some (PBool true))
  /\ (dict_get "captcha" (make_debug_info response) = Some (PBool true) ->
      is_blocked response = true).
Proof.
  intros response. unfold is_blocked, make_debug_info.
  change (dict_get "robot_check" _)
    with (Some (PBool (PyStr.contains "robot check" (PyStr.lower (text response))))).
  change (dict_get "captcha" _)
    with (Some (PBool (PyStr.contains "captcha" (PyStr.lower (text response))))).
  split.
  - intros H. apply orb_prop in H. destruct H as [H | H].
    + left. apply contains_lower in H.
      change (PyStr.lower "Robot Check") with "robot check" in H.
      now rewrite H.
    + right. now rewrite H.
  - intros H.
    destruct (PyStr.contains "captcha" (PyStr.lower (text response)));
      [apply orb_true_r | discriminate H].
Qed.

Lemma blocked_page_sets_a_flag_witness :
  dict_get "robot_check" (make_debug_info robot_response) = Some (PBool true)
  \/ dict_get "captcha" (make_debug_info robot_response) = Some (PBool true).
Proof.
  apply (proj1 (blocked_page_sets_a_flag robot_response)). reflexivity.
Defined.

Section Record.
Context {lib : PyLib} {parser : HtmlParser}.

(** The success path, once the images are there and the summary is
    printed. *)
Lemma scrape_page_returns : forall self response self' product_data,
  scrape_page self response = (self', Returns product_data) ->
  let soup := BeautifulSoup (content response) in
  let name := extract_name soup in
  exists images,
    extract_images soup (response_url response) = Some images
    /\ summary_raises images = false
    /\ self' = mkScraper (user_agent self) (Some name)
    /\ product_data =
       [ ("name", PStr name); ("brand", extract_brand soup name);
         ("gtin", PStr (extract_gtin soup));
         ("description", PStr (extract_description soup));
         ("images", PList images); ("price", PStr (extract_price soup));
         ("currency", extract_currency soup (response_url response));
         ("source", PStr (response_url response));
         ("weight", PStr (extract_weight self' soup));
         ("dimensions", PDict (extract_dimensions self' soup));
         ("blocked", PBool false) ].
Proof.
  intros self response self' pd H soup name. unfold scrape_page in H.
  fold soup in H. fold name in H.
  destruct (extract_images soup (response_url response)) as [images | ];
    [ | discriminate].
  rewrite backfill_noop in H by reflexivity.
  destruct (summary_raises images) eqn:S; [discriminate | ].
  inversion H; subst. exists images. auto.
Qed.

(** X13. The keys of a returned record, in order: the ten fields and
    error on a timeout; the eleven fields of the contract, then message and
    debug_info, on a blocked page; the eleven fields of the contract
    otherwise. *)
Theorem record_keys_by_path : forall self delay fetched url self' product_data,
  scrape_product self delay fetched url = (self', Returns product_data) ->
  map fst product_data =
  match fetched with
  | Timeout => timeout_fields
  | FetchError => []
  | Fetched response =>
      if is_blocked response
      then (contract_fields ++ ["message"; "debug_info"])%list
      else contract_fields
  end.
Proof.
  intros self delay fetched url self' pd H. unfold scrape_product in H.
  destruct fetched as [ | | response].
  - inversion H; subst. reflexivity.
  - discriminate.
  - destruct (is_blocked response).
    + inversion H; subst. reflexivity.
    + apply scrape_page_returns in H.
      destruct H as (images & _ & _ & _ & ->). reflexivity.
Qed.

(** X14. The field source is the requested URL on a timeout and the
    final URL of the response otherwise; the field blocked is the result of
    the blocking test; the instance is left as it was on a timeout and on a
    blocked page, and holds the extracted name afterwards otherwise. *)
Theorem record_source_and_blocked :
  forall self delay fetched url self' product_data,
  scrape_product self delay fetched url = (self', Returns product_data) ->
  match fetched with
  | Timeout =>
      dict_get "source" product_data = Some (PStr url) /\ self' = self
  | FetchError => False
  | Fetched response =>
      dict_get "source" product_data = Some (PStr (response_url response))
      /\ dict_get "blocked" product_data = Some (PBool (is_blocked response))
      /\ (is_blocked response = true -> self' = self)
      /\ (is_blocked response = false ->
          last_product_name self'
          = Some (extract_name (BeautifulSoup (content response))))
  end.
Proof.
  intros self delay fetched url self' pd H. unfold scrape_product in H.
  destruct fetched as [ | | response].
  - inversion H; subst. split; reflexivity.
  - discriminate.
  - destruct (is_blocked response).
    + inversion H; subst. repeat split; auto; discriminate.
    + apply scrape_page_returns in H.
      destruct H as (images & _ & _ & -> & ->).
      repeat split; auto; discriminate.
Qed.

(** X15. In every returned record the field images is a list without
    duplicates, of at most ten elements, whose first element, if any, is a
    string. *)
Theorem record_images_are_clean :
  forall self delay fetched url self' product_data,
  scrape_product self delay fetched url = (self', Returns product_data) ->
  exists images,
    dict_get "images" product_data = Some (PList images)
    /\ distinct images = true
    /\ (length images <= 10)%nat
    /\ (forall v, hd_error images = Some v -> exists s, v = PStr s).
Proof.
  intros self delay fetched url self' pd H. unfold scrape_product in H.
  assert (exists images : list pyval,
            Some (PList []) = Some (PList images)
            /\ distinct images = true /\ (length images <= 10)%nat
            /\ (forall v, hd_error images = Some v -> exists s, v = PStr s)) as E.
  { exists []. repeat split; auto. simpl; lia. discriminate. }
  destruct fetched as [ | | response].
  - inversion H; subst. exact E.
  - discriminate.
  - destruct (is_blocked response).
    + inversion H; subst. exact E.
    + apply scrape_page_returns in H.
      destruct H as (images & Hi & Hs & _ & ->).
      exists images. split; [reflexivity | ].
      destruct (extract_images_distinct_at_most_10 _ _ _ _ Hi) as (D & L).
      repeat split; auto.
      intros v Hv. destruct images as [ | [ | | | | s | | ] rest];
        try discriminate; inversion Hv; subst; eauto.
Qed.

(** X16. [scrape_product] raises whenever the request fails other than
    by a timeout, and whenever the page is not blocked and [extract_images]
    raises or returns a list whose first element is not a string (the
    summary slices it). *)
Theorem scrape_product_raises : forall self delay fetched url,
  fetched = FetchError
  \/ (exists response,
        fetched = Fetched response /\ is_blocked response = false
        /\ let soup := BeautifulSoup (content response) in
           (extract_images soup (response_url response) = None
            \/ exists v rest,
                 extract_images soup (response_url response) = Some (v :: rest)
                 /\ forall s, v <> PStr s)) ->
  snd (scrape_product self delay fetched url) = Raises.
Proof.
  intros self delay fetched url [-> | (response & -> & B & H)];
    [reflexivity | ].
  unfold scrape_product. rewrite B. unfold scrape_page.
  destruct H as [-> | (v & rest & -> & Hv)]; [reflexivity | ].
  destruct v; try reflexivity. exfalso. eapply Hv. reflexivity.
Qed.

End Record.

Lemma scrape_product_raises_witness :
  snd (scrape_product (lib := example_lib)
         (parser := parser_of nested_image_soup) (init 0) 2000000
         (Fetched widget_response) "https://shop.example/p/2")
  = Raises.
Proof.
  apply (scrape_product_raises (lib := example_lib)
           (parser := parser_of nested_image_soup) (init 0) 2000000
           (Fetched widget_response) "https://shop.example/p/2").
  right. exists widget_response.
  split; [reflexivity | ]. split; [reflexivity | ]. left. reflexivity.
Defined.

Lemma record_images_are_clean_witness :
  exists images,
    dict_get "images" shop_record = Some (PList images)
    /\ distinct (H := example_lib) images = true
    /\ (length images <= 10)%nat
    /\ (forall v, hd_error images = Some v -> exists s, v = PStr s).
Proof.
  apply (record_images_are_clean (lib := example_lib)
           (parser := parser_of shop_soup) (init 0) 2000000
           (Fetched shop_response) "https://shop.example/p/1"
           (mkScraper (user_agent (init 0)) (Some "Acme Hand Soap 16 fl oz"))).
  reflexivity.
Defined.

Lemma record_source_and_blocked_witness :
  dict_get "source" (timeout_record "https://shop.example/p/1")
  = Some (PStr "https://shop.example/p/1")
  /\ init 0 = init 0.
Proof.
  apply (record_source_and_blocked (lib := example_lib)
           (parser := parser_of empty_soup) (init 0) 2000000 Timeout
           "https://shop.example/p/1" (init 0)).
  reflexivity.
Defined.

Lemma record_keys_by_path_witness :
  map fst (blocked_record (response_url robot_response)
             (make_debug_info robot_response))
  = (contract_fields ++ ["message"; "debug_info"])%list.
Proof.
  apply (record_keys_by_path (lib := example_lib)
           (parser := parser_of empty_soup) (init 0) 2000000
           (Fetched robot_response) "https://www.amazon.ca/dp/B0" (init 0)).
  reflexivity.
Defined.

(** * The routes *)

(** X17. An answer of the route [scrape] with status 200 is the record
    of a timeout, with the key error and without the key blocked, or the
    record of a response, without the key error and with the result of the
    blocking test under blocked. *)
Theorem scrape_answer_200 :
  forall (lib : PyLib) (parser : HtmlParser) get_json choice delay fetched body,
  scrape get_json choice delay fetched = Json 200 body ->
  (fetched = Timeout
   /\ dict_has "error" body = true /\ dict_has "blocked" body = false)
  \/ (exists response,
        fetched = Fetched response
        /\ dict_has "error" body = false
        /\ dict_get "blocked" body = Some (PBool (is_blocked response))).
Proof.
  intros lib parser get_json choice delay fetched body H. unfold scrape in H.
  destruct get_json as [[ | | | | | | data] | ]; try discriminate.
  destruct (dict_get "url" data) as [url | ]; [ | discriminate].
  destruct (negb (py_truthy url)); [discriminate | ].
  destruct url as [ | | | | url | | ]; try discriminate.
  destruct (scrape_product (init choice) delay fetched url) as [self' r] eqn:E.
  cbn [snd] in H. destruct r as [pd | ]; [ | discriminate].
  inversion H; subst; clear H. unfold scrape_product in E.
  destruct fetched as [ | | response].
  - left. inversion E; subst. repeat split; reflexivity.
  - discriminate.
  - right. exists response. split; [reflexivity | ].
    destruct (is_blocked response).
    + inversion E; subst. split; reflexivity.
    + apply scrape_page_returns in E.
      destruct E as (images & _ & _ & _ & ->). split; reflexivity.
Qed.

Lemma scrape_answer_200_witness :
  (Timeout = Timeout
   /\ dict_has "error" (timeout_record "https://shop.example/p/1") = true
   /\ dict_has "blocked" (timeout_record "https://shop.example/p/1") = false)
  \/ (exists response,
        Timeout = Fetched response
        /\ dict_has "error" (timeout_record "https://shop.example/p/1") = false
        /\ dict_get "blocked" (timeout_record "https://shop.example/p/1")
           = Some (PBool (is_blocked response))).
Proof.
  apply (scrape_answer_200 example_lib (parser_of empty_soup)
           (Some (PDict [("url", PStr "https://shop.example/p/1")]))
           0%nat 2000000%Z Timeout).
  reflexivity.
Defined.

(** X18. The route [scrape] answers with status 400 exactly when the
    body of the request is a JSON object whose url is missing or falsy. *)
Theorem scrape_answer_400 :
  forall (lib : PyLib) (parser : HtmlParser) get_json choice delay fetched,
  answer_status (scrape get_json choice delay fetched) = 400%Z <->
  exists data,
    get_json = Some (PDict data)
    /\ match dict_get "url" data with
       | Some url => py_truthy url = false
       | None => True
       end.
Proof.
  intros lib parser get_json choice delay fetched. unfold scrape. split.
  - intros H. destruct get_json as [[ | | | | | | data] | ]; try discriminate.
    exists data. split; [reflexivity | ].
    destruct (dict_get "url" data) as [url | ]; [ | exact I].
    destruct (py_truthy url) eqn:T; [ | reflexivity]. exfalso.
    cbn [negb] in H. destruct url; try discriminate.
    destruct (snd _); discriminate.
  - intros (data & -> & H).
    destruct (dict_get "url" data) as [url | ]; [ | reflexivity].
    now rewrite H.
Qed.

Lemma scrape_answer_400_witness :
  answer_status
    (scrape (lib := example_lib) (parser := parser_of empty_soup)
       (Some (PDict [("url", PStr "")])) 0 2000000
       (Fetched shop_response))
  = 400%Z.
Proof.
  apply (proj2 (scrape_answer_400 example_lib (parser_of empty_soup)
                  (Some (PDict [("url", PStr "")])) 0%nat 2000000%Z
                  (Fetched shop_response))).
  exists [("url", PStr "")]. split; reflexivity.
Defined.

Lemma inspection_photo_is_potential : forall f,
  is_inspection_photo f = true -> is_potential f = true.
Proof.
  intros f H. unfold is_inspection_photo in H. apply andb_prop in H.
  destruct H as (H & _). unfold is_potential, attachment_words.
  cbn [existsb]. rewrite H. repeat rewrite orb_true_r. reflexivity.
Qed.

Lemma find_filter : forall (A : Type) (p q : A -> bool) l,
  (forall a, p a = true -> q a = true) ->
  find p (filter q l) = find p l.
Proof.
  intros A p q l H. induction l as [ | a l IH]; simpl; [reflexivity | ].
  destruct (q a) eqn:Q; simpl.
  - destruct (p a); [reflexivity | exact IH].
  - destruct (p a) eqn:P; [ | exact IH].
    rewrite (H _ P) in Q. discriminate.
Qed.

Lemma hd_filter_find : forall (A : Type) (q : A -> bool) l,
  hd_error (filter q l) = find q l.
Proof.
  intros A q l. induction l as [ | a l IH]; simpl; [reflexivity | ].
  destruct (q a); [reflexivity | exact IH].
Qed.

Lemma inspection_photo_not_empty : forall f,
  is_inspection_photo f = true -> PyStr.nonempty f = true.
Proof. intros f H. destruct f; [discriminate H | reflexivity]. Qed.

Lemma attachment_results_recommendation : forall fields,
  let results := attachment_results fields in
  dict_get "recommendation" results
  = Some match find is_inspection_photo fields with
         | Some field => PStr field
         | None =>
             match find is_potential fields with
             | Some field => PStr field
             | None => PNone
             end
         end
  /\ map fst results
     = ["all_fields"; "potential_attachment_fields"; "recommendation"; "message"].
Proof.
  intros fields results. unfold results, attachment_results.
  rewrite (find_filter _ _ _ _ inspection_photo_is_potential).
  rewrite <- (hd_filter_find _ is_potential fields).
  destruct (find is_inspection_photo fields) as [field | ] eqn:F.
  - apply find_some in F. destruct F as (_ & F).
    apply inspection_photo_not_empty in F.
    cbn [dict_set dict_get String.eqb Ascii.eqb Bool.eqb]. simpl dict_set.
    simpl dict_get. cbn [py_truthy]. rewrite F. cbn [negb].
    destruct (filter is_potential fields); split; reflexivity.
  - simpl dict_get. cbn [py_truthy negb].
    destruct (filter is_potential fields); split; reflexivity.
Qed.

Lemma first_truthy_default : forall candidates default,
  py_truthy default = true ->
  py_truthy (first_truthy candidates default) = true.
Proof.
  intros candidates default H.
  induction candidates as [ | [v | ] rest IH]; simpl; auto.
  destruct (py_truthy v) eqn:T; auto.
Qed.

Lemma first_truthy_or : forall candidates default,
  first_truthy candidates default = default
  \/ py_truthy (first_truthy candidates default) = true.
Proof.
  intros candidates default.
  induction candidates as [ | [v | ] rest IH]; simpl; auto.
  destruct (py_truthy v) eqn:T; auto.
Qed.

Lemma auction_of_record_shape : forall (lib : PyLib) record auction,
  auction_of_record record = Some auction -> auction_of record auction.
Proof.
  intros lib record auction H. unfold auction_of_record, bind in H.
  destruct record as [ | | | | | | r]; try discriminate.
  destruct (dict_get "fields" r) as [fields | ].
  - destruct fields as [ | | | | | | fields]; try discriminate.
    match type of H with
    | match ?m with Some _ => _ | None => _ end = _ =>
        destruct m as [name | ]; [ | discriminate]
    end.
    destruct (dict_get "id" r) as [id | ] eqn:I; [ | discriminate].
    match type of H with
    | Some ?X = Some _ => assert (auction = X) as -> by congruence
    end.
    clear H.
    exists r, id, name. do 2 eexists.
    split; [reflexivity | ]. split; [exact I | ]. split; [reflexivity | ].
    split; [now apply first_truthy_default | ].
    match goal with
    | |- context [first_truthy ?c ?d] =>
        destruct (first_truthy_or c d) as [G | G]; rewrite G; auto
    end.
  - match type of H with
    | match ?m with Some _ => _ | None => _ end = _ =>
        destruct m as [name | ]; [ | discriminate]
    end.
    destruct (dict_get "id" r) as [id | ] eqn:I; [ | discriminate].
    match type of H with
    | Some ?X = Some _ => assert (auction = X) as -> by congruence
    end.
    clear H.
    exists r, id, name. do 2 eexists.
    split; [reflexivity | ]. split; [exact I | ]. split; [reflexivity | ].
    split; [reflexivity | now right].
Qed.

Lemma auctions_of_records_shape : forall (lib : PyLib) records auctions,
  auctions_of_records records = Some auctions ->
  Forall2 auction_of records auctions.
Proof.
  intros lib. induction records as [ | record rest IH]; intros auctions H.
  - inversion H. constructor.
  - cbn [auctions_of_records] in H. unfold bind in H.
    destruct (auction_of_record record) as [auction | ] eqn:A; [ | discriminate].
    destruct (auctions_of_records rest) as [tail | ]; [ | discriminate].
    inversion H; subst.
    constructor; [now apply (auction_of_record_shape lib) | now apply IH].
Qed.

(** X20. An answer of [get_auctions] with status 200 needs both
    settings of Airtable and a response of status 200 with a JSON object;
    its body is success and the list of the auctions, one for each record
    and in the same order, each with the id of its record, a name that is a
    string and a status that is truthy. *)
Theorem get_auctions_answer_200 :
  forall (lib : PyLib) config got body,
  get_auctions config got = Json 200 body ->
  env_truthy (AIRTABLE_API_KEY config) = true
  /\ env_truthy (AIRTABLE_BASE_ID config) = true
  /\ exists response data auctions,
       got = Some response
       /\ api_status response = 200%Z
       /\ api_json response = Some (PDict data)
       /\ body = [ ("success", PBool true);
                   ("auctions", PList (map PDict auctions)) ]
       /\ match dict_get "records" data with
          | Some (PList records) => Forall2 auction_of records auctions
          | _ => auctions = []
          end.
Proof.
  intros lib config got body H. unfold get_auctions in H.
  destruct (env_truthy (AIRTABLE_API_KEY config)); [ | discriminate].
  destruct (env_truthy (AIRTABLE_BASE_ID config)); [ | discriminate].
  cbn [negb orb] in H. split; [reflexivity | ]. split; [reflexivity | ].
  destruct got as [response | ]; [ | discriminate].
  destruct (Z.eqb (api_status response) 200) eqn:S.
  - apply Z.eqb_eq in S.
    destruct (api_json response) as [[ | | | | | | data] | ] eqn:J;
      try discriminate.
    exists response, data.
    destruct (dict_get "records" data) as [[ | | | | s | l | d] | ];
      try discriminate.
    + destruct s; [ | discriminate]. inversion H; subst.
      exists []. repeat split; auto.
    + destruct (auctions_of_records l) as [auctions | ] eqn:A; [ | discriminate].
      inversion H; subst. exists auctions.
      split; [reflexivity | ]. split; [exact S | ]. split; [exact J | ].
      split; [reflexivity | ]. now apply (auctions_of_records_shape lib).
    + destruct d; [ | discriminate]. inversion H; subst.
      exists []. repeat split; auto.
    + cbn in H. inversion H; subst. exists []. repeat split; auto.
  - destruct (Z.eqb (api_status response) 404); [discriminate | ].
    destruct (if match api_content_type response with
                 | Some t => String.eqb t "application/json"
                 | None => false
                 end
              then api_json response else Some (PDict []));
      discriminate.
Qed.

Lemma get_auctions_answer_200_witness :
  exists auctions,
    get_auctions (lib := example_lib) example_config (Some auctions_response)
    = Json 200 [ ("success", PBool true);
                 ("auctions", PList (map PDict auctions)) ]
    /\ Forall2 auction_of auction_records auctions.
Proof.
  destruct (get_auctions_answer_200 example_lib example_config
              (Some auctions_response) _ eq_refl)
    as (_ & _ & response & data & auctions & G & _ & J & B & F).
  exists auctions.
  assert (response = auctions_response) as -> by congruence.
  assert (data = [("records", PList auction_records)]) as ->
    by (cbn in J; congruence).
  split; [exact (f_equal (Json 200%Z) B) | exact F].
Defined.

(** X19. An answer of [find_attachment_fields] with status 200 has the
    keys all_fields, potential_attachment_fields, recommendation and message;
    the recommendation is the first field whose name holds inspection and
    photo or image, else the first field whose name holds one of the six
    words, else [None]. *)
Theorem find_attachment_fields_answer_200 :
  forall config got body,
  find_attachment_fields config got = Json 200 body ->
  exists fields,
    body = attachment_results fields
    /\ map fst body
       = ["all_fields"; "potential_attachment_fields"; "recommendation";
          "message"]
    /\ dict_get "recommendation" body
       = Some match find is_inspection_photo fields with
              | Some field => PStr field
              | None =>
                  match find is_potential fields with
                  | Some field => PStr field
                  | None => PNone
                  end
              end.
Proof.
  intros config got body H. unfold find_attachment_fields in H.
  destruct (negb _ || negb _); [discriminate | ].
  destruct got as [response | ]; [ | discriminate].
  destruct (negb (Z.eqb (api_status response) 200)); [discriminate | ].
  destruct (api_json response) as [[ | | | | | | data] | ]; try discriminate.
  destruct (negb (py_truthy _)); [discriminate | ].
  destruct (first_record_fields _) as [fields | ]; [ | discriminate].
  inversion H; subst. exists fields. split; [reflexivity | ].
  destruct (attachment_results_recommendation fields) as (R & K). split; assumption.
Qed.

Lemma find_attachment_fields_answer_200_witness :
  exists fields,
    attachment_results ["SKU"; "Item Photos"; "Inspection Photos"]
    = attachment_results fields
    /\ map fst (attachment_results ["SKU"; "Item Photos"; "Inspection Photos"])
       = ["all_fields"; "potential_attachment_fields"; "recommendation";
          "message"]
    /\ dict_get "recommendation"
         (attachment_results ["SKU"; "Item Photos"; "Inspection Photos"])
       = Some match find is_inspection_photo fields with
              | Some field => PStr field
              | None =>
                  match find is_potential fields with
                  | Some field => PStr field
                  | None => PNone
                  end
              end.
Proof.
  apply (find_attachment_fields_answer_200 example_config
           (Some items_response)).
  reflexivity.
Defined.

Lemma photo_field_is_attachment_field : forall f,
  is_photo_field f = true -> is_attachment_field f = true.
Proof.
  intros f H. unfold is_photo_field in H.
  unfold is_attachment_field, config_words. cbn [existsb].
  destruct (PyStr.contains "photo" (PyStr.lower f)); [reflexivity | ].
  destruct (PyStr.contains "image" (PyStr.lower f)); [reflexivity | ].
  destruct (PyStr.contains "attachment" (PyStr.lower f)); [reflexivity | ].
  discriminate.
Qed.

Lemma attachment_field_is_potential : forall f,
  is_attachment_field f = true -> is_potential f = true.
Proof.
  intros f H. unfold is_attachment_field, config_words in H.
  unfold is_potential, attachment_words. cbn [existsb] in *.
  destruct (PyStr.contains "photo" (PyStr.lower f)); [reflexivity | ].
  destruct (PyStr.contains "image" (PyStr.lower f)); [reflexivity | ].
  destruct (PyStr.contains "attachment" (PyStr.lower f)); [reflexivity | ].
  destruct (PyStr.contains "file" (PyStr.lower f)); [reflexivity | ].
  destruct (PyStr.contains "picture" (PyStr.lower f)); [reflexivity | ].
  discriminate.
Qed.

Lemma incl_filter : forall (A : Type) (p q : A -> bool) l,
  (forall a, p a = true -> q a = true) -> incl (filter p l) (filter q l).
Proof.
  intros A p q l H a Ha. apply filter_In in Ha. destruct Ha as (I & P).
  apply filter_In. auto.
Qed.

Lemma dict_get_set_none : forall (V : Type) k k' (v : V) d,
  dict_get k d = None -> dict_get k (dict_set k' v d) <> None -> k = k'.
Proof.
  intros V k k' v d N S. destruct (String.eqb k k') eqn:E.
  - now apply String.eqb_eq.
  - rewrite dict_get_set_other in S by exact E. contradiction.
Qed.

Lemma attachment_results_potential : forall fields,
  dict_get "potential_attachment_fields" (attachment_results fields)
  = Some (PList (map PStr (filter is_potential fields))).
Proof.
  intros fields. unfold attachment_results.
  generalize (filter is_potential fields). intros potential.
  destruct (find is_inspection_photo potential); destruct potential;
    repeat match goal with
           | |- context [if ?b then _ else _] => destruct b
           end;
    repeat rewrite dict_get_set_other by reflexivity; reflexivity.
Qed.

(** X21. Whenever [check_config] reports possible attachment fields,
    [find_attachment_fields] answers with status 200 on the same response,
    and each of these fields is among its potential attachment fields (the
    words of the first are words of the second). *)
Theorem possible_fields_are_potential :
  forall env available cloud_name error_text got v,
  dict_get "possible_attachment_fields"
    (check_config env available cloud_name error_text got) = Some v ->
  exists fields body,
    find_attachment_fields env got = Json 200 body
    /\ v = PList (map PStr (filter is_attachment_field fields))
    /\ dict_get "potential_attachment_fields" body
       = Some (PList (map PStr (filter is_potential fields)))
    /\ incl (filter is_attachment_field fields) (filter is_potential fields)
    /\ filter is_attachment_field fields <> [].
Proof.
  intros env available cloud_name error_text got v H.
  unfold check_config in H. unfold find_attachment_fields.
  destruct (env_truthy (AIRTABLE_API_KEY env)); [ | discriminate H].
  destruct (env_truthy (AIRTABLE_BASE_ID env)); [ | discriminate H].
  cbn [andb negb orb] in *. unfold field_check, bind in H.
  destruct got as [response | ]; [ | discriminate H].
  destruct (Z.eqb (api_status response) 200); [ | discriminate H].
  cbn [negb]. unfold records_of in H.
  destruct (api_json response) as [[ | | | | | | data] | ]; try discriminate H.
  set (records := match dict_get "records" data with
                  | Some v => v
                  | None => PList []
                  end) in *.
  destruct (py_truthy records); [ | discriminate H]. cbn [negb].
  destruct (first_record_fields records) as [fields | ]; [ | discriminate H].
  exists fields. eexists. split; [reflexivity | ].
  destruct (filter is_attachment_field fields) as [ | f fs] eqn:F;
    [discriminate H | ].
  split; [rewrite dict_get_set_same in H; congruence | ].
  split; [ | split; [ | discriminate]].
  - apply attachment_results_potential.
  - rewrite <- F. apply incl_filter. exact attachment_field_is_potential.
Qed.

Lemma possible_fields_are_potential_witness :
  exists fields body,
    find_attachment_fields example_config (Some items_response) = Json 200 body
    /\ PList [PStr "Item Photos"; PStr "Inspection Photos"]
       = PList (map PStr (filter is_attachment_field fields))
    /\ dict_get "potential_attachment_fields" body
       = Some (PList (map PStr (filter is_potential fields)))
    /\ incl (filter is_attachment_field fields) (filter is_potential fields)
    /\ filter is_attachment_field fields <> [].
Proof.
  apply (possible_fields_are_potential example_config true (Some "demo")
           "" (Some items_response)).
  reflexivity.
Defined.

(** The part on the items writes two keys only. *)
Lemma items_check_other : forall items_response result result' k,
  items_check items_response result = Some result' ->
  String.eqb k "items_table_fields" = false ->
  String.eqb k "potential_photo_fields" = false ->
  dict_get k result' = dict_get k result.
Proof.
  intros items_response result result' k H K1 K2.
  unfold items_check, bind in H.
  destruct (Z.eqb (api_status items_response) 200); [ | congruence].
  destruct (records_of items_response) as [records | ]; [ | discriminate].
  destruct (py_truthy records); [ | congruence].
  destruct (first_record_fields records) as [fields | ]; [ | discriminate].
  destruct (filter is_photo_field fields);
    match type of H with Some ?X = Some _ => replace result' with X by congruence end;
    repeat rewrite dict_get_set_other by assumption; reflexivity.
Qed.

(** The keys that the part on the auctions may write. *)
Lemma auctions_check_keys : forall response result k,
  auctions_check response = Some result ->
  dict_get k result <> None ->
  In k ["airtable_connected"; "auctions_table_exists"; "status_code";
        "auction_fields"; "error"].
Proof.
  intros response result k H G. unfold auctions_check, bind in H.
  assert (forall d : list (string * pyval),
            map fst d = ["airtable_connected"; "auctions_table_exists";
                         "status_code"] ->
            forall k' v, In k' ["auction_fields"; "error"] ->
            dict_get k (dict_set k' v d) <> None ->
            In k ["airtable_connected"; "auctions_table_exists"; "status_code";
                  "auction_fields"; "error"]) as S.
  { intros d Hd k' v Hk' Hg.
    destruct (String.eqb k k') eqn:E.
    - apply String.eqb_eq in E. subst k'. simpl in Hk' |- *. tauto.
    - rewrite dict_get_set_other in Hg by exact E.
      assert (dict_has k d = true) as Hh
        by (unfold dict_has; destruct (dict_get k d); [reflexivity | contradiction]).
      apply dict_has_keys in Hh. rewrite Hd in Hh. simpl in Hh |- *. tauto. }
  assert (forall d : list (string * pyval),
            map fst d = ["airtable_connected"; "auctions_table_exists";
                         "status_code"] ->
            dict_get k d <> None ->
            In k ["airtable_connected"; "auctions_table_exists"; "status_code";
                  "auction_fields"; "error"]) as B.
  { intros d Hd Hg.
    assert (dict_has k d = true) as Hh
      by (unfold dict_has; destruct (dict_get k d); [reflexivity | contradiction]).
    apply dict_has_keys in Hh. rewrite Hd in Hh. simpl in Hh |- *. tauto. }
  destruct (Z.eqb (api_status response) 200).
  - destruct (records_of response) as [records | ]; [ | discriminate].
    destruct (py_truthy records).
    + destruct (first_record_fields records) as [fields | ]; [ | discriminate].
      match type of H with Some ?X = Some _ => replace result with X in G by congruence end.
      eapply S; [ | | exact G]; [reflexivity | simpl; tauto].
    + match type of H with Some ?X = Some _ => replace result with X in G by congruence end.
      eapply B; [ | exact G]. reflexivity.
  - match type of H with Some ?X = Some _ => replace result with X in G by congruence end.
    eapply S; [ | | exact G]; [reflexivity | simpl; tauto].
Qed.

(** X22. Whenever [test_airtable] reports potential photo fields,
    [check_config] reports possible attachment fields on the same response
    for the items, and each of the former is among the latter. *)
Theorem photo_fields_are_possible :
  forall config got got_items result v available cloud_name error_text,
  test_airtable config got got_items = Json 200 result ->
  dict_get "potential_photo_fields" result = Some v ->
  exists fields,
    v = PList (map PStr (filter is_photo_field fields))
    /\ dict_get "possible_attachment_fields"
         (check_config config available cloud_name error_text got_items)
       = Some (PList (map PStr (filter is_attachment_field fields)))
    /\ incl (filter is_photo_field fields)
         (filter is_attachment_field fields).
Proof.
  intros config got got_items result v available cloud_name error_text H G.
  unfold test_airtable in H. unfold check_config.
  destruct (env_truthy (AIRTABLE_API_KEY config)); [ | discriminate H].
  destruct (env_truthy (AIRTABLE_BASE_ID config)); [ | discriminate H].
  cbn [andb negb orb] in *. unfold bind in H.
  destruct got as [response | ]; [ | discriminate H].
  destruct (auctions_check response) as [result0 | ] eqn:A; [ | discriminate H].
  destruct got_items as [items_response | ]; [ | discriminate H].
  destruct (items_check items_response result0) as [result1 | ] eqn:I;
    [ | discriminate H].
  assert (result1 = result) as -> by congruence. clear H.
  assert (dict_get "potential_photo_fields" result0 = None) as N.
  { destruct (dict_get "potential_photo_fields" result0) eqn:E; [ | reflexivity].
    assert (dict_get "potential_photo_fields" result0 <> None) as E'
      by (rewrite E; discriminate).
    apply (auctions_check_keys _ _ _ A) in E'. simpl in E'.
    repeat (destruct E' as [E' | E']; [discriminate E' | ]). contradiction. }
  unfold items_check, bind in I. unfold field_check, bind.
  destruct (Z.eqb (api_status items_response) 200); [ | congruence].
  destruct (records_of items_response) as [records | ]; [ | discriminate].
  destruct (py_truthy records); [ | congruence].
  destruct (first_record_fields records) as [fields | ]; [ | discriminate].
  exists fields.
  assert (incl (filter is_photo_field fields) (filter is_attachment_field fields))
    as L by (apply incl_filter; exact photo_field_is_attachment_field).
  destruct (filter is_photo_field fields) as [ | p ps] eqn:P.
  - exfalso.
    match type of I with Some ?X = Some _ => replace result with X in G by congruence end.
    rewrite dict_get_set_other in G by reflexivity. congruence.
  - match type of I with Some ?X = Some _ => replace result with X in G by congruence end.
    rewrite dict_get_set_same in G. split; [congruence | ].
    split; [ | exact L].
    destruct (filter is_attachment_field fields) as [ | a l] eqn:F.
    + exfalso. apply (L p). now left.
    + apply dict_get_set_same.
Qed.

Lemma photo_fields_are_possible_witness :
  exists fields,
    PList [PStr "Item Photos"; PStr "Inspection Photos"]
    = PList (map PStr (filter is_photo_field fields))
    /\ dict_get "possible_attachment_fields"
         (check_config example_config true (Some "demo") ""
            (Some items_response))
       = Some (PList (map PStr (filter is_attachment_field fields)))
    /\ incl (filter is_photo_field fields)
         (filter is_attachment_field fields).
Proof.
  apply (photo_fields_are_possible example_config (Some auctions_response)
           (Some items_response) _ _ true (Some "demo") "" eq_refl).
  reflexivity.
Defined.

(** X23. An answer of [test_airtable] with status 200 tells how the
    request for the auctions ended: airtable_connected and
    auctions_table_exists say whether its status is 200, status_code holds
    the status, error is there exactly when the status is not 200 and holds
    the first 200 characters of the body, and auction_fields is there only
    when the status is 200. *)
Theorem test_airtable_answer_200 : forall config got got_items result,
  test_airtable config got got_items = Json 200 result ->
  exists response,
    got = Some response
    /\ let ok := Z.eqb (api_status response) 200 in
       dict_get "airtable_connected" result = Some (PBool ok)
       /\ dict_get "auctions_table_exists" result = Some (PBool ok)
       /\ dict_get "status_code" result = Some (PInt (api_status response))
       /\ dict_get "error" result
          = (if ok then None
             else Some (PStr (PyStr.prefix 200 (api_text response))))
       /\ (ok = false -> dict_get "auction_fields" result = None).
Proof.
  intros config got got_items result H. unfold test_airtable in H.
  destruct (negb _ || negb _); [discriminate H | ]. unfold bind in H.
  destruct got as [response | ]; [ | discriminate H].
  destruct (auctions_check response) as [result0 | ] eqn:A; [ | discriminate H].
  destruct got_items as [items_response | ]; [ | discriminate H].
  destruct (items_check items_response result0) as [result1 | ] eqn:I;
    [ | discriminate H].
  assert (result1 = result) as -> by congruence. clear H.
  exists response. split; [reflexivity | ]. intros ok.
  rewrite !(items_check_other _ _ _ _ I) by reflexivity.
  unfold auctions_check, bind in A. fold ok in A. clearbody ok.
  destruct ok.
  - destruct (records_of response) as [records | ]; [ | discriminate].
    destruct (py_truthy records).
    + destruct (first_record_fields records) as [fields | ]; [ | discriminate].
      match type of A with Some ?X = Some _ => replace result0 with X by congruence end.
      repeat split; try reflexivity; intros; discriminate.
    + match type of A with Some ?X = Some _ => replace result0 with X by congruence end.
      repeat split; try reflexivity; intros; discriminate.
  - match type of A with Some ?X = Some _ => replace result0 with X by congruence end.
    repeat split; reflexivity.
Qed.

Lemma test_airtable_answer_200_witness :
  exists result,
    test_airtable example_config (Some not_found_response)
      (Some items_response) = Json 200 result
    /\ dict_get "status_code" result = Some (PInt 404)
    /\ dict_get "error" result
       = Some (PStr (double_quoted "{'error': 'NOT_FOUND'}")).
Proof.
  eexists. split; [reflexivity | ].
  destruct (test_airtable_answer_200 example_config
              (Some not_found_response) (Some items_response) _ eq_refl)
    as (response & G & _ & _ & S & E & _).
  assert (response = not_found_response) as -> by congruence.
  split; [exact S | exact E].
Defined.

(** * The library at work *)

(** The membership test of the set takes [1], [1.0] and [True] for one
    image, as Python does. *)
Example numbers_are_one_image :
  unique_images (lib := example_lib) []
    [ PStr "https://shop.example/a.jpg"; PInt 1; PFloat "1.0"; PBool true;
      PFloat "0.5"; PStr "https://shop.example/a.jpg" ]
  = Some [PStr "https://shop.example/a.jpg"; PInt 1; PFloat "0.5"].
Proof. reflexivity. Qed.

(** The value of [0.1] is the float next to it, not the tenth. *)
Example value_of_a_tenth :
  value_of_repr "0.1" = FNum 7205759403792794 (-56)
  /\ value_of_repr "-2.5" = FNum (-5629499534213120) (-51)
  /\ value_of_repr "1e+16" = FNum 5000000000000000 1
  /\ fval_eqb (value_of_repr "1e+16") (FNum 10000000000000000 0) = true.
Proof. repeat split. Qed.

(** [urljoin] raises on an address with an open bracket, and the scraper
    has no handler for it. *)
Example bracket_raises :
  snd (scrape_product (lib := example_lib) (parser := parser_of bracket_soup)
         (init 0) 2000000 (Fetched widget_response) "https://shop.example/p/2")
  = Raises.
Proof. reflexivity. Qed.
